(** * The weather proxy route ([GET]) of the SkySense dashboard

    A shallow embedding of the route handler [GET] of
    [src/unnamed/part_000] (lines 119-277): the credential check, the choice
    of the provider query, the single outbound [fetch], the structural check
    of the decoded payload, the mapping of the payload to the record the
    page renders, and the [catch] block.

    The handler works on a value of type [any]: whatever JSON the provider
    answered.  The embedding keeps that: payloads are untyped [value]s and
    every property read, method call, truthiness test and conversion is the
    JavaScript one, with the [TypeError]s it can raise.

    The second part embeds the dashboard page ([src/app/page.tsx]) that
    calls the route: the handlers [fetchWeather], [fetchWeatherByCoords],
    [handleSearch] and [handleRetry], as functions on the page's state
    that also return the requests made; the page over time, with the
    auto-fetch effect, the position requests and the requests to the route
    that are still open, and the render each callback was made in;
    [getWeatherIcon]; and the temperature conversions of the page and of
    the chart component, with the unit helpers of the route's file.

    Modelling conventions.
    - A JavaScript number is [NaN], an infinity or an exact rational
      ([Finite q]).  The handler does no arithmetic on numbers besides
      [Math.round] and comparisons with integer literals, which are exact
      on rationals; every finite double is a rational.  The conversions of
      the page, the chart and the unit helpers do arithmetic: they are
      modelled on binary64 itself ([spec_float], 53 bits).
    - A JavaScript string is a [string]: each character stands for one
      UTF-16 code unit, so the model covers the strings whose code units
      are below 256.  [length], [substring], [toLowerCase], [includes],
      [replace] and [encodeURIComponent] are the platform's functions on
      those strings.
    - A payload is decoded JSON: its objects have the properties of the
      text and no method of their own.  The conversion of an object to a
      string or to a number ([Math.round], [>], [+], a template literal)
      raises a [TypeError] when the object, or an object inside an array
      that is converted, has a [toString] property of its own; otherwise
      an object converts to [[object Object]] and to [NaN].
    - Two conversions of the platform are left as parameters of the
      development (Section variables): the parsing of a numeric string
      ([StringToNumber]) and the printing of a finite number
      ([NumberToString]).  No statement below depends on what they answer. *)

From Stdlib Require Import String Ascii List ZArith QArith Qround Bool Lia.
From Stdlib Require Import DecimalString SpecFloat.
Import ListNotations.

Set Warnings "-register-all".
Local Open Scope list_scope.
Local Open Scope string_scope.

(** ** Strings of the platform *)

(** [s.length] *)
Definition String_length (s : string) : nat := String.length s.

(** [s.substring(start, end)]: both indices are clamped to the length of
    the string and swapped when [start > end]. *)
Definition String_substring (s : string) (start end_ : nat) : string :=
  let lo := Nat.min start end_ in
  let hi := Nat.max start end_ in
  String.substring lo (hi - lo) s.

(** One code unit of [toLowerCase], on the code units below 256: the ASCII
    capitals and the Latin-1 capitals U+00C0 to U+00DE, the multiplication
    sign U+00D7 apart, move up by 32. *)
Definition lower_unit (c : ascii) : ascii :=
  let n := nat_of_ascii c in
  if ((65 <=? n) && (n <=? 90))%nat then ascii_of_nat (n + 32)
  else if ((192 <=? n) && (n <=? 222) && negb (n =? 215))%nat
       then ascii_of_nat (n + 32)
       else c.

(** [s.toLowerCase()] *)
Fixpoint String_toLowerCase (s : string) : string :=
  match s with
  | EmptyString => EmptyString
  | String c s' => String (lower_unit c) (String_toLowerCase s')
  end.

(** [s.startsWith(p)] *)
Fixpoint String_startsWith (s p : string) : bool :=
  match p, s with
  | EmptyString, _ => true
  | String _ _, EmptyString => false
  | String a p', String b s' => Ascii.eqb a b && String_startsWith s' p'
  end.

(** [s.includes(needle)] *)
Fixpoint String_includes (s needle : string) : bool :=
  if String_startsWith s needle then true
  else match s with
       | EmptyString => false
       | String _ s' => String_includes s' needle
       end.

(** The string without its first [n] code units. *)
Fixpoint String_drop (n : nat) (s : string) : string :=
  match n, s with
  | O, _ => s
  | S _, EmptyString => EmptyString
  | S n', String _ s' => String_drop n' s'
  end.

(** [s.replace(pattern, replacement)] for a string pattern and a replacement
    without [$]: the first occurrence of the pattern, if any, is replaced. *)
Fixpoint String_replace (s pattern replacement : string) : string :=
  if String_startsWith s pattern
  then replacement ++ String_drop (String.length pattern) s
  else match s with
       | EmptyString => EmptyString
       | String c s' => String c (String_replace s' pattern replacement)
       end.

(** The characters [encodeURIComponent] leaves as they are:
    letters, digits and [- _ . ! ~ * ' ( )]. *)
Definition uri_unreserved (c : ascii) : bool :=
  let n := nat_of_ascii c in
  (((65 <=? n) && (n <=? 90)) || ((97 <=? n) && (n <=? 122))
   || ((48 <=? n) && (n <=? 57))
   || (n =? 45) || (n =? 95) || (n =? 46) || (n =? 33) || (n =? 126)
   || (n =? 42) || (n =? 39) || (n =? 40) || (n =? 41))%nat.

Definition hex_digit (n : nat) : ascii :=
  match String.get n "0123456789ABCDEF" with
  | Some c => c
  | None => "0"%char
  end.

(** [%XX] for one byte. *)
Definition percent_byte (n : nat) : string :=
  String "%" (String (hex_digit (n / 16)) (String (hex_digit (n mod 16)) EmptyString)).

(** The escape of one code unit below 256: one byte below 128, else the two
    bytes of its UTF-8 encoding. *)
Definition encode_unit (c : ascii) : string :=
  let n := nat_of_ascii c in
  if uri_unreserved c then String c EmptyString
  else if (n <? 128)%nat then percent_byte n
       else percent_byte (192 + n / 64) ++ percent_byte (128 + n mod 64).

(** [encodeURIComponent(s)] *)
Fixpoint encodeURIComponent (s : string) : string :=
  match s with
  | EmptyString => EmptyString
  | String c s' => encode_unit c ++ encodeURIComponent s'
  end.

(** ** Numbers and values *)

Inductive number : Type :=
| NaN
| Infinity (negative : bool)
| Finite (q : Q).

(** [Math.round] on a number: the nearest integer, a tie going up. *)
Definition round_number (n : number) : number :=
  match n with
  | Finite q => Finite (inject_Z (Qfloor (q + (1 # 2))))
  | other => other
  end.

(** A finite integer. *)
Definition is_integer (n : number) : bool :=
  match n with
  | Finite q => Qeq_bool q (inject_Z (Qfloor q))
  | _ => false
  end.

(** [n > k] for an integer literal [k]; a comparison with [NaN] is false. *)
Definition number_gt (n : number) (k : Z) : bool :=
  match n with
  | NaN => false
  | Infinity negative => negb negative
  | Finite q => negb (Qle_bool q (inject_Z k))
  end.

(** The values the handler sees: decoded JSON, and what its own expressions
    add to it ([undefined], numbers that are not finite). *)
Inductive value : Type :=
| VUndefined
| VNull
| VBool (b : bool)
| VNumber (n : number)
| VString (s : string)
| VArray (elems : list value)
| VObject (props : list (string * value)).

Definition VInt (z : Z) : value := VNumber (Finite (inject_Z z)).

(** The first binding of a key in a property list. *)
Fixpoint lookup (k : string) (props : list (string * value)) : option value :=
  match props with
  | [] => None
  | (k', v) :: rest => if String.eqb k k' then Some v else lookup k rest
  end.

(** The value of an own property, [undefined] when there is none. *)
Definition own (k : string) (props : list (string * value)) : value :=
  match lookup k props with
  | Some v => v
  | None => VUndefined
  end.

(** The field of an object value ([undefined] for anything else). *)
Definition field (k : string) (v : value) : value :=
  match v with
  | VObject props => own k props
  | _ => VUndefined
  end.

(** A value that is a finite integer. *)
Definition integer_valued (v : value) : bool :=
  match v with
  | VNumber n => is_integer n
  | _ => false
  end.

(** The text of a string value. *)
Definition text_of (v : value) : string :=
  match v with
  | VString s => s
  | _ => ""
  end.

(** Truthiness: what [if (v)], [!v], [v || w] and [v && w] test. *)
Definition truthy (v : value) : bool :=
  match v with
  | VUndefined | VNull => false
  | VBool b => b
  | VNumber NaN => false
  | VNumber (Infinity _) => true
  | VNumber (Finite q) => negb (Qeq_bool q 0)
  | VString s => negb (String.eqb s "")
  | VArray _ | VObject _ => true
  end.

(** [a || b] *)
Definition or_else (a b : value) : value := if truthy a then a else b.

(** [Array.isArray(v)] *)
Definition Array_isArray (v : value) : bool :=
  match v with
  | VArray _ => true
  | _ => false
  end.

(** ** Exceptions *)

Record error : Type := mkError { error_name : string; error_message : string }.

Definition TypeError (msg : string) : error := mkError "TypeError" msg.
Definition RangeError (msg : string) : error := mkError "RangeError" msg.

Inductive result (A : Type) : Type :=
| Ok (a : A)
| Throw (e : error).
Arguments Ok {A} a.
Arguments Throw {A} e.

Definition bind {A B : Type} (m : result A) (f : A -> result B) : result B :=
  match m with
  | Ok a => f a
  | Throw e => Throw e
  end.

Notation "x <- m ;; k" := (bind m (fun x => k))
  (at level 61, m at next level, right associativity).

(** [xs.map(f)] over the elements of an array, left to right; the first
    exception ends it. *)
Fixpoint mapM {A B : Type} (f : A -> result B) (xs : list A) : result (list B) :=
  match xs with
  | [] => Ok []
  | x :: rest =>
      y <- f x ;;
      ys <- mapM f rest ;;
      Ok (y :: ys)
  end.

(** The message of reading a property of [undefined] or [null]. *)
Definition cannot_read (of_null : bool) (k : string) : error :=
  TypeError ("Cannot read properties of "
             ++ (if of_null then "null" else "undefined")
             ++ " (reading '" ++ k ++ "')").

(** [v.k] for a data key [k] (no key the handler reads is a built-in member
    of a string, an array, a number or a boolean, [length] apart). *)
Definition getprop (v : value) (k : string) : result value :=
  match v with
  | VUndefined => Throw (cannot_read false k)
  | VNull => Throw (cannot_read true k)
  | VObject props => Ok (own k props)
  | VArray elems =>
      if String.eqb k "length" then Ok (VInt (Z.of_nat (List.length elems)))
      else Ok VUndefined
  | VString s =>
      if String.eqb k "length" then Ok (VInt (Z.of_nat (String_length s)))
      else Ok VUndefined
  | VBool _ | VNumber _ => Ok VUndefined
  end.

(** [v?.k] *)
Definition optprop (v : value) (k : string) : result value :=
  match v with
  | VUndefined | VNull => Ok VUndefined
  | _ => getprop v k
  end.

(** The decimal name of a small index, as an object's key. *)
Definition index_key (i : nat) : string :=
  match i with
  | 0%nat => "0"
  | 1%nat => "1"
  | _ => ""
  end.

(** [v[i]] for the indices the handler uses, 0 and 1. *)
Definition getindex (v : value) (i : nat) : result value :=
  match v with
  | VUndefined => Throw (cannot_read false (index_key i))
  | VNull => Throw (cannot_read true (index_key i))
  | VArray elems => Ok (nth i elems VUndefined)
  | VString s =>
      match String.get i s with
      | Some c => Ok (VString (String c EmptyString))
      | None => Ok VUndefined
      end
  | VObject props => Ok (own (index_key i) props)
  | VBool _ | VNumber _ => Ok VUndefined
  end.

(** Calling a method that only strings have; [callee] is the callee as the
    source writes it, which the engine quotes when it is not a function. *)
Definition string_method (recv : value) (method callee : string)
    (f : string -> string) : result value :=
  match recv with
  | VUndefined => Throw (cannot_read false method)
  | VNull => Throw (cannot_read true method)
  | VString s => Ok (VString (f s))
  | _ => Throw (TypeError (callee ++ " is not a function"))
  end.

(** [recv.map(f)]: only arrays have [map]. *)
Definition Array_map (recv : value) (callee : string)
    (f : value -> result value) : result value :=
  match recv with
  | VUndefined => Throw (cannot_read false "map")
  | VNull => Throw (cannot_read true "map")
  | VArray elems => elems' <- mapM f elems ;; Ok (VArray elems')
  | _ => Throw (TypeError (callee ++ " is not a function"))
  end.

(** ** Sample payloads

    Provider payloads in the shape of the provider's documentation, used to
    run the handler on concrete inputs. *)

Definition decimal (n : Z) (d : positive) : value := VNumber (Finite (n # d)).

Definition condition_of (text icon : string) : value :=
  VObject [("text", VString text); ("icon", VString icon)].

Definition two_digits (n : nat) : string :=
  String (ascii_of_nat (48 + n / 10))
    (String (ascii_of_nat (48 + n mod 10)) EmptyString).

(** The record of hour [h] of 14 November 2023. *)
Definition hour_at (h : nat) : value :=
  VObject [("time", VString ("2023-11-14 " ++ two_digits h ++ ":00"));
           ("temp_c", decimal (Z.of_nat (105 + 3 * h)) 10);
           ("condition", condition_of "Partly Cloudy" "//cdn.weatherapi.com/116.png");
           ("humidity", VInt 71);
           ("wind_kph", decimal 76 10)].

Definition hours24 : list value := map hour_at (seq 0 24).

(** A day record with the given epoch and [hour] field. *)
Definition day_of (epoch : Z) (hour : list (string * value)) : value :=
  VObject ([("date_epoch", VInt epoch);
            ("day", VObject [("maxtemp_c", decimal 215 10);
                             ("mintemp_c", decimal 124 10);
                             ("avgtemp_c", decimal 165 10);
                             ("condition",
                              condition_of "Sunny" "//cdn.weatherapi.com/113.png")]);
            ("astro", VObject [("sunrise", VString "06:12 AM");
                               ("sunset", VString "07:45 PM")])] ++ hour)%list.

Definition sample_location : value :=
  VObject [("name", VString "London"); ("country", VString "United Kingdom");
           ("tz_id", VString "Europe/London");
           ("lat", decimal 5152 100); ("lon", decimal (-11) 100)].

(** Current conditions with a UV index of 5.5. *)
Definition sample_current : value :=
  VObject [("temp_c", decimal 185 10);
           ("condition", condition_of "Light Rain" "//cdn.weatherapi.com/296.png");
           ("humidity", VInt 82); ("wind_kph", decimal 133 10);
           ("wind_degree", VInt 240); ("uv", decimal 11 2);
           ("vis_km", decimal 95 10); ("pressure_mb", VInt 1012);
           ("feelslike_c", decimal 179 10)].

Definition payload_of (days : list value) (alerts : list (string * value)) : value :=
  VObject ([("location", sample_location);
            ("current", sample_current);
            ("forecast", VObject [("forecastday", VArray days)])] ++ alerts)%list.

(** An alert with an event name and nothing else. *)
Definition alert_without_desc : value :=
  VObject [("event", VString "Flood Warning")].

(** Today with its 24 hours and nothing else: no tomorrow, no alerts. *)
Definition single_day : value :=
  payload_of [day_of 1699920000 [("hour", VArray hours24)]] [].

(** Today with one hour, tomorrow without an [hour] field, one alert. *)
Definition two_days : value :=
  payload_of [day_of 1699920000 [("hour", VArray [hour_at 0])];
              day_of 1700006400 []]
             [("alerts", VObject [("alert", VArray [alert_without_desc])])].

(** Eight forecast days, none with hours. *)
Definition eight_days : value :=
  payload_of (map (fun i => day_of (1699920000 + 86400 * Z.of_nat i) []) (seq 0 8)) [].

(** A payload without the [current] section. *)
Definition without_current : value :=
  VObject [("location", sample_location);
           ("forecast", VObject [("forecastday", VArray [day_of 1699920000 []])])].

(** An alert with a headline, a severity and a description of 250 code
    units. *)
Definition long_alert : value :=
  VObject [("headline", VString "Heat advisory");
           ("desc", VString (string_of_list_ascii (repeat "x"%char 250)));
           ("severity", VString "severe")].

(** ** Conversions and operators *)

Section Platform.

(** The platform's parsing of a string as a number, and its printing of a
    finite number. *)
Variable StringToNumber : string -> number.
Variable NumberToString : Q -> string.

Definition Number_toString (n : number) : string :=
  match n with
  | NaN => "NaN"
  | Infinity false => "Infinity"
  | Infinity true => "-Infinity"
  | Finite q => NumberToString q
  end.

(** The text of a value where [ToString] gives one: an array prints its
    elements joined by commas ([null] and [undefined] elements as
    nothing), an object prints as [[object Object]]. *)
Fixpoint printed (v : value) : string :=
  match v with
  | VUndefined => "undefined"
  | VNull => "null"
  | VBool true => "true"
  | VBool false => "false"
  | VNumber n => Number_toString n
  | VString s => s
  | VArray elems =>
      (fix join (l : list value) : string :=
         match l with
         | [] => ""
         | x :: rest =>
             let sx := match x with
                       | VUndefined | VNull => ""
                       | _ => printed x
                       end in
             match rest with
             | [] => sx
             | _ :: _ => sx ++ "," ++ join rest
             end
         end) elems
  | VObject _ => "[object Object]"
  end.

(** The number of a value where [ToNumber] gives one. *)
Definition numeric (v : value) : number :=
  match v with
  | VUndefined => NaN
  | VNull => Finite 0
  | VBool true => Finite 1
  | VBool false => Finite 0
  | VNumber n => n
  | VString s => StringToNumber s
  | VArray _ => StringToNumber (printed v)
  | VObject _ => NaN
  end.

(** What [Math.round] gives where it gives a value. *)
Definition rounded (v : value) : value := VNumber (round_number (numeric v)).

(** What [v > k] gives where it gives a value. *)
Definition exceeds (v : value) (k : Z) : bool := number_gt (numeric v) k.

(** [ToPrimitive] on decoded data.  A decoded object has no method of its
    own, so it converts through [Object.prototype.toString]; but when it
    has an own property [toString], that property is not callable, and
    [valueOf] (the inherited one returns the object, an own one is not
    callable either) gives no primitive: the conversion raises a
    [TypeError].  An array converts through [join], which converts every
    element. *)
Fixpoint convertible (v : value) : bool :=
  match v with
  | VObject props =>
      match lookup "toString" props with
      | Some _ => false
      | None => true
      end
  | VArray elems => forallb convertible elems
  | _ => true
  end.

Definition not_primitive : error :=
  TypeError "Cannot convert object to primitive value".

(** [String(v)], as template literals, string concatenation and
    [new Error(v)] apply it. *)
Definition ToString (v : value) : result string :=
  if convertible v then Ok (printed v) else Throw not_primitive.

(** [Number(v)] *)
Definition ToNumber (v : value) : result number :=
  if convertible v then Ok (numeric v) else Throw not_primitive.

(** [Math.round(v)] *)
Definition Math_round (v : value) : result value :=
  n <- ToNumber v ;; Ok (VNumber (round_number n)).

(** [v > k] for an integer literal [k] *)
Definition gt (v : value) (k : Z) : result bool :=
  n <- ToNumber v ;; Ok (number_gt n k).

(** [v + s] for a string [s]: string concatenation. *)
Definition plus_string (v : value) (s : string) : result value :=
  t <- ToString v ;; Ok (VString (t ++ s)).

(** ** The mapping of the payload (lines 169-254) *)

(** Lines 178-184, and again 193-199: one hour record. *)
Definition mapHour (h : value) : result value :=
  time <- getprop h "time" ;;
  hhmm <- string_method time "substring" "h.time.substring"
            (fun s => String_substring s 11 16) ;;
  temp_c <- getprop h "temp_c" ;;
  temp <- Math_round temp_c ;;
  condition <- getprop h "condition" ;;
  text <- getprop condition "text" ;;
  lower <- string_method text "toLowerCase" "h.condition.text.toLowerCase"
             String_toLowerCase ;;
  humidity <- getprop h "humidity" ;;
  wind_kph <- getprop h "wind_kph" ;;
  windSpeed <- Math_round wind_kph ;;
  Ok (VObject [("time", hhmm);
               ("temp", temp);
               ("condition", lower);
               ("humidity", humidity);
               ("windSpeed", windSpeed)]).

(** Lines 176-185 for [today], 188 and 192-200 for [tomorrow]: the hourly
    list of a day, empty unless [day.hour] is an array. *)
Definition hourlyOf (day : value) (expr : string) : result value :=
  hour <- getprop day "hour" ;;
  if truthy hour && Array_isArray hour
  then Array_map hour (expr ++ ".hour.map") mapHour
  else Ok (VArray []).

(** Lines 201-208: the summary of tomorrow's [day] block. *)
Definition daySummary (tomorrow : value) : result value :=
  day <- getprop tomorrow "day" ;;
  avgtemp_c <- getprop day "avgtemp_c" ;;
  temp <- Math_round avgtemp_c ;;
  mintemp_c <- getprop day "mintemp_c" ;;
  min <- Math_round mintemp_c ;;
  maxtemp_c <- getprop day "maxtemp_c" ;;
  max <- Math_round maxtemp_c ;;
  condition <- getprop day "condition" ;;
  text <- getprop condition "text" ;;
  lower <- string_method text "toLowerCase"
             "tomorrow.day.condition.text.toLowerCase"
             String_toLowerCase ;;
  icon <- getprop condition "icon" ;;
  Ok (VObject [("temp", temp);
               ("min", min);
               ("max", max);
               ("condition", lower);
               ("description", text);
               ("icon", icon)]).

(** Lines 212-220: one entry of the daily forecast. *)
Definition mapDay (d : value) : result value :=
  date_epoch <- getprop d "date_epoch" ;;
  day <- getprop d "day" ;;
  avgtemp_c <- getprop day "avgtemp_c" ;;
  temp <- Math_round avgtemp_c ;;
  mintemp_c <- getprop day "mintemp_c" ;;
  min <- Math_round mintemp_c ;;
  maxtemp_c <- getprop day "maxtemp_c" ;;
  max <- Math_round maxtemp_c ;;
  condition <- getprop day "condition" ;;
  text <- getprop condition "text" ;;
  lower <- string_method text "toLowerCase" "day.day.condition.text.toLowerCase"
             String_toLowerCase ;;
  icon <- getprop condition "icon" ;;
  Ok (VObject [("dt", date_epoch);
               ("temp", temp);
               ("min", min);
               ("max", max);
               ("condition", lower);
               ("description", text);
               ("icon", icon)]).

(** Line 225, left operand of [+]: [alert.desc?.substring(0, 200)]. *)
Definition desc_head (desc : value) : result value :=
  match desc with
  | VUndefined | VNull => Ok VUndefined
  | _ => string_method desc "substring" "alert.desc?.substring"
           (fun s => String_substring s 0 200)
  end.

(** Lines 223-227: one alert.  In line 225 [+] binds tighter than [||]:
    the description is [(head + tail) || ""]. *)
Definition mapAlert (alert : value) : result value :=
  event <- getprop alert "event" ;;
  headline <- getprop alert "headline" ;;
  desc <- getprop alert "desc" ;;
  head <- desc_head desc ;;
  len <- optprop desc "length" ;;
  long <- gt len 200 ;;
  sum <- plus_string head (if long then "..." else "") ;;
  severity <- getprop alert "severity" ;;
  Ok (VObject [("title", or_else (or_else event headline) (VString "Alert"));
               ("description", or_else sum (VString ""));
               ("severity", or_else severity (VString "moderate"))]).

(** Lines 188-209: tomorrow's hourly list and summary, [[]] and [null] when
    the forecast has a single day. *)
Definition tomorrowOf (forecastday : value) : result (value * value) :=
  n <- getprop forecastday "length" ;;
  more <- gt n 1 ;;
  if more then
    tomorrow <- getindex forecastday 1 ;;
    tomorrowHourlyForecast <- hourlyOf tomorrow "tomorrow" ;;
    tomorrowDaySummary <- daySummary tomorrow ;;
    Ok (tomorrowHourlyForecast, tomorrowDaySummary)
  else Ok (VArray [], VNull).

(** Line 253: [mappedAlerts.length > 0 ? mappedAlerts : undefined]. *)
Definition alertsField (mappedAlerts : value) : result value :=
  n <- getprop mappedAlerts "length" ;;
  some <- gt n 0 ;;
  Ok (if some then mappedAlerts else VUndefined).

(** Line 173: [data.alerts?.alert || []]. *)
Definition alertsOf (data : value) : result value :=
  a <- getprop data "alerts" ;;
  alert <- optprop a "alert" ;;
  Ok (or_else alert (VArray [])).

(** Line 165, third operand: [data.forecast?.forecastday]. *)
Definition forecastdayOf (data : value) : result value :=
  forecast <- getprop data "forecast" ;;
  optprop forecast "forecastday".

(** Lines 170-254: [formattedResponse], the object handed to
    [NextResponse.json]. *)
Definition normalize (data : value) : result value :=
  current <- getprop data "current" ;;
  location <- getprop data "location" ;;
  forecast <- getprop data "forecast" ;;
  forecastday <- getprop forecast "forecastday" ;;
  today <- getindex forecastday 0 ;;
  alerts <- alertsOf data ;;
  hourlyForecast <- hourlyOf today "today" ;;
  tomorrow <- tomorrowOf forecastday ;;
  dailyForecast <- Array_map forecastday "data.forecast.forecastday.map" mapDay ;;
  mappedAlerts <- Array_map alerts "alerts.map" mapAlert ;;
  name <- getprop location "name" ;;
  country <- getprop location "country" ;;
  temp_c <- getprop current "temp_c" ;;
  temperature <- Math_round temp_c ;;
  condition <- getprop current "condition" ;;
  text <- getprop condition "text" ;;
  humidity <- getprop current "humidity" ;;
  wind_kph <- getprop current "wind_kph" ;;
  windSpeed <- Math_round wind_kph ;;
  wind_degree <- getprop current "wind_degree" ;;
  uv <- getprop current "uv" ;;
  vis_km <- getprop current "vis_km" ;;
  visibility <- Math_round vis_km ;;
  pressure_mb <- getprop current "pressure_mb" ;;
  feelslike_c <- getprop current "feelslike_c" ;;
  feelsLike <- Math_round feelslike_c ;;
  day <- getprop today "day" ;;
  maxtemp_c <- getprop day "maxtemp_c" ;;
  high <- Math_round maxtemp_c ;;
  mintemp_c <- getprop day "mintemp_c" ;;
  low <- Math_round mintemp_c ;;
  astro <- getprop today "astro" ;;
  sunrise <- getprop astro "sunrise" ;;
  sunset <- getprop astro "sunset" ;;
  tz_id <- getprop location "tz_id" ;;
  lat <- getprop location "lat" ;;
  lon <- getprop location "lon" ;;
  alertsOut <- alertsField mappedAlerts ;;
  Ok (VObject [("city", name);
               ("country", country);
               ("temperature", temperature);
               ("condition", text);
               ("description", text);
               ("humidity", humidity);
               ("windSpeed", windSpeed);
               ("windDirection", wind_degree);
               ("uvIndex", uv);
               ("visibility", visibility);
               ("pressure", pressure_mb);
               ("feelsLike", feelsLike);
               ("high", high);
               ("low", low);
               ("sunrise", sunrise);
               ("sunset", sunset);
               ("timezone", tz_id);
               ("coordinates", VObject [("lat", lat); ("lon", lon)]);
               ("hourlyForecast", hourlyForecast);
               ("tomorrowHourlyForecast", fst tomorrow);
               ("tomorrowDaySummary", snd tomorrow);
               ("dailyForecast", dailyForecast);
               ("alerts", alertsOut)]).

(** ** The response body *)

(** What [JSON.stringify] keeps of a value (and the client's [JSON.parse]
    reads back): a property whose value is [undefined] is left out, an
    [undefined] array element and a number that is not finite become
    [null]. *)
Definition keep_defined (f : value -> value) :
    list (string * value) -> list (string * value) :=
  fix keep (l : list (string * value)) : list (string * value) :=
    match l with
    | [] => []
    | (k, VUndefined) :: rest => keep rest
    | (k, x) :: rest => (k, f x) :: keep rest
    end.

Fixpoint toJSON (v : value) : value :=
  match v with
  | VNumber NaN => VNull
  | VNumber (Infinity _) => VNull
  | VArray elems =>
      VArray (map (fun x => match x with
                            | VUndefined => VNull
                            | _ => toJSON x
                            end) elems)
  | VObject props => VObject (keep_defined toJSON props)
  | other => other
  end.

(** Whether an object carries a key at all. *)
Definition has_own (k : string) (v : value) : bool :=
  match v with
  | VObject props =>
      match lookup k props with
      | Some _ => true
      | None => false
      end
  | _ => false
  end.

Record NextResponse : Type :=
  mkResponse { status : Z; body : value; headers : list (string * string) }.

Definition dquote : string := String (ascii_of_nat 34) EmptyString.

(** [NextResponse.json(data, { status, headers })]: the body is the JSON
    text of [data].  The [Response] constructor refuses a status outside
    200..599 with a [RangeError], and a body together with one of the
    statuses that carry none (204, 205, 304) with a [TypeError]. *)
Definition NextResponse_json (data : value) (st : Z)
    (hs : list (string * string)) : result NextResponse :=
  if negb ((200 <=? st) && (st <=? 599))%Z
  then Throw (RangeError ("init[" ++ dquote ++ "status" ++ dquote
                          ++ "] must be in the range of 200 to 599, inclusive."))
  else if ((st =? 204) || (st =? 205) || (st =? 304))%Z
  then Throw (TypeError ("Response constructor: Invalid response status code "
                         ++ (if (st =? 204)%Z then "204"
                             else if (st =? 205)%Z then "205" else "304")))
  else Ok (mkResponse st (toJSON data) hs).

(** [{ error: msg }] *)
Definition error_body (msg : string) : value := VObject [("error", VString msg)].

(** ** The request, the provider and the console *)

(** [request.nextUrl.searchParams.get(..)] for the three parameters read
    (lines 122-124): [None] is [null]. *)
Record NextRequest : Type :=
  mkRequest { city : option string; lat : option string; lon : option string }.

(** A string or [null]/[undefined] that is truthy: present and not empty. *)
Definition truthy_param (p : option string) : option string :=
  match p with
  | Some s => if String.eqb s "" then None else Some s
  | None => None
  end.

(** Lines 136-143: the provider query, [None] where the handler answers
    400. *)
Definition queryParam (request : NextRequest) : option string :=
  match truthy_param (lat request), truthy_param (lon request) with
  | Some la, Some lo => Some (la ++ "," ++ lo)
  | _, _ => truthy_param (city request)
  end.

(** Line 146: the provider URL. *)
Definition request_url (apiKey q : string) : string :=
  "https://api.weatherapi.com/v1/forecast.json?key=" ++ apiKey
  ++ "&q=" ++ encodeURIComponent q ++ "&days=7&aqi=no&alerts=yes".

(** What the provider does with a request: the [fetch] rejects, or a
    response arrives with a status and a body that [json()] decodes or
    rejects. *)
Inductive fetch_reply : Type :=
| Rejects (e : error)
| Responds (st : Z) (json : result value).

(** [weatherResponse.ok] *)
Definition ok (st : Z) : bool := ((200 <=? st) && (st <=? 299))%Z.

Inductive log_arg : Type :=
| LogString (s : string)
| LogNumber (z : Z)
| LogValue (v : value)
| LogError (e : error).

(** What a run does besides answering: console lines and outbound calls. *)
Inductive event : Type :=
| console_log (args : list log_arg)
| console_error (args : list log_arg)
| fetch_call (url : string) (hs : list (string * string)).

(** A computation of the handler: the events so far and its outcome. *)
Definition io (A : Type) : Type := (list event * result A)%type.

Definition bind_io {A B : Type} (m : io A) (f : A -> io B) : io B :=
  match m with
  | (t, Ok a) => let (t', r) := f a in ((t ++ t')%list, r)
  | (t, Throw e) => (t, Throw e)
  end.

Notation "x <~ m ;; k" := (bind_io m (fun x => k))
  (at level 61, m at next level, right associativity).
Notation "m ;;; k" := (bind_io m (fun _ => k))
  (at level 61, right associativity).

Definition emit (e : event) : io unit := ([e], Ok tt).
Definition lift {A : Type} (r : result A) : io A := ([], r).

(** [try { body } catch (error) { handler }] *)
Definition try_catch {A : Type} (body : io A) (handler : error -> io A) : io A :=
  match body with
  | (t, Ok a) => (t, Ok a)
  | (t, Throw e) => let (t', r) := handler e in ((t ++ t')%list, r)
  end.

(** ** The handler *)

(** Line 165: the structural check; [false] where the handler answers
    502. *)
Definition accepted (data : value) : result bool :=
  location <- getprop data "location" ;;
  if negb (truthy location) then Ok false else
  current <- getprop data "current" ;;
  if negb (truthy current) then Ok false else
  forecastday <- forecastdayOf data ;;
  Ok (truthy forecastday).

(** Lines 155-162: the provider answered with a status that is not 2xx. *)
Definition upstream_error (st : Z) (json : result value) : io NextResponse :=
  let errorData := match json with
                   | Ok v => v
                   | Throw _ => VObject []
                   end in
  emit (console_error [LogString "WeatherAPI error:"; LogNumber st;
                            LogValue errorData]) ;;;
  err <~ lift (getprop errorData "error") ;;
  msg <~ lift (optprop err "message") ;;
  text <~ lift (ToString (or_else msg (VString "Unknown error"))) ;;
  lift (NextResponse_json (error_body ("Weather service error: " ++ text)) st []).

(** Lines 164-262: the provider answered 2xx. *)
Definition upstream_ok (json : result value) : io NextResponse :=
  data <~ lift json ;;
  valid <~ lift (accepted data) ;;
  if negb valid
  then lift (NextResponse_json
               (error_body "Invalid weather data received from service") 502 [])
  else
    formattedResponse <~ lift (normalize data) ;;
    name <~ lift (getprop formattedResponse "city") ;;
    emit (console_log [LogString "Successfully processed weather data for:";
                            LogValue name]) ;;;
    lift (NextResponse_json formattedResponse 200
            [("Cache-Control", "public, max-age=600")]).

(** Lines 121-262: the body of the [try]. *)
Definition GET_try (WEATHERAPI_KEY : option string)
    (fetch : string -> fetch_reply) (request : NextRequest) : io NextResponse :=
  match truthy_param WEATHERAPI_KEY with
  | None =>
      emit (console_error [LogString "WeatherAPI key not configured"]) ;;;
      lift (NextResponse_json
              (error_body "Weather service is not configured. Please contact the administrator.")
              500 [])
  | Some apiKey =>
      match queryParam request with
      | None =>
          lift (NextResponse_json
                  (error_body "Please provide either a city name or coordinates")
                  400 [])
      | Some q =>
          let url := request_url apiKey q in
          emit (console_log [LogString "Fetching weather data from:";
                                  LogString (String_replace url apiKey "[API_KEY]")]) ;;;
          emit (fetch_call url [("User-Agent", "SkySense-WeatherApp/1.0")]) ;;;
          match fetch url with
          | Rejects e => lift (Throw e)
          | Responds st json =>
              if negb (ok st) then upstream_error st json else upstream_ok json
          end
      end
  end.

(** Lines 263-276: the [catch] block. *)
Definition GET_catch (e : error) : io NextResponse :=
  emit (console_error [LogString "Weather API route error:"; LogError e]) ;;;
  if String.eqb (error_name e) "AbortError"
  then lift (NextResponse_json
               (error_body "Request timed out. Please try again.") 408 [])
  else if String_includes (error_message e) "fetch"
  then lift (NextResponse_json
               (error_body "Network error. Please check your connection and try again.")
               503 [])
  else lift (NextResponse_json
               (error_body "An unexpected error occurred while fetching weather data")
               500 []).

(** Lines 119-277. *)
Definition GET (WEATHERAPI_KEY : option string)
    (fetch : string -> fetch_reply) (request : NextRequest) : io NextResponse :=
  try_catch (GET_try WEATHERAPI_KEY fetch request) GET_catch.

(** The outbound calls of a run. *)
Definition calls (t : list event) : list string :=
  flat_map (fun e => match e with
                     | fetch_call url _ => [url]
                     | _ => []
                     end) t.

(** ** The entries in the spec's words *)

(** The daily-forecast entry of a day record [d]: its epoch, the rounded
    average, minimum and maximum temperatures of its [day] block, the
    condition text in lower case and as it is, and the icon. *)
Definition dayEntry (d : value) : value :=
  let day := field "day" d in
  let condition := field "condition" day in
  let text := text_of (field "text" condition) in
  VObject [("dt", field "date_epoch" d);
           ("temp", rounded (field "avgtemp_c" day));
           ("min", rounded (field "mintemp_c" day));
           ("max", rounded (field "maxtemp_c" day));
           ("condition", VString (String_toLowerCase text));
           ("description", VString text);
           ("icon", field "icon" condition)].

(** The summary of a day record: the same entry without the epoch. *)
Definition summaryEntry (d : value) : value :=
  let day := field "day" d in
  let condition := field "condition" day in
  let text := text_of (field "text" condition) in
  VObject [("temp", rounded (field "avgtemp_c" day));
           ("min", rounded (field "mintemp_c" day));
           ("max", rounded (field "maxtemp_c" day));
           ("condition", VString (String_toLowerCase text));
           ("description", VString text);
           ("icon", field "icon" condition)].

(** The hourly entry of an hour record. *)
Definition hourEntry (h : value) : value :=
  VObject [("time", VString (String_substring (text_of (field "time" h)) 11 16));
           ("temp", rounded (field "temp_c" h));
           ("condition",
            VString (String_toLowerCase
                       (text_of (field "text" (field "condition" h)))));
           ("humidity", field "humidity" h);
           ("windSpeed", rounded (field "wind_kph" h))].

(** The forecast-day array of a payload. *)
Definition forecastdays (data : value) : value :=
  field "forecastday" (field "forecast" data).

(** Lines 230-254: the object literal, every read written as a field. *)
Definition formattedResponse
    (location current today hourlyForecast tomorrowHourlyForecast
       tomorrowDaySummary dailyForecast alerts : value) : value :=
  VObject [("city", field "name" location);
           ("country", field "country" location);
           ("temperature", rounded (field "temp_c" current));
           ("condition", field "text" (field "condition" current));
           ("description", field "text" (field "condition" current));
           ("humidity", field "humidity" current);
           ("windSpeed", rounded (field "wind_kph" current));
           ("windDirection", field "wind_degree" current);
           ("uvIndex", field "uv" current);
           ("visibility", rounded (field "vis_km" current));
           ("pressure", field "pressure_mb" current);
           ("feelsLike", rounded (field "feelslike_c" current));
           ("high", rounded (field "maxtemp_c" (field "day" today)));
           ("low", rounded (field "mintemp_c" (field "day" today)));
           ("sunrise", field "sunrise" (field "astro" today));
           ("sunset", field "sunset" (field "astro" today));
           ("timezone", field "tz_id" location);
           ("coordinates", VObject [("lat", field "lat" location);
                                    ("lon", field "lon" location)]);
           ("hourlyForecast", hourlyForecast);
           ("tomorrowHourlyForecast", tomorrowHourlyForecast);
           ("tomorrowDaySummary", tomorrowDaySummary);
           ("dailyForecast", dailyForecast);
           ("alerts", alerts)].

(** The texts the handler logs after the request line. *)
Definition fixed_labels : list string :=
  ["WeatherAPI error:"; "Weather API route error:";
   "Successfully processed weather data for:"].

(** A console line whose strings are among the fixed labels (its other
    arguments are values of the provider and error objects). *)
Definition label_only (e : event) : Prop :=
  match e with
  | console_log args | console_error args =>
      forall s, In (LogString s) args -> In s fixed_labels
  | fetch_call _ _ => False
  end.

(** A computation all of whose events satisfy [P]. *)
Definition every {A : Type} (P : event -> Prop) (m : io A) : Prop :=
  Forall P (fst m).

(** ** Where the numbers and the alerts of the record come from *)

(** The hour records of a day: its [hour] array, none when [hour] is not an
    array. *)
Definition hours_of (day : value) : list value :=
  match field "hour" day with
  | VArray hours => hours
  | _ => []
  end.

(** The entry [e] has the numbers of the hour record [h]: [temp] and
    [windSpeed] are [Math.round] of [temp_c] and [wind_kph], [humidity] is
    copied. *)
Definition hour_numbers (h e : value) : Prop :=
  Math_round (field "temp_c" h) = Ok (field "temp" e) /\
  Math_round (field "wind_kph" h) = Ok (field "windSpeed" e) /\
  field "humidity" e = field "humidity" h.

(** The entry [e] has the numbers of the day block of [d]: [temp], [min]
    and [max] are [Math.round] of the average, minimum and maximum
    temperature. *)
Definition summary_numbers (d e : value) : Prop :=
  Math_round (field "avgtemp_c" (field "day" d)) = Ok (field "temp" e) /\
  Math_round (field "mintemp_c" (field "day" d)) = Ok (field "min" e) /\
  Math_round (field "maxtemp_c" (field "day" d)) = Ok (field "max" e).

(** The same for an entry of the daily forecast, whose [dt] is the epoch of
    the day, copied. *)
Definition day_numbers_of (d e : value) : Prop :=
  summary_numbers d e /\ field "dt" e = field "date_epoch" d.

(** The entry [m] is the alert [a] as lines 223-227 map it: three fields;
    the title is the event, else the headline, else [Alert]; the severity
    is the alert's, else [moderate]; the description of an alert whose
    [desc] is a text is its first 200 code units, followed by [...] when
    it has more. *)
Definition alert_entry (a m : value) : Prop :=
  exists description,
    m = VObject [("title",
                  or_else (or_else (field "event" a) (field "headline" a))
                          (VString "Alert"));
                 ("description", description);
                 ("severity", or_else (field "severity" a) (VString "moderate"))] /\
    forall s, field "desc" a = VString s ->
              description
              = VString (String_substring s 0 200
                         ++ (if (200 <? String_length s)%nat then "..." else "")).

(** ** Payloads that are mapped

    What the mapping needs of a payload beyond the structural check, read
    off the property reads and method calls of lines 170-254. *)

Definition is_string (v : value) : bool :=
  match v with
  | VString _ => true
  | _ => false
  end.

Definition nullish (v : value) : bool :=
  match v with
  | VUndefined | VNull => true
  | _ => false
  end.

(** An hour record: [time] and [condition.text] are strings, [temp_c] and
    [wind_kph] convert to numbers. *)
Definition hour_ok (h : value) : bool :=
  is_string (field "time" h) && is_string (field "text" (field "condition" h))
  && convertible (field "temp_c" h) && convertible (field "wind_kph" h).

(** The [hour] field of a day: anything, or an array of hour records. *)
Definition hours_ok (day : value) : bool :=
  match field "hour" day with
  | VArray hs => forallb hour_ok hs
  | _ => true
  end.

(** A day record: [day.condition.text] is a string, the three temperatures
    of [day] convert to numbers. *)
Definition day_ok (d : value) : bool :=
  is_string (field "text" (field "condition" (field "day" d)))
  && convertible (field "avgtemp_c" (field "day" d))
  && convertible (field "mintemp_c" (field "day" d))
  && convertible (field "maxtemp_c" (field "day" d)).

(** An alert: not [null], its [desc] a string, [null] or absent. *)
Definition alert_ok (a : value) : bool :=
  negb (nullish a) &&
  match field "desc" a with
  | VUndefined | VNull | VString _ => true
  | _ => false
  end.

Definition mappable (data : value) : bool :=
  negb (nullish (field "location" data))
  && negb (nullish (field "condition" (field "current" data)))
  && forallb (fun k => convertible (field k (field "current" data)))
             ["temp_c"; "wind_kph"; "vis_km"; "feelslike_c"]
  && match forecastdays data with
     | VArray (today :: rest) =>
         forallb day_ok (today :: rest)
         && hours_ok today
         && negb (nullish (field "astro" today))
         && match rest with
            | tomorrow :: _ => hours_ok tomorrow
            | [] => true
            end
     | _ => false
     end
  && match or_else (field "alert" (field "alerts" data)) (VArray []) with
     | VArray alerts => forallb alert_ok alerts
     | _ => false
     end.

(** ** Sample runs *)

Definition sample_key : string := "4f1c9a27".

(** A provider that answers every request with the given status and JSON
    body. *)
Definition answers (st : Z) (data : value) : string -> fetch_reply :=
  fun _ => Responds st (Ok data).

(** An error body whose message quotes the key it was sent. *)
Definition quoting_error : value :=
  VObject [("error", VObject [("code", VInt 2008);
                              ("message", VString "API key 4f1c9a27 has been disabled.")])].

Definition city_request (c : string) : NextRequest := mkRequest (Some c) None None.

(** An error body whose message is an object with a [toString] of its
    own. *)
Definition unprintable_error : value :=
  VObject [("error", VObject [("code", VInt 1002);
                              ("message", VObject [("toString", VInt 1)])])].

(** ** Exceptions of the mapping *)

(** An exception the [catch] block answers with the generic 500: a
    [TypeError] (so not an [AbortError]) without [fetch] in its message. *)
Definition unclassified (e : error) : Prop :=
  error_name e = "TypeError" /\ String_includes (error_message e) "fetch" = false.

(** A payload with the three sections whose only forecast day carries its
    date and nothing else. *)
Definition bare_day : value :=
  payload_of [VObject [("date_epoch", VInt 1699920000)]] [].

(** Two days, the second with an [hour] array that holds the empty
    record. *)
Definition tomorrow_with_empty_hour : value :=
  payload_of [day_of 1699920000 [];
              day_of 1700006400 [("hour", VArray [VObject []])]] [].

(** One day and an alert list that holds [null]. *)
Definition null_alert : value :=
  payload_of [day_of 1699920000 []]
             [("alerts", VObject [("alert", VArray [VNull])])].

(** One day and two alerts, the first with a description of 250 code
    units, the second without one. *)
Definition two_alerts : value :=
  payload_of [day_of 1699920000 []]
             [("alerts", VObject [("alert", VArray [long_alert; alert_without_desc])])].

(** One day and a current temperature that is an object with a [toString]
    of its own. *)
Definition unprintable_temp : value :=
  VObject [("location", sample_location);
           ("current",
            VObject [("temp_c", VObject [("toString", VInt 1)]);
                     ("condition",
                      condition_of "Light Rain" "//cdn.weatherapi.com/296.png");
                     ("humidity", VInt 82); ("wind_kph", decimal 133 10);
                     ("wind_degree", VInt 240); ("uv", decimal 11 2);
                     ("vis_km", decimal 95 10); ("pressure_mb", VInt 1012);
                     ("feelslike_c", decimal 179 10)]);
           ("forecast", VObject [("forecastday", VArray [day_of 1699920000 []])])].

(** ** The page ([src/app/page.tsx])

    The handlers of the dashboard page, on the page's state.  First a
    handler is modelled by its net effect once its promise has settled,
    when it is called from the render of the state and nothing else
    happens before the answer: the setters apply in program order, a
    functional update ([prev => prev + 1]) sees the state the setters
    before it left (React applies the setters of one continuation in one
    batch).  Beside the new state a handler returns the URLs it fetched.
    The page over time, where answers come later and callbacks keep the
    render that made them, follows below. *)

(** [tempUnit]: ["C"] or ["F"]. *)
Inductive TempUnit : Type := UnitC | UnitF.

(** The state of lines 120-129 that the handlers below read or set. *)
Record PageState : Type := mkPage {
  weatherData : value;             (* [null] until data arrives *)
  loading : bool;
  error_shown : option string;     (* the state [error]; [None] is [null] *)
  searchCity : string;
  tempUnit : TempUnit;
  retryCount : Z;
  lastFetchedCity : string
}.

Definition setWeatherData (d : value) (s : PageState) : PageState :=
  mkPage d (loading s) (error_shown s) (searchCity s) (tempUnit s)
         (retryCount s) (lastFetchedCity s).
Definition setLoading (b : bool) (s : PageState) : PageState :=
  mkPage (weatherData s) b (error_shown s) (searchCity s) (tempUnit s)
         (retryCount s) (lastFetchedCity s).
Definition setError (e : option string) (s : PageState) : PageState :=
  mkPage (weatherData s) (loading s) e (searchCity s) (tempUnit s)
         (retryCount s) (lastFetchedCity s).
Definition setSearchCity (c : string) (s : PageState) : PageState :=
  mkPage (weatherData s) (loading s) (error_shown s) c (tempUnit s)
         (retryCount s) (lastFetchedCity s).
Definition setRetryCount (f : Z -> Z) (s : PageState) : PageState :=
  mkPage (weatherData s) (loading s) (error_shown s) (searchCity s) (tempUnit s)
         (f (retryCount s)) (lastFetchedCity s).
Definition setLastFetchedCity (c : string) (s : PageState) : PageState :=
  mkPage (weatherData s) (loading s) (error_shown s) (searchCity s) (tempUnit s)
         (retryCount s) c.

(** A page that shows nothing yet: the initial state of lines 120-129. *)
Definition initial_page : PageState := mkPage VNull false None "" UnitC 0 "".

(** [new Error(message)] *)
Definition Error (message : string) : error := mkError "Error" message.

(** The decimal text of an integer, as a template literal prints a
    status. *)
Definition integer_text (z : Z) : string := NilZero.string_of_int (Z.to_int z).

(** [typeof v === "number"] *)
Definition is_number (v : value) : bool :=
  match v with
  | VNumber _ => true
  | _ => false
  end.

(** Lines 178-200 (and 245-267): what the handler makes of the answer of
    [/api/weather]: the data, or the exception it throws.  Every exception
    of the block is an instance of [Error]: the rejection of [fetch] (a
    [TypeError], or the [AbortError] of the timer), the rejection of
    [json()], the [TypeError] of a property read, and the errors the block
    makes itself. *)
Definition fetchWeather_try (reply : fetch_reply) : result value :=
  match reply with
  | Rejects e => Throw e
  | Responds st json =>
      if negb (ok st) then
        let errorData := match json with
                         | Ok v => v
                         | Throw _ => VObject []
                         end in
        err <- getprop errorData "error" ;;
        message <- ToString
                     (or_else err
                        (VString ("HTTP " ++ integer_text st
                                  ++ ": Failed to fetch weather data"))) ;;
        Throw (Error message)
      else
        data <- json ;;
        err <- getprop data "error" ;;
        if truthy err then (message <- ToString err ;; Throw (Error message))
        else
          c <- getprop data "city" ;;
          temperature <- getprop data "temperature" ;;
          if negb (truthy c) || negb (is_number temperature)
          then Throw (Error "Invalid weather data received from server")
          else Ok data
  end.

(** [s || fallback] on strings. *)
Definition or_text (s fallback : string) : string :=
  if String.eqb s "" then fallback else s.

(** Lines 208-221: the text [fetchWeather] shows for an exception. *)
Definition fetchWeather_catch (city : string) (e : error) : string :=
  if String.eqb (error_name e) "AbortError"
  then "Request timed out. Please try again."
  else if String_includes (error_message e) "404"
  then "City " ++ dquote ++ city ++ dquote
       ++ " not found. Please check the spelling and try again."
  else if String_includes (error_message e) "401"
  then "API authentication failed. Please check the API configuration."
  else if String_includes (error_message e) "429"
  then "Too many requests. Please wait a moment and try again."
  else if String_includes (error_message e) "network"
          || String_includes (error_message e) "fetch"
  then "Network error. Please check your internet connection and try again."
  else or_text (error_message e) "Failed to fetch weather data".

(** Lines 275-280: the text [fetchWeatherByCoords] shows for an
    exception. *)
Definition fetchWeatherByCoords_catch (e : error) : string :=
  if String.eqb (error_name e) "AbortError"
  then "Request timed out. Please try again."
  else or_text (error_message e) "Failed to fetch weather data".

(** Lines 170-229 and 238-288, after the guard: the state once the answer
    is in, for the text [shown] of an exception. *)
Definition settle (city : option string) (shown : error -> string)
    (reply : fetch_reply) (s : PageState) : PageState :=
  let s1 := setError None (setLoading true s) in
  let s2 := match city with
            | Some c => setLastFetchedCity c s1
            | None => s1
            end in
  let s3 := match fetchWeather_try reply with
            | Ok data =>
                setError None (setRetryCount (fun _ => 0%Z) (setWeatherData data s2))
            | Throw e =>
                setRetryCount (fun prev => (prev + 1)%Z)
                              (setError (Some (shown e)) s2)
            end in
  setLoading false s3.

(** Line 178: the address of a city search. *)
Definition city_url (city : string) : string :=
  "/api/weather?city=" ++ encodeURIComponent city.

(** Line 245: the address of a search by coordinates. *)
Definition coords_url (lat lon : string) : string :=
  "/api/weather?lat=" ++ lat ++ "&lon=" ++ lon.

(** Lines 166-232. *)
Definition fetchWeather (api : string -> fetch_reply) (s : PageState)
    (city : string) : PageState * list string :=
  if loading s || String.eqb city (lastFetchedCity s) then (s, [])
  else
    (settle (Some city) (fetchWeather_catch city) (api (city_url city)) s,
     [city_url city]).

(** Lines 234-291; [lat] and [lon] as the template literal prints them. *)
Definition fetchWeatherByCoords (api : string -> fetch_reply) (s : PageState)
    (lat lon : string) : PageState * list string :=
  if loading s then (s, [])
  else
    (settle None fetchWeatherByCoords_catch (api (coords_url lat lon)) s,
     [coords_url lat lon]).

(** The white space [trim] removes, among the code units below 256. *)
Definition is_space (c : ascii) : bool :=
  let n := nat_of_ascii c in
  ((9 <=? n) && (n <=? 13) || (n =? 32) || (n =? 160))%nat.

Fixpoint String_trimStart (s : string) : string :=
  match s with
  | String c s' => if is_space c then String_trimStart s' else s
  | EmptyString => EmptyString
  end.

Fixpoint String_trimEnd (s : string) : string :=
  match s with
  | String c s' =>
      match String_trimEnd s' with
      | EmptyString => if is_space c then EmptyString else String c EmptyString
      | rest => String c rest
      end
  | EmptyString => EmptyString
  end.

(** [s.trim()] *)
Definition String_trim (s : string) : string := String_trimEnd (String_trimStart s).

(** Lines 293-305. *)
Definition handleSearch (api : string -> fetch_reply) (s : PageState)
    : PageState * list string :=
  let city := String_trim (searchCity s) in
  if negb (String.eqb city "") && (2 <=? String_length city)%nat
  then let (s', urls) := fetchWeather api s city in (setSearchCity "" s', urls)
  else (setError (Some "Please enter a valid city name (at least 2 characters)") s, []).

(** Lines 307-315. *)
Definition handleRetry (api : string -> fetch_reply) (s : PageState)
    : PageState * list string :=
  let s' := setRetryCount (fun _ => 0%Z) (setError None s) in
  if negb (String.eqb (lastFetchedCity s) "")
  then fetchWeather api s' (lastFetchedCity s)
  else fetchWeather api s' "London".

(** *** The page over time

    The geolocation service and the route answer later, and the page
    renders in between.  A function made by a render reads [loading] and
    [lastFetchedCity] as that render had them, also when it is called
    later; its setters act on the state the page has when they are called;
    and what follows an [await] runs when the answer is in.  The session
    below keeps what is still to come: the calls of [getCurrentPosition]
    that were not answered, each with the render whose [fetchWeather] and
    [fetchWeatherByCoords] its callbacks call (lines 146-153), and the
    requests that were sent and not answered. *)

(** A request that was sent: by [fetchWeather] for a city, or by
    [fetchWeatherByCoords]. *)
Inductive flight : Type :=
| ForCity (city : string)
| ForCoords.

Record Session : Type := mkSession {
  rendered : PageState;          (* the state of the last render *)
  prompts : list PageState;      (* position requests not answered: their render *)
  flights : list flight          (* requests not answered *)
}.

(** Lines 168-178: [fetchWeather(city)] of the render [r], up to the
    [await] of line 178. *)
Definition fetchWeather_sends (r : PageState) (city : string) (w : Session)
    : Session * list string :=
  if loading r || String.eqb city (lastFetchedCity r) then (w, [])
  else
    (mkSession (setLastFetchedCity city (setError None (setLoading true (rendered w))))
               (prompts w) (flights w ++ [ForCity city]),
     [city_url city]).

(** Lines 236-245: [fetchWeatherByCoords(lat, lon)] of the render [r], up
    to the [await] of line 245. *)
Definition fetchWeatherByCoords_sends (r : PageState) (lat lon : string)
    (w : Session) : Session * list string :=
  if loading r then (w, [])
  else
    (mkSession (setError None (setLoading true (rendered w)))
               (prompts w) (flights w ++ [ForCoords]),
     [coords_url lat lon]).

(** Lines 185-229 and 252-288: what follows the [await], on the state the
    page has by then. *)
Definition answered (f : flight) (reply : fetch_reply) (s : PageState) : PageState :=
  let shown := match f with
               | ForCity city => fetchWeather_catch city
               | ForCoords => fetchWeatherByCoords_catch
               end in
  let s3 := match fetchWeather_try reply with
            | Ok data =>
                setError None (setRetryCount (fun _ => 0%Z) (setWeatherData data s))
            | Throw e =>
                setRetryCount (fun prev => (prev + 1)%Z)
                              (setError (Some (shown e)) s)
            end in
  setLoading false s3.

(** Lines 141-164: one run of the auto-fetch effect on the mounted page,
    after the render [rendered w].  With a geolocation service
    ([navigator.geolocation] is truthy) the effect asks for the position
    and leaves the two callbacks of this render with the service; without
    one it calls [fetchWeather("London")] of this render. *)
Definition autoFetch (geolocation : bool) (w : Session) : Session * list string :=
  let r := rendered w in
  if negb (truthy (weatherData r)) && (retryCount r <? 3)%Z
  then if geolocation
       then (mkSession r (prompts w ++ [r]) (flights w), [])
       else fetchWeather_sends r "London" w
  else (w, []).

(** The list without its element [i]. *)
Definition without {A : Type} (i : nat) (l : list A) : list A :=
  (firstn i l ++ skipn (S i) l)%list.

(** What happens to a mounted page: the geolocation service answers the
    position request [i] with a position or with an error, the route
    answers the request [i], the user presses [Retry] (line 566) or [Load
    Default Location] (line 842). *)
Inductive happening : Type :=
| PositionArrives (i : nat) (latitude longitude : string)
| PositionFails (i : nat)
| RouteAnswers (i : nat) (reply : fetch_reply)
| PressRetry
| PressLoadDefault.

(** One happening.  The effect runs again after a render in which
    [weatherData] or [retryCount] changed (line 164): after every answer
    of the route (new data, or one more failed attempt), and after [Retry]
    when [retryCount] was not 0.  The buttons call the functions of the
    last render; the geolocation callbacks those of the render that asked
    for the position. *)
Definition happen (geolocation : bool) (h : happening) (w : Session)
    : Session * list string :=
  match h with
  | PositionArrives i latitude longitude =>
      match nth_error (prompts w) i with
      | Some r =>
          fetchWeatherByCoords_sends r latitude longitude
            (mkSession (rendered w) (without i (prompts w)) (flights w))
      | None => (w, [])
      end
  | PositionFails i =>
      match nth_error (prompts w) i with
      | Some r =>
          fetchWeather_sends r "London"
            (mkSession (rendered w) (without i (prompts w)) (flights w))
      | None => (w, [])
      end
  | RouteAnswers i reply =>
      match nth_error (flights w) i with
      | Some f =>
          autoFetch geolocation
            (mkSession (answered f reply (rendered w)) (prompts w)
                       (without i (flights w)))
      | None => (w, [])
      end
  | PressRetry =>
      let r := rendered w in
      let w1 := mkSession (setRetryCount (fun _ => 0%Z) (setError None r))
                          (prompts w) (flights w) in
      let (w2, urls) :=
        fetchWeather_sends r
          (if negb (String.eqb (lastFetchedCity r) "") then lastFetchedCity r
           else "London") w1 in
      if (retryCount r =? 0)%Z then (w2, urls)
      else let (w3, urls') := autoFetch geolocation w2 in (w3, (urls ++ urls')%list)
  | PressLoadDefault => fetchWeather_sends (rendered w) "London" w
  end.

(** Happenings one after another; the requests they make, in order. *)
Fixpoint happenings (geolocation : bool) (l : list happening) (w : Session)
    : Session * list string :=
  match l with
  | [] => (w, [])
  | h :: rest =>
      let (w1, urls) := happen geolocation h w in
      let (w2, urls') := happenings geolocation rest w1 in
      (w2, (urls ++ urls')%list)
  end.

(** The page once it is mounted: the first run of the effect, on the
    initial state (lines 134-136 set [mounted]). *)
Definition mounted (geolocation : bool) : Session * list string :=
  autoFetch geolocation (mkSession initial_page [] []).

(** A happening that needs no user. *)
Definition automatic (h : happening) : bool :=
  match h with
  | PositionArrives _ _ _ | PositionFails _ | RouteAnswers _ _ => true
  | PressRetry | PressLoadDefault => false
  end.

(** The automatic requests a session can still make: one for each position
    request that is not answered, and one for each run of the effect that
    failed attempts can still bring about. *)
Definition owed (w : Session) : nat :=
  (List.length (prompts w)
   + if truthy (weatherData (rendered w)) then 0
     else Z.to_nat (2 - retryCount (rendered w)))%nat.

(** London is the last city asked for, in the last render and in every
    render that a position request holds. *)
Definition London_asked (w : Session) : Prop :=
  lastFetchedCity (rendered w) = "London" /\
  Forall (fun r => lastFetchedCity r = "London") (prompts w).

(** At most one answer is awaited, of the geolocation service or of the
    route. *)
Definition single (w : Session) : Prop :=
  (List.length (prompts w) + List.length (flights w) <= 1)%nat.

(** A happening that brings no position. *)
Definition without_position (h : happening) : bool :=
  match h with
  | PositionArrives _ _ _ => false
  | _ => true
  end.

(** How often a request is in a list. *)
Definition times (url : string) (urls : list string) : nat :=
  List.length (filter (String.eqb url) urls).

(** The icons of [getWeatherIcon]. *)
Inductive icon : Type := CloudRain | Sun | CloudSnow | Zap | Cloud.

(** Lines 327-340. *)
Definition getWeatherIcon (condition : string) : icon :=
  let conditionLower := String_toLowerCase condition in
  if String_includes conditionLower "rain"
     || String_includes conditionLower "drizzle"
     || String_includes conditionLower "shower"
  then CloudRain
  else if String_includes conditionLower "sun"
          || String_includes conditionLower "clear"
  then Sun
  else if String_includes conditionLower "snow"
          || String_includes conditionLower "sleet"
  then CloudSnow
  else if String_includes conditionLower "thunder"
          || String_includes conditionLower "storm"
  then Zap
  else Cloud.

(** A number that the response body prints as a number. *)
Definition finite (n : number) : bool :=
  match n with
  | Finite _ => true
  | _ => false
  end.

(** A string of white space only. *)
Fixpoint blank (s : string) : bool :=
  match s with
  | String c s' => is_space c && blank s'
  | EmptyString => true
  end.

(** ** Temperatures and units (binary64)

    The conversions of the page, the chart and the unit helpers do
    arithmetic on numbers, so they are modelled on the doubles themselves:
    a [spec_float] with 53 bits of precision, the operations rounding to
    nearest, ties to even. *)

Definition f64_prec : Z := 53.
Definition f64_emax : Z := 1024.

(** The double of an integer (exact up to 2^53). *)
Definition f64_of_Z (z : Z) : spec_float :=
  binary_normalize f64_prec f64_emax z 0 false.

(** The double of a decimal literal [n / d], as [273.15] is [27315 / 100]:
    one correctly rounded division of two exact integers. *)
Definition f64_literal (n : Z) (d : positive) : spec_float :=
  SFdiv f64_prec f64_emax (f64_of_Z n) (f64_of_Z (Zpos d)).

Definition f64_mul : spec_float -> spec_float -> spec_float := SFmul f64_prec f64_emax.
Definition f64_div : spec_float -> spec_float -> spec_float := SFdiv f64_prec f64_emax.
Definition f64_add : spec_float -> spec_float -> spec_float := SFadd f64_prec f64_emax.
Definition f64_sub : spec_float -> spec_float -> spec_float := SFsub f64_prec f64_emax.

(** [Math.round(x)] on a double: [x] itself when it is [NaN], infinite, a
    zero or integral, else [floor(x + 1/2)] computed exactly, with the sign
    of [x] on a zero result. *)
Definition Math_round_f64 (x : spec_float) : spec_float :=
  match x with
  | S754_finite s m e =>
      if (0 <=? e)%Z then x
      else
        let n := (((if s then Z.neg m else Z.pos m) * 2 + 2 ^ (- e))
                  / 2 ^ (1 - e))%Z in
        if (n =? 0)%Z then S754_zero s else f64_of_Z n
  | _ => x
  end.

(** The integer a double is, if it is one (both zeros are 0). *)
Definition f64_whole (x : spec_float) : option Z :=
  match x with
  | S754_zero _ => Some 0%Z
  | S754_finite s m e =>
      let z := if s then Z.neg m else Z.pos m in
      if (0 <=? e)%Z then Some (z * 2 ^ e)%Z
      else if (z mod 2 ^ (- e) =? 0)%Z then Some (z / 2 ^ (- e))%Z
           else None
  | _ => None
  end.

(** Page, lines 317-325. *)
Definition convertTemp (tempUnit : TempUnit) (temp : spec_float) : spec_float :=
  match tempUnit with
  | UnitF =>
      Math_round_f64
        (f64_add (f64_div (f64_mul temp (f64_of_Z 9)) (f64_of_Z 5)) (f64_of_Z 32))
  | UnitC => Math_round_f64 temp
  end.

(** Page, line 413: the [temp] of an entry of [chartData]. *)
Definition chartData_temp (tempUnit : TempUnit) (temp : spec_float) : spec_float :=
  match tempUnit with
  | UnitF =>
      Math_round_f64
        (f64_add (f64_div (f64_mul temp (f64_of_Z 9)) (f64_of_Z 5)) (f64_of_Z 32))
  | UnitC => temp
  end.

(** [WeatherChart], lines 295-300 of [src/unnamed/part_000]: the chart's
    own [convertTemp]. *)
Definition WeatherChart_convertTemp (tempUnit : TempUnit) (temp : spec_float)
    : spec_float :=
  match tempUnit with
  | UnitF =>
      Math_round_f64
        (f64_add (f64_div (f64_mul temp (f64_of_Z 9)) (f64_of_Z 5)) (f64_of_Z 32))
  | UnitC => Math_round_f64 temp
  end.

(** The [temperature] the chart plots for an hour of [hourlyForecast]
    (page, line 685; chart, lines 302-306): the chart converts the [temp]
    of the entry that [chartData] hands it. *)
Definition plotted_temperature (tempUnit : TempUnit) (temp : spec_float)
    : spec_float :=
  WeatherChart_convertTemp tempUnit (chartData_temp tempUnit temp).

(** Lines 107-117 of [src/unnamed/part_000]. *)
Definition kelvinToCelsius (kelvin : spec_float) : spec_float :=
  Math_round_f64 (f64_sub kelvin (f64_literal 27315 100)).

Definition mpsToKmh (mps : spec_float) : spec_float :=
  Math_round_f64 (f64_mul mps (f64_literal 36 10)).

Definition metersToKm (meters : spec_float) : spec_float :=
  Math_round_f64 (f64_div meters (f64_of_Z 1000)).

(** [Math.round] in exact arithmetic. *)
Definition round_half_up (q : Q) : Z := Qfloor (q + (1 # 2)).

(** Degrees Fahrenheit of whole degrees Celsius, rounded, in exact
    arithmetic. *)
Definition fahrenheit (t : Z) : Z := round_half_up (inject_Z t * 9 / 5 + 32).

(** The integers from [lo] to [hi]. *)
Definition whole_range (lo hi : Z) : list Z :=
  map (fun i => (lo + Z.of_nat i)%Z) (seq 0 (Z.to_nat (hi - lo + 1))).

(** [x] is the integer [z]. *)
Definition is_whole (x : spec_float) (z : Z) : bool :=
  match f64_whole x with
  | Some y => (y =? z)%Z
  | None => false
  end.

(** Equality of doubles as data (sign, mantissa and exponent). *)
Definition f64_same (x y : spec_float) : bool :=
  match x, y with
  | S754_zero a, S754_zero b => Bool.eqb a b
  | S754_infinity a, S754_infinity b => Bool.eqb a b
  | S754_nan, S754_nan => true
  | S754_finite a m e, S754_finite b n f =>
      Bool.eqb a b && (m =? n)%positive && (e =? f)%Z
  | _, _ => false
  end.

(** ** Sample pages *)

(** The answer the page receives when the route answers [r]. *)
Definition served (r : NextResponse) : string -> fetch_reply :=
  fun _ => Responds (status r) (Ok (body r)).

(** A page that shows London. *)
Definition showing_London : PageState :=
  mkPage (VObject [("city", VString "London"); ("temperature", VInt 18)])
         false None "" UnitC 0 "London".

(** A route that cannot be reached. *)
Definition unreachable : string -> fetch_reply :=
  fun _ => Rejects (TypeError "Failed to fetch").

(** The rejection of a request that could not be sent. *)
Definition refused : fetch_reply := Rejects (TypeError "Failed to fetch").

(** The position request fails, the request for London fails, and the two
    position requests that follow bring a position whose requests fail;
    then two more answers of the geolocation service. *)
Definition three_attempts : list happening :=
  [PositionFails 0; RouteAnswers 0 refused;
   PositionArrives 0 "51.52" "-0.11"; RouteAnswers 0 refused;
   PositionArrives 0 "51.52" "-0.11"; RouteAnswers 0 refused;
   PositionArrives 0 "51.52" "-0.11"; PositionFails 0].

(** An answer with status [st] whose body is not JSON. *)
Definition not_json (st : Z) : string -> fetch_reply :=
  fun _ => Responds st (Throw (mkError "SyntaxError" "Unexpected token < in JSON at position 0")).

(** * Properties *)

(** ** Reading, binding, mapping *)

Ltac bind_inv H :=
  repeat match type of H with
         | bind ?m _ = Ok _ =>
             let E := fresh "E" in
             destruct m eqn:E; [cbn [bind] in H | discriminate H]
         end.

Lemma getprop_field (v : value) (k : string) (x : value) :
  getprop v k = Ok x -> String.eqb k "length" = false -> x = field k v.
Proof.
  intros H L. destruct v; simpl in H; try discriminate;
    try rewrite L in H; inversion H; reflexivity.
Qed.

Lemma string_method_inv (recv : value) (m callee : string)
    (f : string -> string) (out : value) :
  string_method recv m callee f = Ok out ->
  exists s, recv = VString s /\ out = VString (f s).
Proof.
  destruct recv; simpl; intros H; try discriminate.
  inversion H. eauto.
Qed.

Lemma Array_map_inv (recv : value) (callee : string)
    (f : value -> result value) (out : value) :
  Array_map recv callee f = Ok out ->
  exists xs ys, recv = VArray xs /\ out = VArray ys /\ mapM f xs = Ok ys.
Proof.
  destruct recv; simpl; intros H; try discriminate.
  destruct (mapM f elems) eqn:E; simpl in H; inversion H. eauto.
Qed.

Lemma mapM_length {A B : Type} (f : A -> result B) (xs : list A) (ys : list B) :
  mapM f xs = Ok ys -> List.length ys = List.length xs.
Proof.
  revert ys. induction xs as [|x xs IH]; simpl; intros ys H.
  - inversion H. reflexivity.
  - bind_inv H. inversion H. simpl. f_equal. apply IH. reflexivity.
Qed.

Lemma mapM_map {A B : Type} (f : A -> result B) (g : A -> B) (xs : list A) (ys : list B) :
  (forall x y, f x = Ok y -> y = g x) ->
  mapM f xs = Ok ys -> ys = map g xs.
Proof.
  intros Hfg. revert ys. induction xs as [|x xs IH]; simpl; intros ys H.
  - inversion H. reflexivity.
  - bind_inv H. inversion H. f_equal; auto.
Qed.

Lemma mapM_Forall {A B : Type} (f : A -> result B) (P : B -> Prop)
    (xs : list A) (ys : list B) :
  (forall x y, f x = Ok y -> P y) ->
  mapM f xs = Ok ys -> Forall P ys.
Proof.
  intros HP. revert ys. induction xs as [|x xs IH]; simpl; intros ys H.
  - inversion H. constructor.
  - bind_inv H. inversion H. constructor; eauto.
Qed.

(** ** Conversions *)

Lemma ToNumber_Ok (v : value) (n : number) :
  ToNumber v = Ok n -> n = numeric v /\ convertible v = true.
Proof.
  unfold ToNumber. destruct (convertible v); [|discriminate].
  intros H. inversion H. split; reflexivity.
Qed.

Lemma ToString_Ok (v : value) (t : string) :
  ToString v = Ok t -> t = printed v /\ convertible v = true.
Proof.
  unfold ToString. destruct (convertible v); [|discriminate].
  intros H. inversion H. split; reflexivity.
Qed.

Lemma Math_round_Ok (v x : value) :
  Math_round v = Ok x -> x = rounded v /\ convertible v = true.
Proof.
  unfold Math_round. intros H. bind_inv H. inversion H.
  apply ToNumber_Ok in E as [-> Hc]. split; [reflexivity|exact Hc].
Qed.

Lemma gt_Ok (v : value) (k : Z) (b : bool) :
  gt v k = Ok b -> b = exceeds v k /\ convertible v = true.
Proof.
  unfold gt. intros H. bind_inv H. inversion H.
  apply ToNumber_Ok in E as [-> Hc]. split; [reflexivity|exact Hc].
Qed.

Lemma Math_round_convertible (v : value) :
  convertible v = true -> Math_round v = Ok (rounded v).
Proof. intros H. unfold Math_round, ToNumber. rewrite H. reflexivity. Qed.

Lemma gt_convertible (v : value) (k : Z) :
  convertible v = true -> gt v k = Ok (exceeds v k).
Proof. intros H. unfold gt, ToNumber. rewrite H. reflexivity. Qed.

Lemma ToString_convertible (v : value) :
  convertible v = true -> ToString v = Ok (printed v).
Proof. intros H. unfold ToString. rewrite H. reflexivity. Qed.

Lemma ToNumber_Throw (v : value) (e : error) :
  ToNumber v = Throw e -> e = not_primitive /\ convertible v = false.
Proof.
  unfold ToNumber. destruct (convertible v); [discriminate|].
  intros H. inversion H. split; reflexivity.
Qed.

Lemma ToString_Throw (v : value) (e : error) :
  ToString v = Throw e -> e = not_primitive /\ convertible v = false.
Proof.
  unfold ToString. destruct (convertible v); [discriminate|].
  intros H. inversion H. split; reflexivity.
Qed.

Lemma Math_round_Throw (v : value) (e : error) :
  Math_round v = Throw e -> e = not_primitive /\ convertible v = false.
Proof.
  unfold Math_round. destruct (ToNumber v) eqn:E; cbn [bind]; [discriminate|].
  intros H. inversion H; subst. apply ToNumber_Throw. exact E.
Qed.

Lemma gt_Throw (v : value) (k : Z) (e : error) :
  gt v k = Throw e -> e = not_primitive /\ convertible v = false.
Proof.
  unfold gt. destruct (ToNumber v) eqn:E; cbn [bind]; [discriminate|].
  intros H. inversion H; subst. apply ToNumber_Throw. exact E.
Qed.

Lemma plus_string_Ok (v : value) (s : string) (x : value) :
  plus_string v s = Ok x -> x = VString (printed v ++ s).
Proof.
  unfold plus_string. intros H. bind_inv H. inversion H.
  apply ToString_Ok in E as [-> _]. reflexivity.
Qed.

Lemma plus_string_Throw (v : value) (s : string) (e : error) :
  plus_string v s = Throw e -> e = not_primitive /\ convertible v = false.
Proof.
  unfold plus_string. destruct (ToString v) eqn:E; cbn [bind]; [discriminate|].
  intros H. inversion H; subst. apply ToString_Throw. exact E.
Qed.

Ltac entry_inv H :=
  bind_inv H;
  repeat match goal with
         | G : Math_round _ = Ok _ |- _ =>
             apply Math_round_Ok in G as [-> _]
         end;
  repeat match goal with
         | G : string_method _ _ _ _ = Ok _ |- _ =>
             let s := fresh "s" in
             let Hs := fresh "Hs" in
             apply string_method_inv in G as [s [Hs ->]]
         end;
  repeat match goal with
         | G : getprop _ _ = Ok _ |- _ =>
             apply getprop_field in G; [|reflexivity]
         end;
  inversion H; subst; cbv zeta;
  repeat match goal with
         | G : VString _ = field _ _ |- _ => rewrite <- G
         | G : field _ _ = VString _ |- _ => rewrite G
         end;
  try reflexivity.

Lemma mapDay_dayEntry (d e : value) : mapDay d = Ok e -> e = dayEntry d.
Proof. unfold mapDay, dayEntry. intros H. entry_inv H. Qed.

Lemma daySummary_summaryEntry (d e : value) :
  daySummary d = Ok e -> e = summaryEntry d.
Proof. unfold daySummary, summaryEntry. intros H. entry_inv H. Qed.

Lemma mapHour_hourEntry (h e : value) : mapHour h = Ok e -> e = hourEntry h.
Proof. unfold mapHour, hourEntry. intros H. entry_inv H. Qed.

(** ** Numbers *)

Lemma exceeds_VInt (z k : Z) : exceeds (VInt z) k = (k <? z)%Z.
Proof.
  unfold exceeds, VInt, numeric, number_gt, Qle_bool. simpl.
  rewrite !Z.mul_1_r. symmetry. apply Z.ltb_antisym.
Qed.

Lemma gt_VInt (z k : Z) : gt (VInt z) k = Ok (k <? z)%Z.
Proof. rewrite gt_convertible by reflexivity. rewrite exceeds_VInt. reflexivity. Qed.

(** ** The hourly lists *)

Lemma hourlyOf_array (day : value) (expr : string) (hours : list value) (out : value) :
  getprop day "hour" = Ok (VArray hours) ->
  hourlyOf day expr = Ok out ->
  out = VArray (map hourEntry hours).
Proof.
  unfold hourlyOf. intros Hh H. rewrite Hh in H. cbn [bind] in H. simpl in H.
  destruct (mapM mapHour hours) eqn:E; simpl in H; inversion H.
  f_equal. eapply mapM_map; [|exact E]. apply mapHour_hourEntry.
Qed.

Lemma hourlyOf_not_array (day : value) (expr : string) (hour out : value) :
  getprop day "hour" = Ok hour ->
  Array_isArray hour = false ->
  hourlyOf day expr = Ok out ->
  out = VArray [].
Proof.
  unfold hourlyOf. intros Hh Ha H. rewrite Hh in H. cbn [bind] in H.
  rewrite Ha, andb_false_r in H. inversion H. reflexivity.
Qed.


(** ** The record as a whole *)

Lemma alertsField_array (mapped : list value) :
  alertsField (VArray mapped)
  = Ok (match mapped with
        | [] => VUndefined
        | _ :: _ => VArray mapped
        end).
Proof.
  unfold alertsField.
  change (getprop (VArray mapped) "length")
    with (Ok (VInt (Z.of_nat (List.length mapped)))).
  cbn [bind]. rewrite gt_VInt. cbn [bind]. destruct mapped; reflexivity.
Qed.

Lemma normalize_inv (data resp : value) :
  normalize data = Ok resp ->
  exists today rest alerts hourly tomorrow mapped,
    forecastdays data = VArray (today :: rest) /\
    alertsOf data = Ok (VArray alerts) /\
    hourlyOf today "today" = Ok hourly /\
    tomorrowOf (VArray (today :: rest)) = Ok tomorrow /\
    mapM mapAlert alerts = Ok mapped /\
    resp = formattedResponse (field "location" data) (field "current" data)
             today hourly (fst tomorrow) (snd tomorrow)
             (VArray (map dayEntry (today :: rest)))
             (match mapped with
              | [] => VUndefined
              | _ :: _ => VArray mapped
              end).
Proof.
  unfold normalize. intros H. bind_inv H.
  match goal with
  | G : Array_map _ _ mapDay = Ok _ |- _ =>
      apply Array_map_inv in G as [days [daily [-> [-> Hdaily]]]]
  end.
  match goal with
  | G : Array_map _ _ mapAlert = Ok _ |- _ =>
      apply Array_map_inv in G as [alerts [mapped [-> [-> Hmapped]]]]
  end.
  apply (mapM_map _ dayEntry) in Hdaily; [|apply mapDay_dayEntry].
  rewrite alertsField_array in *.
  destruct days as [|today rest].
  { match goal with
    | G : getindex (VArray []) 0 = Ok ?t, G' : getprop ?t "day" = Ok _ |- _ =>
        inversion G; subst; discriminate G'
    end. }
  match goal with
  | G : getindex (VArray (today :: rest)) 0 = Ok _ |- _ => inversion G; subst
  end.
  repeat match goal with
         | G : Math_round _ = Ok _ |- _ =>
             apply Math_round_Ok in G as [-> _]
         end.
  repeat match goal with
         | G : getprop _ _ = Ok _ |- _ =>
             apply getprop_field in G; [|reflexivity]
         end.
  match goal with
  | G : Ok (match _ with [] => _ | _ :: _ => _ end) = Ok _ |- _ => inversion G
  end.
  inversion H.
  unfold forecastdays, formattedResponse. subst.
  eexists _, rest, alerts, _, _, mapped.
  repeat split; eauto.
Qed.


Lemma tomorrowOf_single (today : value) :
  tomorrowOf (VArray [today]) = Ok (VArray [], VNull).
Proof.
  unfold tomorrowOf.
  change (getprop (VArray [today]) "length") with (Ok (VInt 1)).
  cbn [bind]. rewrite gt_VInt. reflexivity.
Qed.

Lemma tomorrowOf_more (today tomorrow : value) (rest : list value)
    (p : value * value) :
  tomorrowOf (VArray (today :: tomorrow :: rest)) = Ok p ->
  hourlyOf tomorrow "tomorrow" = Ok (fst p) /\ snd p = summaryEntry tomorrow.
Proof.
  unfold tomorrowOf.
  change (getprop (VArray (today :: tomorrow :: rest)) "length")
    with (Ok (VInt (Z.of_nat (List.length (today :: tomorrow :: rest))))).
  cbn [bind]. rewrite gt_VInt.
  replace (1 <? Z.of_nat (List.length (today :: tomorrow :: rest)))%Z with true
    by (symmetry; apply Z.ltb_lt; simpl List.length; lia).
  change (getindex (VArray (today :: tomorrow :: rest)) 1) with (Ok tomorrow).
  cbn [bind]. intros H. bind_inv H. inversion H. simpl. split; [reflexivity|].
  apply daySummary_summaryEntry. assumption.
Qed.

Lemma hourlyOf_read (day : value) (expr : string) (out : value) :
  hourlyOf day expr = Ok out -> getprop day "hour" = Ok (field "hour" day).
Proof.
  unfold hourlyOf. intros H. bind_inv H.
  pose proof (getprop_field _ _ _ E eq_refl) as ->. reflexivity.
Qed.

(** ** The statements of the specification *)

(** C6 (amended).  Whenever the payload is mapped, the forecast-day array is
    a sequence and [dailyForecast] holds exactly one entry per forecast day,
    in source order, each the entry [dayEntry] of its day: epoch, rounded
    average, minimum and maximum temperature, lower-cased condition text,
    the text as it is, and the icon.  The handler does not cap the list:
    it has as many entries as the provider sent days (seven for a seven-day
    array). *)
Theorem dailyForecast_one_entry_per_day (data resp : value) :
  normalize data = Ok resp ->
  exists days out,
    forecastdays data = VArray days /\
    field "dailyForecast" resp = VArray out /\
    out = map dayEntry days /\
    List.length out = List.length days.
Proof.
  intros H.
  apply normalize_inv in H
    as (today & rest & alerts & hourly & tomorrow & mapped & Hd & _ & _ & _ & _ & ->).
  exists (today :: rest), (map dayEntry (today :: rest)).
  repeat split; [assumption|apply length_map].
Qed.

(** C9 (amended).  Whenever the payload is mapped and the forecast-day
    array has more than one entry, the summary of tomorrow is the entry
    [summaryEntry] of the second day record: field by field ([temp],
    [min], [max], [condition], [description], [icon]) it equals the second
    entry of [dailyForecast].  Beyond the mapping of the payload nothing is
    asked of tomorrow's [hour] field: it may be absent, or anything that
    is mapped. *)
Theorem tomorrowDaySummary_matches_second_daily_entry
    (data resp today tomorrow : value) (rest : list value) :
  normalize data = Ok resp ->
  forecastdays data = VArray (today :: tomorrow :: rest) ->
  exists daily,
    field "tomorrowDaySummary" resp = summaryEntry tomorrow /\
    field "dailyForecast" resp = VArray daily /\
    nth_error daily 1 = Some (dayEntry tomorrow) /\
    forall k, In k ["temp"; "min"; "max"; "condition"; "description"; "icon"] ->
              field k (field "tomorrowDaySummary" resp) = field k (dayEntry tomorrow).
Proof.
  intros H Hd.
  apply normalize_inv in H
    as (today' & rest' & alerts & hourly & p & mapped & Hd' & _ & _ & Ht & _ & ->).
  rewrite Hd in Hd'. inversion Hd'; subst today' rest'.
  apply tomorrowOf_more in Ht as [_ Hs].
  exists (map dayEntry (today :: tomorrow :: rest)).
  change (field "tomorrowDaySummary" (formattedResponse _ _ _ _ _ (snd p) _ _))
    with (snd p).
  rewrite Hs. repeat split.
  intros k Hk. simpl in Hk.
  repeat (destruct Hk as [<-|Hk]; [reflexivity|]). contradiction.
Qed.

Lemma mapM_Forall2 {A B : Type} (f : A -> result B) (xs : list A) (ys : list B) :
  mapM f xs = Ok ys -> Forall2 (fun x y => f x = Ok y) xs ys.
Proof.
  revert ys. induction xs as [|x xs IH]; simpl; intros ys H.
  - inversion H. constructor.
  - bind_inv H. inversion H. constructor; auto.
Qed.

Lemma lookup_keep_other (f : value -> value) (k k' : string) (v : value)
    (rest : list (string * value)) :
  String.eqb k k' = false ->
  lookup k (keep_defined f ((k', v) :: rest)) = lookup k (keep_defined f rest).
Proof.
  intros H. destruct v; simpl; try rewrite H; reflexivity.
Qed.

Lemma field_toJSON_object (k : string) (props : list (string * value)) :
  field k (toJSON (VObject props))
  = match lookup k (keep_defined toJSON props) with
    | Some v => v
    | None => VUndefined
    end.
Proof. reflexivity. Qed.

Lemma has_own_toJSON_object (k : string) (props : list (string * value)) :
  has_own k (toJSON (VObject props))
  = match lookup k (keep_defined toJSON props) with
    | Some _ => true
    | None => false
    end.
Proof. reflexivity. Qed.

Ltac serialized :=
  unfold formattedResponse;
  rewrite ?field_toJSON_object, ?has_own_toJSON_object;
  rewrite ?lookup_keep_other by reflexivity.

Lemma alertsOf_field (data a : value) :
  alertsOf data = Ok a ->
  a = or_else (field "alert" (field "alerts" data)) (VArray []).
Proof.
  unfold alertsOf. intros H. bind_inv H.
  apply getprop_field in E; [subst|reflexivity].
  destruct (field "alerts" data); simpl in E0; inversion E0; subst;
    inversion H; reflexivity.
Qed.

(** C5 (amended).  Whenever the payload is mapped: if today's [hour] field
    is absent or not an array, [hourlyForecast] is the empty sequence, in
    the record and in the body; if it is an array, [hourlyForecast] has one
    entry per hour record (24 for 24); if a tomorrow exists and its [hour]
    field is absent or not an array, [tomorrowHourlyForecast] is the empty
    sequence; and for a single-day array [tomorrowHourlyForecast] is the
    empty sequence and [tomorrowDaySummary] is [null]: the body carries the
    key with the value [null]. *)
Theorem hourly_lists_of_the_days (data resp today : value) (rest : list value) :
  normalize data = Ok resp ->
  forecastdays data = VArray (today :: rest) ->
  (Array_isArray (field "hour" today) = false ->
   field "hourlyForecast" resp = VArray [] /\
   field "hourlyForecast" (toJSON resp) = VArray []) /\
  (forall hours, field "hour" today = VArray hours ->
   exists out, field "hourlyForecast" resp = VArray out /\
               List.length out = List.length hours) /\
  (forall tomorrow rest', rest = tomorrow :: rest' ->
   Array_isArray (field "hour" tomorrow) = false ->
   field "tomorrowHourlyForecast" resp = VArray [] /\
   field "tomorrowHourlyForecast" (toJSON resp) = VArray []) /\
  (rest = [] ->
   field "tomorrowHourlyForecast" resp = VArray [] /\
   field "tomorrowDaySummary" resp = VNull /\
   has_own "tomorrowDaySummary" (toJSON resp) = true /\
   field "tomorrowDaySummary" (toJSON resp) = VNull).
Proof.
  intros H Hd.
  apply normalize_inv in H
    as (today' & rest' & alerts & hourly & p & mapped & Hd' & _ & Hh & Ht & _ & ->).
  rewrite Hd in Hd'. inversion Hd'; subst today' rest'. clear Hd'.
  pose proof (hourlyOf_read _ _ _ Hh) as Hr.
  repeat split.
  - eapply hourlyOf_not_array; eassumption.
  - serialized.
    rewrite (hourlyOf_not_array _ _ _ _ Hr H Hh). reflexivity.
  - intros hours Hhours. rewrite Hhours in Hr.
    rewrite (hourlyOf_array _ _ _ _ Hr Hh).
    eexists. split; [reflexivity|apply length_map].
  - subst rest. apply tomorrowOf_more in Ht as [Ht _].
    pose proof (hourlyOf_read _ _ _ Ht) as Hr'.
    change (fst p = VArray []).
    eapply hourlyOf_not_array; eassumption.
  - subst rest. apply tomorrowOf_more in Ht as [Ht _].
    pose proof (hourlyOf_read _ _ _ Ht) as Hr'.
    serialized.
    rewrite (hourlyOf_not_array _ _ _ _ Hr' H0 Ht).
    destruct hourly; reflexivity.
  - subst rest. rewrite tomorrowOf_single in Ht. inversion Ht. reflexivity.
  - subst rest. rewrite tomorrowOf_single in Ht. inversion Ht. reflexivity.
  - subst rest. rewrite tomorrowOf_single in Ht. inversion Ht. serialized.
    destruct hourly; reflexivity.
  - subst rest. rewrite tomorrowOf_single in Ht. inversion Ht. serialized.
    destruct hourly; reflexivity.
Qed.

(** ** Events of a run *)

Lemma every_lift {A : Type} (P : event -> Prop) (r : result A) : every P (lift r).
Proof. constructor. Qed.

Lemma every_bind {A B : Type} (P : event -> Prop) (m : io A) (f : A -> io B) :
  every P m -> (forall a, every P (f a)) -> every P (bind_io m f).
Proof.
  unfold every, bind_io. intros Hm Hf. destruct m as [t [a|e]]; simpl in *.
  - specialize (Hf a). destruct (f a) as [t' r]. simpl in *.
    apply Forall_app. split; assumption.
  - assumption.
Qed.

Lemma every_emit {B : Type} (P : event -> Prop) (e : event) (k : io B) :
  P e -> every P k -> every P (emit e ;;; k).
Proof.
  intros He Hk. apply every_bind; [|intros _; exact Hk].
  constructor; [exact He|constructor].
Qed.

Lemma every_if {A : Type} (P : event -> Prop) (b : bool) (m1 m2 : io A) :
  every P m1 -> every P m2 -> every P (if b then m1 else m2).
Proof. destruct b; auto. Qed.

Lemma every_try_catch {A : Type} (P : event -> Prop) (m : io A)
    (h : error -> io A) :
  every P m -> (forall e, every P (h e)) -> every P (try_catch m h).
Proof.
  unfold every, try_catch. intros Hm Hh. destruct m as [t [a|e]]; simpl in *.
  - assumption.
  - specialize (Hh e). destruct (h e) as [t' r]. simpl in *.
    apply Forall_app. split; assumption.
Qed.

Ltac label_tac :=
  let s := fresh "s" in
  let H := fresh "H" in
  simpl; intros s H;
  repeat (destruct H as [H|H]; [inversion H; subst; simpl; tauto|]);
  contradiction.

Ltac every_tac :=
  repeat first [ apply every_lift
               | apply every_emit; [label_tac|]
               | apply every_if
               | apply every_bind; [|intros ?] ].

Lemma every_upstream_error (st : Z) (json : result value) :
  every label_only (upstream_error st json).
Proof. unfold upstream_error. every_tac. Qed.

Lemma every_upstream_ok (json : result value) :
  every label_only (upstream_ok json).
Proof. unfold upstream_ok. every_tac. Qed.

Lemma every_GET_catch (e : error) : every label_only (GET_catch e).
Proof. unfold GET_catch. every_tac. Qed.

Lemma label_only_calls (t : list event) : Forall label_only t -> calls t = [].
Proof.
  induction 1 as [|e t He _ IH]; [reflexivity|].
  destruct e; simpl in *; [exact IH|exact IH|contradiction].
Qed.

Lemma try_catch_emit {A : Type} (e : event) (k : io A) (h : error -> io A) :
  fst (try_catch (emit e ;;; k) h) = e :: fst (try_catch k h).
Proof.
  unfold try_catch, bind_io, emit. destruct k as [t [a|err]]; simpl.
  - reflexivity.
  - destruct (h err). reflexivity.
Qed.

(** With a credential and a query, a run starts with the request line and
    the outbound call; everything after these two is a labelled console
    line. *)
Lemma GET_run (key : option string) (fetch : string -> fetch_reply)
    (request : NextRequest) (apiKey q : string) :
  truthy_param key = Some apiKey ->
  queryParam request = Some q ->
  exists rest,
    fst (GET key fetch request)
    = console_log [LogString "Fetching weather data from:";
                   LogString (String_replace (request_url apiKey q) apiKey "[API_KEY]")]
      :: fetch_call (request_url apiKey q) [("User-Agent", "SkySense-WeatherApp/1.0")]
      :: rest /\
    Forall label_only rest.
Proof.
  intros Hk Hq. unfold GET, GET_try. rewrite Hk, Hq. cbv zeta.
  rewrite !try_catch_emit. eexists. split; [reflexivity|].
  apply every_try_catch; [|apply every_GET_catch].
  destruct (fetch (request_url apiKey q)); [apply every_lift|].
  apply every_if; [apply every_upstream_error|apply every_upstream_ok].
Qed.

Lemma GET_calls_once (key : option string) (fetch : string -> fetch_reply)
    (request : NextRequest) (apiKey q : string) :
  truthy_param key = Some apiKey ->
  queryParam request = Some q ->
  calls (fst (GET key fetch request)) = [request_url apiKey q].
Proof.
  intros Hk Hq. destruct (GET_run _ fetch _ _ _ Hk Hq) as [rest [-> Hrest]].
  simpl. rewrite (label_only_calls _ Hrest). reflexivity.
Qed.

Lemma GET_unconfigured (key : option string) (fetch : string -> fetch_reply)
    (request : NextRequest) :
  truthy_param key = None ->
  GET key fetch request
  = ([console_error [LogString "WeatherAPI key not configured"]],
     Ok (mkResponse 500
           (error_body "Weather service is not configured. Please contact the administrator.")
           [])).
Proof. intros Hk. unfold GET, GET_try. rewrite Hk. reflexivity. Qed.

Lemma GET_no_query (key : option string) (fetch : string -> fetch_reply)
    (request : NextRequest) (apiKey : string) :
  truthy_param key = Some apiKey ->
  queryParam request = None ->
  GET key fetch request
  = ([], Ok (mkResponse 400
               (error_body "Please provide either a city name or coordinates") [])).
Proof. intros Hk Hq. unfold GET, GET_try. rewrite Hk, Hq. reflexivity. Qed.

(** C4 (amended).  With the credential configured: a request whose [lat]
    and [lon] are both given makes exactly one outbound call, with the
    query [lat,lon], whether or not a city is given too; a request without
    such a pair and with a city makes exactly one outbound call, with the
    city as the query; a request with neither makes no call, logs nothing
    and is answered 400 with the error text of line 142. *)
Theorem query_selects_the_single_call (key : option string)
    (fetch : string -> fetch_reply) (request : NextRequest) (apiKey : string) :
  truthy_param key = Some apiKey ->
  (forall la lo,
      truthy_param (lat request) = Some la ->
      truthy_param (lon request) = Some lo ->
      calls (fst (GET key fetch request)) = [request_url apiKey (la ++ "," ++ lo)]) /\
  (forall c,
      truthy_param (lat request) = None \/ truthy_param (lon request) = None ->
      truthy_param (city request) = Some c ->
      calls (fst (GET key fetch request)) = [request_url apiKey c]) /\
  (truthy_param (lat request) = None \/ truthy_param (lon request) = None ->
   truthy_param (city request) = None ->
   GET key fetch request
   = ([], Ok (mkResponse 400
                (error_body "Please provide either a city name or coordinates") []))).
Proof.
  intros Hk. repeat split.
  - intros la lo Hla Hlo. apply GET_calls_once; [assumption|].
    unfold queryParam. rewrite Hla, Hlo. reflexivity.
  - intros c Hno Hc. apply GET_calls_once; [assumption|].
    unfold queryParam. rewrite Hc.
    destruct Hno as [-> | ->]; [reflexivity|].
    destruct (truthy_param (lat request)); reflexivity.
  - intros Hno Hc. apply GET_no_query with (apiKey := apiKey); [assumption|].
    unfold queryParam. rewrite Hc.
    destruct Hno as [-> | ->]; [reflexivity|].
    destruct (truthy_param (lat request)); reflexivity.
Qed.

(** C10.  Without a credential, a request that gives neither a city nor a
    coordinate pair is answered 500 with the not-configured error, not the
    400 of the missing input: the credential is checked first. *)
Theorem credential_check_comes_first (key : option string)
    (fetch : string -> fetch_reply) (request : NextRequest) :
  truthy_param key = None ->
  queryParam request = None ->
  snd (GET key fetch request)
  = Ok (mkResponse 500
          (error_body "Weather service is not configured. Please contact the administrator.")
          []) /\
  (forall r, snd (GET key fetch request) = Ok r -> status r <> 400%Z).
Proof.
  intros Hk _. rewrite (GET_unconfigured _ _ _ Hk). split; [reflexivity|].
  intros r Hr. inversion Hr. simpl. discriminate.
Qed.

(** C7, at the payload [null].  The provider answers 200 with the JSON text
    [null]: reading [data.location] raises a [TypeError], the [catch] block
    takes it, and the client is answered 500 with the generic text, not the
    502 of an invalid payload. *)
Theorem null_payload_is_answered_500 :
  snd (GET (Some "4f1c9a") (fun _ => Responds 200 (Ok VNull))
           (mkRequest (Some "London") None None))
  = Ok (mkResponse 500
          (error_body "An unexpected error occurred while fetching weather data")
          []).
Proof. reflexivity. Qed.

(** ** The redaction of the request line *)

Lemma startsWith_app (p s : string) : String_startsWith (p ++ s) p = true.
Proof.
  induction p as [|c p IH]; simpl.
  - destruct s; reflexivity.
  - rewrite Ascii.eqb_refl. exact IH.
Qed.

Lemma startsWith_drop (s p : string) :
  String_startsWith s p = true -> s = p ++ String_drop (String.length p) s.
Proof.
  revert s. induction p as [|c p IH]; intros s H; simpl.
  - reflexivity.
  - destruct s as [|d s]; simpl in H; [discriminate|].
    apply andb_true_iff in H as [Hc Hs].
    apply Ascii.eqb_eq in Hc. subst d. f_equal. apply IH. exact Hs.
Qed.

Lemma drop_app (p s : string) : String_drop (String.length p) (p ++ s) = s.
Proof. induction p as [|c p IH]; simpl; auto. Qed.

Lemma String_replace_unfold (s p r : string) :
  String_replace s p r
  = if String_startsWith s p then r ++ String_drop (String.length p) s
    else match s with
         | EmptyString => EmptyString
         | String c s' => String c (String_replace s' p r)
         end.
Proof. destruct s; reflexivity. Qed.

(** [replace] rewrites the first occurrence of the pattern: the string
    splits around an occurrence that no other occurrence precedes, and the
    replacement stands where it stood. *)
Lemma String_replace_first (s p r pre0 post0 : string) :
  s = pre0 ++ p ++ post0 ->
  exists pre post,
    s = pre ++ p ++ post /\
    String_replace s p r = pre ++ r ++ post /\
    forall pre1 post1, s = pre1 ++ p ++ post1 ->
                       (String.length pre <= String.length pre1)%nat.
Proof.
  revert s. induction pre0 as [|c pre0 IH]; intros s Hs.
  - simpl in Hs. subst s. exists "", post0.
    rewrite String_replace_unfold, startsWith_app.
    repeat split.
    + simpl. f_equal. apply drop_app.
    + intros. simpl. lia.
  - destruct (String_startsWith s p) eqn:Hsw.
    + exists "", (String_drop (String.length p) s).
      rewrite String_replace_unfold, Hsw. repeat split.
      * simpl. apply startsWith_drop. exact Hsw.
      * intros. simpl. lia.
    + simpl in Hs. subst s.
      destruct (IH _ eq_refl) as (pre & post & Heq & Hrep & Hmin).
      exists (String c pre), post. rewrite String_replace_unfold, Hsw.
      repeat split.
      * simpl. f_equal. exact Heq.
      * simpl. f_equal. exact Hrep.
      * intros pre1 post1 H1. destruct pre1 as [|c1 pre1].
        -- simpl in H1. rewrite H1, startsWith_app in Hsw. discriminate.
        -- simpl in H1. inversion H1. simpl. apply le_n_S.
           eapply Hmin. eassumption.
Qed.

(** C2, at an alert without [desc].  The description is the text
    [undefined]: in line 225 [undefined + ""] is evaluated before [||], it
    is a string that is not empty, and the fallback [""] is never taken. *)
Theorem alert_without_desc_is_described_undefined :
  mapAlert alert_without_desc
  = Ok (VObject [("title", VString "Flood Warning");
                 ("description", VString "undefined");
                 ("severity", VString "moderate")]).
Proof. reflexivity. Qed.



Lemma length_append (s1 s2 : string) :
  String.length (s1 ++ s2) = (String.length s1 + String.length s2)%nat.
Proof. induction s1 as [|c s1 IH]; simpl; auto. Qed.

Lemma append_assoc (a b c : string) : (a ++ b) ++ c = a ++ b ++ c.
Proof. induction a as [|x a IH]; simpl; [reflexivity|f_equal; exact IH]. Qed.

(** Two ways of cutting one string: the longer front continues the
    shorter one. *)
Lemma app_cut (x y a b : string) :
  x ++ y = a ++ b ->
  (String.length x <= String.length a)%nat ->
  exists m, a = x ++ m /\ y = m ++ b.
Proof.
  revert a. induction x as [|c x IH]; intros a H Hlen.
  - exists a. split; [reflexivity|exact H].
  - destruct a as [|d a]; [simpl in Hlen; lia|].
    simpl in H. inversion H; subst d.
    destruct (IH a) as (m & -> & ->); [assumption|simpl in Hlen; lia|].
    exists m. split; reflexivity.
Qed.

Lemma String_includes_unfold (s n : string) :
  String_includes s n
  = if String_startsWith s n then true
    else match s with
         | EmptyString => false
         | String _ s' => String_includes s' n
         end.
Proof. destruct s; reflexivity. Qed.

Lemma includes_app (a n b : string) : String_includes (a ++ n ++ b) n = true.
Proof.
  induction a as [|c a IH].
  - change ("" ++ n ++ b) with (n ++ b).
    rewrite String_includes_unfold, startsWith_app. reflexivity.
  - change (String c a ++ n ++ b) with (String c (a ++ n ++ b)).
    rewrite String_includes_unfold, IH.
    destruct (String_startsWith _ n); reflexivity.
Qed.

(** What [replace] leaves: when the pattern stands in the string a second
    time, after a first occurrence, the result still holds it. *)
Lemma String_replace_keeps_the_second (pre mid post p r : string) :
  String_includes (String_replace (pre ++ p ++ mid ++ p ++ post) p r) p = true.
Proof.
  destruct (String_replace_first (pre ++ p ++ mid ++ p ++ post) p r pre
              (mid ++ p ++ post) eq_refl)
    as (pre' & post' & Hs & -> & Hmin).
  specialize (Hmin pre (mid ++ p ++ post) eq_refl).
  assert (Hs' : pre' ++ p ++ post' = (pre ++ p ++ mid) ++ p ++ post)
    by (rewrite <- Hs, !append_assoc; reflexivity).
  destruct (app_cut _ _ _ _ Hs') as (m & Hm & Hrest).
  { rewrite length_append. lia. }
  destruct (app_cut p post' m (p ++ post) Hrest) as (m' & -> & ->).
  { apply (f_equal String.length) in Hm. rewrite !length_append in Hm. lia. }
  rewrite <- (append_assoc m' p post), <- (append_assoc r (m' ++ p) post),
    <- (append_assoc r m' p), <- (append_assoc pre' ((r ++ m') ++ p) post),
    <- (append_assoc pre' (r ++ m') p), append_assoc.
  apply includes_app.
Qed.

(** C8, at every request whose query holds the credential.  With the
    credential configured, the first line the handler logs is the provider
    URL with the first occurrence of the credential replaced (line 147):
    that is the one in the [key] parameter, and the credential that stands
    in the encoded query is logged as it is. *)
Theorem credential_survives_in_the_logged_url
    (key : option string) (fetch : string -> fetch_reply) (request : NextRequest)
    (apiKey q before after : string) :
  truthy_param key = Some apiKey ->
  queryParam request = Some q ->
  encodeURIComponent q = before ++ apiKey ++ after ->
  exists line rest,
    fst (GET key fetch request)
    = console_log [LogString "Fetching weather data from:"; LogString line] :: rest /\
    line = String_replace (request_url apiKey q) apiKey "[API_KEY]" /\
    String_includes line apiKey = true.
Proof.
  intros Hk Hq He.
  destruct (GET_run key fetch request apiKey q Hk Hq) as (rest & Hrun & _).
  eexists. eexists. split; [exact Hrun|]. split; [reflexivity|].
  unfold request_url. rewrite He.
  replace ("https://api.weatherapi.com/v1/forecast.json?key=" ++ apiKey ++ "&q="
           ++ (before ++ apiKey ++ after) ++ "&days=7&aqi=no&alerts=yes")
    with ("https://api.weatherapi.com/v1/forecast.json?key=" ++ apiKey
          ++ ("&q=" ++ before) ++ apiKey ++ (after ++ "&days=7&aqi=no&alerts=yes")).
  - apply String_replace_keeps_the_second.
  - rewrite !append_assoc. reflexivity.
Qed.

(** ** The handler as a whole *)

Lemma bind_io_Ok {A B : Type} (m : io A) (f : A -> io B) (t : list event) (b : B) :
  bind_io m f = (t, Ok b) ->
  exists t1 a t2, m = (t1, Ok a) /\ f a = (t2, Ok b) /\ t = (t1 ++ t2)%list.
Proof.
  unfold bind_io. destruct m as [t1 [a|e]]; [|discriminate].
  destruct (f a) as [t2 r] eqn:E. intros H. inversion H; subst. eauto 6.
Qed.

Lemma lift_Ok {A : Type} (r : result A) (t : list event) (a : A) :
  lift r = (t, Ok a) -> r = Ok a.
Proof. unfold lift. intros H. inversion H. reflexivity. Qed.

Lemma NextResponse_json_Ok (data : value) (st : Z) (hs : list (string * string))
    (r : NextResponse) :
  NextResponse_json data st hs = Ok r -> r = mkResponse st (toJSON data) hs.
Proof.
  unfold NextResponse_json.
  destruct (negb _); [discriminate|]. destruct (_ || _)%bool; [discriminate|].
  intros H. inversion H. reflexivity.
Qed.

Lemma GET_catch_answers (e : error) :
  exists t r, GET_catch e = (t, Ok r) /\ status r <> 200%Z.
Proof.
  unfold GET_catch.
  destruct (String.eqb (error_name e) "AbortError");
    [|destruct (String_includes (error_message e) "fetch")];
    eexists; eexists; (split; [reflexivity|simpl; discriminate]).
Qed.

(** No exception leaves the handler: every run ends with a response. *)
Lemma GET_always_answers (key : option string) (fetch : string -> fetch_reply)
    (request : NextRequest) :
  exists t r, GET key fetch request = (t, Ok r).
Proof.
  unfold GET, try_catch.
  destruct (GET_try key fetch request) as [t [r|e]]; [eauto|].
  destruct (GET_catch_answers e) as (t' & r & -> & _). eauto.
Qed.

Lemma getprop_read (v : value) (k : string) :
  v <> VUndefined -> v <> VNull -> String.eqb k "length" = false ->
  getprop v k = Ok (field k v).
Proof.
  intros Hu Hn Hk. destruct v; simpl; try rewrite Hk; try reflexivity; congruence.
Qed.

Lemma optprop_read (v : value) (k : string) :
  String.eqb k "length" = false -> optprop v k = Ok (field k v).
Proof.
  intros Hk. destruct v; simpl; try rewrite Hk; reflexivity.
Qed.

(** The structural check on a decoded payload that is not [null]: the three
    sections must be truthy. *)
Lemma accepted_sections (data : value) :
  data <> VUndefined -> data <> VNull ->
  accepted data
  = Ok (truthy (field "location" data) && truthy (field "current" data)
        && truthy (forecastdays data)).
Proof.
  intros Hu Hn. unfold accepted, forecastdayOf, forecastdays.
  rewrite !getprop_read by (assumption || reflexivity). cbn [bind].
  rewrite optprop_read by reflexivity.
  destruct (truthy (field "location" data)); [|reflexivity].
  destruct (truthy (field "current" data)); reflexivity.
Qed.

Lemma upstream_ok_rejected (data : value) :
  accepted data = Ok false ->
  upstream_ok (Ok data)
  = ([], Ok (mkResponse 502
               (error_body "Invalid weather data received from service") [])).
Proof.
  intros Ha. unfold upstream_ok. cbv [lift bind_io]. rewrite Ha. reflexivity.
Qed.

(** A decoded payload other than [null] that lacks one of the three
    sections (or holds a falsy value there) is answered 502 with the text
    of line 166. *)
Lemma missing_section_is_answered_502 (key : option string)
    (fetch : string -> fetch_reply) (request : NextRequest)
    (apiKey q : string) (st : Z) (data : value) :
  truthy_param key = Some apiKey ->
  queryParam request = Some q ->
  fetch (request_url apiKey q) = Responds st (Ok data) ->
  ok st = true ->
  data <> VUndefined -> data <> VNull ->
  truthy (field "location" data) = false \/
  truthy (field "current" data) = false \/
  truthy (forecastdays data) = false ->
  snd (GET key fetch request)
  = Ok (mkResponse 502 (error_body "Invalid weather data received from service") []).
Proof.
  intros Hk Hq Hf Hok Hu Hn Hmiss.
  assert (Ha : accepted data = Ok false).
  { rewrite accepted_sections by assumption. f_equal.
    destruct Hmiss as [-> | [-> | ->]];
      rewrite ?andb_false_r; reflexivity. }
  unfold GET, GET_try. rewrite Hk, Hq. cbv zeta. rewrite Hf, Hok.
  rewrite (upstream_ok_rejected _ Ha). reflexivity.
Qed.

(** An answer 200 is the serialized record of a payload that the provider
    sent with a 2xx status, that passed the structural check and that was
    mapped. *)
Lemma GET_200_is_a_mapped_payload (key : option string)
    (fetch : string -> fetch_reply) (request : NextRequest)
    (t : list event) (r : NextResponse) :
  GET key fetch request = (t, Ok r) ->
  status r = 200%Z ->
  exists apiKey q st data resp,
    truthy_param key = Some apiKey /\
    queryParam request = Some q /\
    fetch (request_url apiKey q) = Responds st (Ok data) /\
    ok st = true /\
    accepted data = Ok true /\
    normalize data = Ok resp /\
    r = mkResponse 200 (toJSON resp) [("Cache-Control", "public, max-age=600")].
Proof.
  intros HG Hst. unfold GET, try_catch in HG.
  destruct (GET_try key fetch request) as [t0 [r0|e]] eqn:Htry.
  2:{ destruct (GET_catch_answers e) as (t' & r' & Hc & Hne).
      rewrite Hc in HG. inversion HG; subst. contradiction. }
  inversion HG; subst t0 r0. clear HG.
  unfold GET_try in Htry.
  destruct (truthy_param key) as [apiKey|] eqn:Hk.
  2:{ inversion Htry; subst. discriminate. }
  destruct (queryParam request) as [q|] eqn:Hq.
  2:{ inversion Htry; subst. discriminate. }
  cbv zeta in Htry.
  apply bind_io_Ok in Htry as (t1 & [] & t2 & _ & Htry & _).
  apply bind_io_Ok in Htry as (t3 & [] & t4 & _ & Htry & _).
  destruct (fetch (request_url apiKey q)) as [e|st json] eqn:Hf.
  { inversion Htry. }
  destruct (ok st) eqn:Hok; cbn [negb] in Htry.
  - unfold upstream_ok in Htry.
    apply bind_io_Ok in Htry as (t5 & data & t6 & Hj & Htry & _).
    apply lift_Ok in Hj. subst json.
    apply bind_io_Ok in Htry as (t7 & valid & t8 & Ha & Htry & _).
    apply lift_Ok in Ha. destruct valid; cbn [negb] in Htry.
    + apply bind_io_Ok in Htry as (t9 & resp & t10 & Hn & Htry & _).
      apply lift_Ok in Hn.
      apply bind_io_Ok in Htry as (t11 & name & t12 & _ & Htry & _).
      apply bind_io_Ok in Htry as (t13 & [] & t14 & _ & Htry & _).
      apply lift_Ok, NextResponse_json_Ok in Htry.
      exists apiKey, q, st, data, resp. repeat split; assumption.
    + apply lift_Ok, NextResponse_json_Ok in Htry. subst r. discriminate.
  - unfold upstream_error in Htry.
    apply bind_io_Ok in Htry as (t5 & [] & t6 & _ & Htry & _).
    apply bind_io_Ok in Htry as (t7 & err & t8 & _ & Htry & _).
    apply bind_io_Ok in Htry as (t9 & msg & t10 & _ & Htry & _).
    apply bind_io_Ok in Htry as (t15 & text & t16 & _ & Htry & _).
    apply lift_Ok, NextResponse_json_Ok in Htry. subst r. simpl in Hst.
    subst st. discriminate.
Qed.


(** ** One alert *)

Lemma substring_from_0 (n : nat) (s : string) :
  String.length (String.substring 0 n s) = Nat.min n (String.length s).
Proof.
  revert s. induction n as [|n IH]; intros s.
  - destruct s; reflexivity.
  - destruct s as [|c s]; simpl; [reflexivity|]. rewrite IH. reflexivity.
Qed.

Lemma exceeds_length (s : string) (k : nat) :
  exceeds (VInt (Z.of_nat (String_length s))) (Z.of_nat k) = (k <? String.length s)%nat.
Proof.
  rewrite exceeds_VInt. unfold String_length.
  destruct (Nat.ltb_spec k (String.length s));
    [apply Z.ltb_lt|apply Z.ltb_ge]; lia.
Qed.

(** What [mapAlert] makes of an alert.  The title is the event name if
    truthy, else the headline if truthy, else [Alert]; the severity is the
    one given if truthy, else [moderate]; a description that is a string
    is cut to its first 200 code units, with [...] appended exactly when it
    was longer (250 code units give 203); a description that is absent or
    [null] comes out as the text [undefined]. *)
Lemma mapAlert_fields (alert out : value) :
  mapAlert alert = Ok out ->
  field "title" out
  = or_else (or_else (field "event" alert) (field "headline" alert)) (VString "Alert") /\
  field "severity" out = or_else (field "severity" alert) (VString "moderate") /\
  (forall s, field "desc" alert = VString s ->
             field "description" out
             = VString (String_substring s 0 200
                        ++ (if (200 <? String.length s)%nat then "..." else "")) /\
             (String.length s = 250%nat ->
              String.length (text_of (field "description" out)) = 203%nat)) /\
  (field "desc" alert = VUndefined \/ field "desc" alert = VNull ->
   field "description" out = VString "undefined").
Proof.
  unfold mapAlert. intros H. bind_inv H.
  repeat match goal with
         | G : getprop _ _ = Ok _ |- _ =>
             apply getprop_field in G; [|reflexivity]
         end.
  match goal with
  | G : gt _ _ = Ok _ |- _ => apply gt_Ok in G as [-> _]
  end.
  match goal with
  | G : plus_string _ _ = Ok _ |- _ => apply plus_string_Ok in G as ->
  end.
  subst. inversion H; subst out. clear H.
  split; [reflexivity|]. split; [reflexivity|].
  change (field "description" (VObject ?l)) with (own "description" l).
  cbn [own lookup String.eqb Ascii.eqb Bool.eqb].
  split.
  - intros s Hs. rewrite Hs in *.
    match goal with
    | G : desc_head (VString s) = Ok _ |- _ => simpl in G; inversion G; subst
    end.
    match goal with
    | G : optprop (VString s) "length" = Ok _ |- _ => simpl in G; inversion G; subst
    end.
    change 200%Z with (Z.of_nat 200). rewrite exceeds_length.
    assert (Hd : or_else
                   (VString (printed (VString (String_substring s 0 200))
                             ++ (if (200 <? String.length s)%nat then "..." else "")))
                   (VString "")
                 = VString (String_substring s 0 200
                            ++ (if (200 <? String.length s)%nat then "..." else ""))).
    { unfold or_else. cbn [printed truthy].
      destruct (String.eqb_spec
                  (String_substring s 0 200
                   ++ (if (200 <? String.length s)%nat then "..." else "")) "")
        as [->|_]; reflexivity. }
    rewrite Hd. split; [reflexivity|].
    intros Hlen. cbn [text_of]. rewrite length_append.
    unfold String_substring. cbn [Nat.min Nat.max Nat.sub].
    rewrite substring_from_0, Hlen. reflexivity.
  - intros [Hd|Hd]; rewrite Hd in *;
      repeat match goal with
             | G : desc_head _ = Ok _ |- _ => simpl in G; inversion G; subst; clear G
             | G : optprop _ "length" = Ok _ |- _ => simpl in G; inversion G; subst; clear G
             end; reflexivity.
Qed.


(** ** Payloads that are mapped *)

Lemma nullish_false (v : value) :
  nullish v = false -> v <> VUndefined /\ v <> VNull.
Proof. destruct v; simpl; intros H; try discriminate; split; discriminate. Qed.

Lemma field_not_nullish (k : string) (v : value) :
  nullish (field k v) = false -> v <> VUndefined /\ v <> VNull.
Proof. destruct v; simpl; intros H; try discriminate; split; discriminate. Qed.

Lemma is_string_inv (v : value) : is_string v = true -> exists s, v = VString s.
Proof. destruct v; simpl; intros H; try discriminate. eauto. Qed.

Lemma is_string_not_nullish (v : value) : is_string v = true -> nullish v = false.
Proof. destruct v; simpl; intros H; try discriminate; reflexivity. Qed.

Ltac read_tac :=
  repeat match goal with
         | |- context [getprop ?v ?k] =>
             rewrite (getprop_read v k)
               by first [ assumption | reflexivity
                        | eapply field_not_nullish; eassumption
                        | eapply nullish_false; eassumption
                        | eapply field_not_nullish, is_string_not_nullish; eassumption ];
             cbn [bind]
         | |- context [Math_round ?v] =>
             rewrite (Math_round_convertible v) by assumption;
             cbn [bind]
         end.

Lemma mapHour_ok (h : value) : hour_ok h = true -> mapHour h = Ok (hourEntry h).
Proof.
  unfold hour_ok. intros H. apply andb_true_iff in H as [H Hwind].
  apply andb_true_iff in H as [H Htemp]. apply andb_true_iff in H as [Ht Hc].
  pose proof (is_string_not_nullish _ Ht) as Ht'.
  pose proof (is_string_not_nullish _ Hc) as Hc'.
  pose proof (proj1 (field_not_nullish _ _ Hc')) as Hc1.
  pose proof (proj2 (field_not_nullish _ _ Hc')) as Hc2.
  assert (Hn : nullish (field "condition" h) = false)
    by (destruct (field "condition" h); try reflexivity; congruence).
  apply is_string_inv in Ht as [time Ht]. apply is_string_inv in Hc as [text Hc].
  unfold mapHour, hourEntry. read_tac.
  rewrite Ht. cbn [string_method bind]. read_tac.
  rewrite Hc. cbn [string_method bind]. read_tac. reflexivity.
Qed.

Lemma mapM_total {A B : Type} (f : A -> result B) (g : A -> B) (ok_ : A -> bool)
    (xs : list A) :
  (forall x, ok_ x = true -> f x = Ok (g x)) ->
  forallb ok_ xs = true -> mapM f xs = Ok (map g xs).
Proof.
  intros Hf. induction xs as [|x xs IH]; simpl; intros H; [reflexivity|].
  apply andb_true_iff in H as [Hx Hxs].
  rewrite (Hf x Hx), (IH Hxs). reflexivity.
Qed.

Lemma day_chain (d : value) :
  day_ok d = true ->
  exists text,
    field "text" (field "condition" (field "day" d)) = VString text /\
    nullish (field "condition" (field "day" d)) = false /\
    nullish (field "day" d) = false /\
    nullish d = false.
Proof.
  unfold day_ok. intros H.
  apply andb_true_iff in H as [H _]. apply andb_true_iff in H as [H _].
  apply andb_true_iff in H as [H _].
  pose proof (is_string_not_nullish _ H) as H1.
  apply is_string_inv in H as [text Ht]. exists text. split; [exact Ht|].
  destruct d; try discriminate H1; simpl in *;
    destruct (own "day" props); try discriminate H1; simpl in *;
    destruct (own "condition" props0); try discriminate H1; auto.
Qed.

Lemma day_numbers (d : value) :
  day_ok d = true ->
  convertible (field "avgtemp_c" (field "day" d)) = true /\
  convertible (field "mintemp_c" (field "day" d)) = true /\
  convertible (field "maxtemp_c" (field "day" d)) = true.
Proof.
  unfold day_ok. intros H.
  apply andb_true_iff in H as [H Hmax]. apply andb_true_iff in H as [H Hmin].
  apply andb_true_iff in H as [_ Havg]. auto.
Qed.

Lemma mapDay_ok (d : value) : day_ok d = true -> mapDay d = Ok (dayEntry d).
Proof.
  intros H. destruct (day_numbers _ H) as (Havg & Hmin & Hmax).
  apply day_chain in H as (text & Ht & Hc & Hd & Hn).
  unfold mapDay, dayEntry. read_tac. rewrite Ht. reflexivity.
Qed.

Lemma daySummary_ok (d : value) :
  day_ok d = true -> daySummary d = Ok (summaryEntry d).
Proof.
  intros H. destruct (day_numbers _ H) as (Havg & Hmin & Hmax).
  apply day_chain in H as (text & Ht & Hc & Hd & Hn).
  unfold daySummary, summaryEntry. read_tac. rewrite Ht. reflexivity.
Qed.

Lemma hourlyOf_ok (day : value) (expr : string) :
  nullish day = false -> hours_ok day = true ->
  exists out, hourlyOf day expr = Ok out.
Proof.
  unfold hours_ok, hourlyOf. intros Hn H. read_tac.
  destruct (field "hour" day) eqn:Hh;
    try (eexists; cbn [Array_isArray andb]; rewrite ?andb_false_r; reflexivity).
  cbn [truthy Array_isArray andb Array_map].
  rewrite (mapM_total mapHour hourEntry hour_ok _ mapHour_ok H).
  eexists. reflexivity.
Qed.

Lemma mapAlert_ok (a : value) : alert_ok a = true -> exists m, mapAlert a = Ok m.
Proof.
  unfold alert_ok. intros H. apply andb_true_iff in H as [Hn Hd].
  apply negb_true_iff in Hn. unfold mapAlert. read_tac.
  destruct (field "desc" a); try discriminate Hd; cbn; eexists; reflexivity.
Qed.

Lemma mapM_exists {A B : Type} (f : A -> result B) (ok_ : A -> bool) (xs : list A) :
  (forall x, ok_ x = true -> exists y, f x = Ok y) ->
  forallb ok_ xs = true -> exists ys, mapM f xs = Ok ys.
Proof.
  intros Hf. induction xs as [|x xs IH]; simpl; intros H; [eauto|].
  apply andb_true_iff in H as [Hx Hxs].
  destruct (Hf x Hx) as [y ->]. destruct (IH Hxs) as [ys ->]. simpl. eauto.
Qed.

Lemma tomorrowOf_ok (today : value) (rest : list value) :
  forallb day_ok rest = true ->
  match rest with
  | tomorrow :: _ => hours_ok tomorrow
  | [] => true
  end = true ->
  exists p, tomorrowOf (VArray (today :: rest)) = Ok p.
Proof.
  intros Hd Hh. destruct rest as [|tomorrow rest].
  - rewrite tomorrowOf_single. eauto.
  - simpl in Hd. apply andb_true_iff in Hd as [Hd _].
    pose proof (day_chain _ Hd) as (_ & _ & _ & _ & Hn).
    destruct (hourlyOf_ok tomorrow "tomorrow" Hn Hh) as [th Hth].
    unfold tomorrowOf.
    change (getprop (VArray (today :: tomorrow :: rest)) "length")
      with (Ok (VInt (Z.of_nat (List.length (today :: tomorrow :: rest))))).
    cbn [bind]. rewrite gt_VInt.
    replace (1 <? Z.of_nat (List.length (today :: tomorrow :: rest)))%Z with true
      by (symmetry; apply Z.ltb_lt; simpl List.length; lia).
    change (getindex (VArray (today :: tomorrow :: rest)) 1) with (Ok tomorrow).
    cbn [bind]. rewrite Hth. cbn [bind]. rewrite (daySummary_ok _ Hd).
    eexists. reflexivity.
Qed.

Lemma mappable_normalizes (data : value) :
  mappable data = true -> exists resp, normalize data = Ok resp.
Proof.
  unfold mappable. intros H.
  apply andb_true_iff in H as [H Halerts].
  apply andb_true_iff in H as [H Hdays].
  apply andb_true_iff in H as [H Hnum].
  apply andb_true_iff in H as [Hloc Hcur].
  apply negb_true_iff in Hloc, Hcur.
  cbn [forallb] in Hnum.
  apply andb_true_iff in Hnum as [Htemp Hnum].
  apply andb_true_iff in Hnum as [Hwind Hnum].
  apply andb_true_iff in Hnum as [Hvis Hnum].
  apply andb_true_iff in Hnum as [Hfeels _].
  destruct (forecastdays data) as [| | | | |[|today rest]|] eqn:Hfd;
    try discriminate Hdays.
  apply andb_true_iff in Hdays as [Hdays Htom].
  apply andb_true_iff in Hdays as [Hdays Hastro].
  apply andb_true_iff in Hdays as [Hdays Hhours].
  apply negb_true_iff in Hastro.
  destruct (or_else (field "alert" (field "alerts" data)) (VArray []))
    as [| | | | |alerts|] eqn:Hal; try discriminate Halerts.
  pose proof Hdays as Hdays'. simpl in Hdays'.
  apply andb_true_iff in Hdays' as [Htoday Hrest].
  pose proof (day_numbers _ Htoday) as (_ & Hmin & Hmax).
  pose proof (day_chain _ Htoday) as (_ & _ & _ & Hday & Hn).
  pose proof (proj1 (field_not_nullish _ _ Hloc)) as Hd1.
  pose proof (proj2 (field_not_nullish _ _ Hloc)) as Hd2.
  assert (Hc : nullish (field "current" data) = false)
    by (destruct (field "current" data); try reflexivity; discriminate Hcur).
  assert (Hf : nullish (field "forecast" data) = false).
  { unfold forecastdays in Hfd.
    destruct (field "forecast" data); try reflexivity; discriminate Hfd. }
  destruct (hourlyOf_ok today "today" Hn Hhours) as [hourly Hhourly].
  destruct (tomorrowOf_ok today rest Hrest Htom) as [p Hp].
  destruct (mapM_exists mapAlert alert_ok alerts mapAlert_ok Halerts)
    as [mapped Hmapped].
  unfold normalize. read_tac.
  unfold forecastdays in Hfd. rewrite Hfd.
  change (getindex (VArray (today :: rest)) 0) with (Ok today). cbn [bind].
  assert (Ha : alertsOf data = Ok (VArray alerts)).
  { unfold alertsOf. read_tac. rewrite optprop_read by reflexivity.
    cbn [bind]. rewrite Hal. reflexivity. }
  rewrite Ha. cbn [bind]. rewrite Hhourly. cbn [bind]. rewrite Hp. cbn [bind].
  cbn [Array_map].
  rewrite (mapM_total mapDay dayEntry day_ok _ mapDay_ok Hdays). cbn [bind].
  rewrite Hmapped. cbn [bind]. read_tac.
  rewrite alertsField_array. cbn [bind]. eexists. reflexivity.
Qed.


(** ** Exceptions of the mapping *)

Lemma getprop_Throw (v : value) (k : string) (e : error) :
  getprop v k = Throw e -> exists b, e = cannot_read b k.
Proof.
  destruct v; simpl; intros H; try discriminate;
    try (destruct (String.eqb k "length"); discriminate);
    inversion H; eauto.
Qed.

Lemma getindex_Throw (v : value) (i : nat) (e : error) :
  getindex v i = Throw e -> exists b, e = cannot_read b (index_key i).
Proof.
  destruct v; simpl; intros H; try discriminate;
    try (destruct (String.get i s); discriminate);
    inversion H; eauto.
Qed.

Lemma optprop_Throw (v : value) (k : string) (e : error) :
  optprop v k = Throw e -> exists b, e = cannot_read b k.
Proof.
  destruct v; simpl; intros H; try discriminate;
    try (destruct (String.eqb k "length"); discriminate).
Qed.

Lemma string_method_Throw (recv : value) (m callee : string)
    (f : string -> string) (e : error) :
  string_method recv m callee f = Throw e ->
  (exists b, e = cannot_read b m) \/ e = TypeError (callee ++ " is not a function").
Proof.
  destruct recv; simpl; intros H; inversion H; eauto.
Qed.

Lemma mapM_Throw {A B : Type} (f : A -> result B) (xs : list A) (e : error) :
  mapM f xs = Throw e -> exists x, In x xs /\ f x = Throw e.
Proof.
  induction xs as [|x xs IH]; simpl; intros H; [discriminate|].
  destruct (f x) eqn:Ex; cbn [bind] in H.
  - destruct (mapM f xs) eqn:Exs; cbn [bind] in H; [discriminate|].
    inversion H; subst. destruct (IH eq_refl) as [y [Hy Hfy]]. eauto.
  - inversion H; subst. eauto.
Qed.

Lemma Array_map_Throw (recv : value) (callee : string)
    (f : value -> result value) (e : error) :
  Array_map recv callee f = Throw e ->
  (exists b, e = cannot_read b "map") \/
  e = TypeError (callee ++ " is not a function") \/
  (exists x, f x = Throw e).
Proof.
  destruct recv; simpl; intros H; try (inversion H; eauto; fail).
  destruct (mapM f elems) eqn:E; cbn [bind] in H; [discriminate|].
  inversion H; subst. apply mapM_Throw in E as [x [_ Hx]]. eauto.
Qed.

(** One step of a failed chain of reads: either the step failed, or it
    gave a value and the rest failed. *)
Ltac throw_inv H :=
  repeat match type of H with
         | bind ?m _ = Throw _ =>
             let E := fresh "E" in
             destruct m eqn:E; cbn [bind] in H;
             [ | inversion H; subst; clear H ]
         end.

(** Closes a goal [unclassified e] from the failed read or call. *)
Ltac leaf :=
  match goal with
  | E : getprop _ _ = Throw _ |- _ =>
      apply getprop_Throw in E as [[] ->]; split; reflexivity
  | E : optprop _ _ = Throw _ |- _ =>
      apply optprop_Throw in E as [[] ->]; split; reflexivity
  | E : getindex _ _ = Throw _ |- _ =>
      apply getindex_Throw in E as [[] ->]; split; reflexivity
  | E : string_method _ _ _ _ = Throw _ |- _ =>
      apply string_method_Throw in E as [[[] ->] | ->]; split; reflexivity
  | E : Math_round _ = Throw _ |- _ =>
      apply Math_round_Throw in E as [-> _]; split; reflexivity
  | E : gt _ _ = Throw _ |- _ =>
      apply gt_Throw in E as [-> _]; split; reflexivity
  | E : plus_string _ _ = Throw _ |- _ =>
      apply plus_string_Throw in E as [-> _]; split; reflexivity
  | H : Ok _ = Throw _ |- _ => discriminate H
  end.

Lemma mapHour_Throw (h : value) (e : error) : mapHour h = Throw e -> unclassified e.
Proof. unfold mapHour. intros H. throw_inv H; leaf. Qed.

Lemma mapDay_Throw (d : value) (e : error) : mapDay d = Throw e -> unclassified e.
Proof. unfold mapDay. intros H. throw_inv H; leaf. Qed.

Lemma daySummary_Throw (d : value) (e : error) :
  daySummary d = Throw e -> unclassified e.
Proof. unfold daySummary. intros H. throw_inv H; leaf. Qed.

Lemma mapAlert_Throw (a : value) (e : error) : mapAlert a = Throw e -> unclassified e.
Proof.
  unfold mapAlert, desc_head. intros H. throw_inv H; try leaf.
  match goal with
  | E : match ?d with _ => _ end = Throw _ |- _ =>
      destruct d; try discriminate E; leaf
  end.
Qed.

Lemma hourlyOf_Throw (day : value) (expr : string) (e : error) :
  hourlyOf day expr = Throw e -> unclassified e.
Proof.
  unfold hourlyOf. intros H. throw_inv H; try leaf.
  match type of H with
  | (if truthy ?a && _ then _ else _) = _ =>
      destruct a as [| | | | |hs|]; cbn [Array_isArray truthy] in H;
      rewrite ?andb_false_r in H; try discriminate
  end.
  cbn [andb Array_map] in H.
  destruct (mapM mapHour hs) eqn:E'; cbn [bind] in H; [discriminate|].
  inversion H; subst. apply mapM_Throw in E' as [x [_ Hx]].
  eapply mapHour_Throw; eassumption.
Qed.

Lemma tomorrowOf_Throw (forecastday : value) (e : error) :
  tomorrowOf forecastday = Throw e -> unclassified e.
Proof.
  unfold tomorrowOf. intros H. throw_inv H; try leaf.
  match type of H with
  | (if ?c then _ else _) = _ => destruct c; [|discriminate]
  end.
  throw_inv H; try leaf.
  - eapply daySummary_Throw; eassumption.
  - eapply hourlyOf_Throw; eassumption.
Qed.

Lemma alertsOf_Throw (data : value) (e : error) :
  alertsOf data = Throw e -> unclassified e.
Proof. unfold alertsOf. intros H. throw_inv H; leaf. Qed.

Lemma alertsField_Throw (mapped : value) (e : error) :
  alertsField mapped = Throw e -> unclassified e.
Proof. unfold alertsField. intros H. throw_inv H; leaf. Qed.

(** Every exception of the mapping is a [TypeError] whose message does not
    mention [fetch]. *)
Lemma normalize_Throw (data : value) (e : error) :
  normalize data = Throw e -> unclassified e.
Proof.
  unfold normalize. intros H. throw_inv H; try leaf.
  - eapply alertsField_Throw; eassumption.
  - match goal with
    | E : Array_map _ _ mapAlert = Throw _ |- _ =>
        apply Array_map_Throw in E as [[[] ->] | [-> | [x Hx]]];
          try (split; reflexivity)
    end.
    eapply mapAlert_Throw; eassumption.
  - match goal with
    | E : Array_map _ _ mapDay = Throw _ |- _ =>
        apply Array_map_Throw in E as [[[] ->] | [-> | [x Hx]]];
          try (split; reflexivity)
    end.
    eapply mapDay_Throw; eassumption.
  - eapply tomorrowOf_Throw; eassumption.
  - eapply hourlyOf_Throw; eassumption.
  - eapply alertsOf_Throw; eassumption.
Qed.

(** ** The payloads that are mapped, exactly *)

Lemma getprop_Ok_nullish (v : value) (k : string) (x : value) :
  getprop v k = Ok x -> nullish v = false.
Proof. destruct v; simpl; intros H; try discriminate; reflexivity. Qed.

Lemma mapM_forallb {A B : Type} (f : A -> result B) (ok_ : A -> bool)
    (xs : list A) (ys : list B) :
  (forall x y, f x = Ok y -> ok_ x = true) ->
  mapM f xs = Ok ys -> forallb ok_ xs = true.
Proof.
  intros Hf. revert ys. induction xs as [|x xs IH]; simpl; intros ys H;
    [reflexivity|].
  bind_inv H.
  match goal with
  | E : f x = Ok _ |- _ => rewrite (Hf _ _ E)
  end.
  simpl. eapply IH. reflexivity.
Qed.

Ltac shape_inv H :=
  bind_inv H;
  repeat match goal with
         | G : Math_round _ = Ok _ |- _ =>
             apply Math_round_Ok in G as [_ G]
         end;
  repeat match goal with
         | G : string_method _ _ _ _ = Ok _ |- _ =>
             let s := fresh "s" in
             let Hs := fresh "Hs" in
             apply string_method_inv in G as [s [Hs _]]
         end;
  repeat match goal with
         | G : getprop _ _ = Ok _ |- _ =>
             apply getprop_field in G; [|reflexivity]
         end;
  subst.

Lemma mapHour_Ok_hour_ok (h e : value) : mapHour h = Ok e -> hour_ok h = true.
Proof.
  unfold mapHour, hour_ok. intros H. shape_inv H.
  repeat match goal with
         | G : field _ _ = VString _ |- _ => rewrite G
         | G : VString _ = field _ _ |- _ => rewrite <- G
         | G : convertible _ = true |- _ => rewrite G
         end.
  reflexivity.
Qed.

Lemma mapDay_Ok_day_ok (d e : value) : mapDay d = Ok e -> day_ok d = true.
Proof.
  unfold mapDay, day_ok. intros H. shape_inv H.
  repeat match goal with
         | G : field _ _ = VString _ |- _ => rewrite G
         | G : VString _ = field _ _ |- _ => rewrite <- G
         | G : convertible _ = true |- _ => rewrite G
         end.
  reflexivity.
Qed.

Lemma hourlyOf_Ok_hours_ok (day : value) (expr : string) (out : value) :
  hourlyOf day expr = Ok out -> hours_ok day = true.
Proof.
  intros H. pose proof (hourlyOf_read _ _ _ H) as Hr. unfold hours_ok.
  unfold hourlyOf in H. rewrite Hr in H. cbn [bind] in H.
  destruct (field "hour" day) as [| | | | |hs|]; try reflexivity.
  cbn [truthy Array_isArray andb Array_map] in H.
  destruct (mapM mapHour hs) eqn:E; cbn [bind] in H; [|discriminate].
  eapply mapM_forallb; [|exact E]. apply mapHour_Ok_hour_ok.
Qed.

Lemma mapAlert_Ok_alert_ok (a m : value) : mapAlert a = Ok m -> alert_ok a = true.
Proof.
  unfold mapAlert, alert_ok. intros H. bind_inv H.
  match goal with
  | G : getprop a "event" = Ok _ |- _ =>
      rewrite (getprop_Ok_nullish _ _ _ G)
  end.
  match goal with
  | G : getprop a "desc" = Ok _ |- _ =>
      apply getprop_field in G; [subst|reflexivity]
  end.
  match goal with
  | G : desc_head ?d = Ok _ |- _ => destruct d; simpl in G; try discriminate
  end; reflexivity.
Qed.

Lemma tomorrowOf_Ok_hours_ok (today : value) (rest : list value) (p : value * value) :
  tomorrowOf (VArray (today :: rest)) = Ok p ->
  match rest with
  | tomorrow :: _ => hours_ok tomorrow
  | [] => true
  end = true.
Proof.
  destruct rest as [|tomorrow rest]; [reflexivity|]. intros H.
  apply tomorrowOf_more in H as [H _].
  eapply hourlyOf_Ok_hours_ok; eassumption.
Qed.

(** A payload that is mapped has the shape [mappable] asks for. *)
Lemma mapped_is_mappable (data resp : value) :
  normalize data = Ok resp -> mappable data = true.
Proof.
  unfold normalize. intros H. bind_inv H.
  match goal with
  | G : Array_map _ _ mapDay = Ok _ |- _ =>
      apply Array_map_inv in G as [days [daily [-> [-> Hdaily]]]]
  end.
  match goal with
  | G : Array_map _ _ mapAlert = Ok _ |- _ =>
      apply Array_map_inv in G as [alerts [mapped [-> [-> Hmapped]]]]
  end.
  destruct days as [|today rest].
  { match goal with
    | G : getindex (VArray []) 0 = Ok ?t, G' : getprop ?t "day" = Ok _ |- _ =>
        inversion G; subst; discriminate G'
    end. }
  match goal with
  | G : getindex (VArray (today :: rest)) 0 = Ok _ |- _ => inversion G; subst
  end.
  unfold mappable.
  match goal with
  | G : alertsOf data = Ok _ |- _ => apply alertsOf_field in G; rewrite <- G
  end.
  match goal with
  | G : getprop ?l "name" = Ok _, G' : getprop data "location" = Ok ?l |- _ =>
      apply getprop_Ok_nullish in G;
      apply getprop_field in G'; [subst l|reflexivity]; rewrite G
  end.
  match goal with
  | G : getprop ?c "text" = Ok _, G' : getprop ?cur "condition" = Ok ?c,
    G'' : getprop data "current" = Ok ?cur |- _ =>
      apply getprop_Ok_nullish in G;
      apply getprop_field in G'; [subst c|reflexivity];
      apply getprop_field in G''; [subst cur|reflexivity]; rewrite G
  end.
  match goal with
  | G : getprop ?f "forecastday" = Ok _, G' : getprop data "forecast" = Ok ?f |- _ =>
      apply getprop_field in G; [|reflexivity];
      apply getprop_field in G'; [subst f|reflexivity];
      unfold forecastdays; rewrite <- G
  end.
  match goal with
  | G : getprop ?a "sunrise" = Ok _, G' : getprop ?t "astro" = Ok ?a |- _ =>
      apply getprop_Ok_nullish in G;
      apply getprop_field in G'; [subst a|reflexivity]; rewrite G
  end.
  rewrite (mapM_forallb mapDay day_ok _ _ mapDay_Ok_day_ok Hdaily).
  rewrite (mapM_forallb mapAlert alert_ok _ _ mapAlert_Ok_alert_ok Hmapped).
  match goal with
  | G : hourlyOf _ "today" = Ok _ |- _ =>
      rewrite (hourlyOf_Ok_hours_ok _ _ _ G)
  end.
  match goal with
  | G : tomorrowOf _ = Ok _ |- _ =>
      rewrite (tomorrowOf_Ok_hours_ok _ _ _ G)
  end.
  repeat match goal with
         | G : getprop _ _ = Ok ?x, G' : Math_round ?x = Ok _ |- _ =>
             apply getprop_field in G; [subst x|reflexivity];
             apply Math_round_Ok in G' as [_ G']
         end.
  cbn [forallb].
  repeat match goal with
         | G : convertible _ = true |- _ => rewrite G
         end.
  reflexivity.
Qed.

(** The payloads that are mapped are exactly those of the shape [mappable]:
    for them the record is produced, no read, call or conversion of lines
    170-254 fails; for every other payload the mapping raises an
    exception. *)
Lemma mappable_is_mapped (data : value) :
  (mappable data = true <-> exists resp, normalize data = Ok resp) /\
  (mappable data = false <-> exists e, normalize data = Throw e).
Proof.
  assert (H1 : mappable data = true <-> exists resp, normalize data = Ok resp).
  { split; [apply mappable_normalizes|].
    intros [resp H]. eapply mapped_is_mappable. exact H. }
  split; [exact H1|]. split.
  - intros Hm. destruct (normalize data) as [resp|e] eqn:Hn; [|eauto].
    apply mapped_is_mappable in Hn. congruence.
  - intros [e He]. destruct (mappable data) eqn:Hm; [|reflexivity].
    apply mappable_normalizes in Hm as [resp Hr]. congruence.
Qed.

(** ** The statements on the rounded numbers and on the alerts *)

Lemma hours_numbers (hs : list value) :
  forallb hour_ok hs = true -> Forall2 hour_numbers hs (map hourEntry hs).
Proof.
  induction hs as [|h hs IH]; cbn [forallb map]; intros H; [constructor|].
  apply andb_true_iff in H as [Hh Hhs]. constructor; [|exact (IH Hhs)].
  unfold hour_ok in Hh. apply andb_true_iff in Hh as [Hh Hwind].
  apply andb_true_iff in Hh as [_ Htemp].
  repeat split; apply Math_round_convertible; assumption.
Qed.

Lemma summary_numbers_of_day (d : value) :
  day_ok d = true -> summary_numbers d (summaryEntry d) /\ day_numbers_of d (dayEntry d).
Proof.
  intros H. destruct (day_numbers _ H) as (Havg & Hmin & Hmax).
  repeat split; apply Math_round_convertible; assumption.
Qed.

Lemma days_numbers (ds : list value) :
  forallb day_ok ds = true -> Forall2 day_numbers_of ds (map dayEntry ds).
Proof.
  induction ds as [|d ds IH]; cbn [forallb map]; intros H; [constructor|].
  apply andb_true_iff in H as [Hd Hds]. constructor; [|exact (IH Hds)].
  apply summary_numbers_of_day. exact Hd.
Qed.

Lemma hourlyOf_hours (day : value) (expr : string) (out : value) :
  hourlyOf day expr = Ok out ->
  out = VArray (map hourEntry (hours_of day)) /\
  Forall2 hour_numbers (hours_of day) (map hourEntry (hours_of day)).
Proof.
  intros H. pose proof (hourlyOf_Ok_hours_ok _ _ _ H) as Hok.
  pose proof (hourlyOf_read _ _ _ H) as Hr.
  unfold hours_of. unfold hours_ok in Hok.
  destruct (field "hour" day) as [| | | | |hs|] eqn:Hh;
    try (split; [eapply hourlyOf_not_array; [exact Hr|reflexivity|exact H]
                |constructor]).
  split; [eapply hourlyOf_array; eassumption|apply hours_numbers; exact Hok].
Qed.

(** What [Math.round] gives: the nearest integer, a tie going up, when the
    value converts to a finite number (a number converts to itself); [NaN]
    or an infinity, which the body prints as [null], when it converts to
    that. *)
Lemma Math_round_value (src out : value) :
  Math_round src = Ok out ->
  exists n,
    ToNumber src = Ok n /\
    out = VNumber (round_number n) /\
    (forall q, n = Finite q -> out = VInt (Qfloor (q + (1 # 2)))) /\
    (finite n = true -> integer_valued out = true) /\
    (finite n = false -> out = VNumber n /\ toJSON out = VNull).
Proof.
  unfold Math_round. intros H. bind_inv H. inversion H; subst out.
  match goal with
  | E : ToNumber src = Ok ?n |- _ => exists n
  end.
  split; [reflexivity|]. split; [reflexivity|]. split; [|split].
  - intros q ->. reflexivity.
  - destruct a as [| |q]; try discriminate. intros _.
    cbn [integer_valued round_number is_integer]. rewrite Qfloor_Z.
    apply Qeq_bool_iff. apply Qeq_refl.
  - destruct a as [| |q]; try discriminate; intros _; split; reflexivity.
Qed.

(** C1 (amended).  Whenever the payload is mapped, every field that the
    handler passes through [Math.round] is [Math.round] of the provider's
    value: [temperature], [feelsLike], [high], [low], [windSpeed] and
    [visibility] of the current conditions and of today's day block; [temp]
    and [windSpeed] of the entry of [hourlyForecast] and of
    [tomorrowHourlyForecast] for each hour record of today and of tomorrow,
    in order; [temp], [min] and [max] of the [dailyForecast] entry of each
    forecast day and of [tomorrowDaySummary].  Such a field is the integer
    nearest to the provider's number, a tie going up; it is [NaN] or an
    infinity (printed as [null]) only when the provider's value does not
    convert to a finite number.  The other numeric fields are the
    provider's values copied as they are: [humidity], [windDirection],
    [uvIndex], [pressure] and the coordinates, the [humidity] of an hourly
    entry and the [dt] of a daily entry. *)
Theorem rounded_fields_are_whole (data resp today : value) (rest : list value) :
  normalize data = Ok resp ->
  forecastdays data = VArray (today :: rest) ->
  (Math_round (field "temp_c" (field "current" data)) = Ok (field "temperature" resp) /\
   Math_round (field "feelslike_c" (field "current" data)) = Ok (field "feelsLike" resp) /\
   Math_round (field "maxtemp_c" (field "day" today)) = Ok (field "high" resp) /\
   Math_round (field "mintemp_c" (field "day" today)) = Ok (field "low" resp) /\
   Math_round (field "wind_kph" (field "current" data)) = Ok (field "windSpeed" resp) /\
   Math_round (field "vis_km" (field "current" data)) = Ok (field "visibility" resp)) /\
  (exists entries,
      field "hourlyForecast" resp = VArray entries /\
      Forall2 hour_numbers (hours_of today) entries) /\
  (exists entries,
      field "tomorrowHourlyForecast" resp = VArray entries /\
      Forall2 hour_numbers
              (match rest with
               | tomorrow :: _ => hours_of tomorrow
               | [] => []
               end) entries) /\
  (exists entries,
      field "dailyForecast" resp = VArray entries /\
      Forall2 day_numbers_of (today :: rest) entries) /\
  (forall tomorrow rest', rest = tomorrow :: rest' ->
      summary_numbers tomorrow (field "tomorrowDaySummary" resp)) /\
  (field "humidity" resp = field "humidity" (field "current" data) /\
   field "windDirection" resp = field "wind_degree" (field "current" data) /\
   field "uvIndex" resp = field "uv" (field "current" data) /\
   field "pressure" resp = field "pressure_mb" (field "current" data) /\
   field "lat" (field "coordinates" resp) = field "lat" (field "location" data) /\
   field "lon" (field "coordinates" resp) = field "lon" (field "location" data)) /\
  (forall src out,
      Math_round src = Ok out ->
      exists n,
        ToNumber src = Ok n /\
        out = VNumber (round_number n) /\
        (forall q, n = Finite q -> out = VInt (Qfloor (q + (1 # 2)))) /\
        (finite n = true -> integer_valued out = true) /\
        (finite n = false -> out = VNumber n /\ toJSON out = VNull)).
Proof.
  intros Hn Hd.
  pose proof (mapped_is_mappable _ _ Hn) as Hm. unfold mappable in Hm.
  rewrite Hd in Hm.
  apply andb_true_iff in Hm as [Hm _]. apply andb_true_iff in Hm as [Hm Hdays].
  apply andb_true_iff in Hm as [_ Hnum]. cbn [forallb] in Hnum.
  apply andb_true_iff in Hnum as [Htemp Hnum].
  apply andb_true_iff in Hnum as [Hwind Hnum].
  apply andb_true_iff in Hnum as [Hvis Hnum].
  apply andb_true_iff in Hnum as [Hfeels _].
  apply andb_true_iff in Hdays as [Hdays _].
  apply andb_true_iff in Hdays as [Hdays _].
  apply andb_true_iff in Hdays as [Hdays _].
  pose proof Hdays as Htoday. cbn [forallb] in Htoday.
  apply andb_true_iff in Htoday as [Htoday Hrest].
  destruct (day_numbers _ Htoday) as (_ & Hmin & Hmax).
  apply normalize_inv in Hn
    as (today' & rest' & alerts & hourly & p & mapped & Hd' & _ & Hh & Ht & _ & ->).
  rewrite Hd in Hd'. inversion Hd'; subst today' rest'. clear Hd'.
  apply hourlyOf_hours in Hh as [-> Hhours].
  split; [|split; [|split; [|split; [|split; [|split]]]]].
  - repeat split; apply Math_round_convertible; assumption.
  - eexists. split; [reflexivity|exact Hhours].
  - change (field "tomorrowHourlyForecast" (formattedResponse _ _ _ _ (fst p) _ _ _))
      with (fst p).
    destruct rest as [|tomorrow rest''].
    + rewrite tomorrowOf_single in Ht. inversion Ht. cbn [fst].
      exists []. split; [reflexivity|constructor].
    + apply tomorrowOf_more in Ht as [Ht _].
      apply hourlyOf_hours in Ht as [-> Hhours']. eexists.
      split; [reflexivity|exact Hhours'].
  - eexists. split; [reflexivity|]. apply days_numbers. exact Hdays.
  - intros tomorrow rest'' ->.
    change (field "tomorrowDaySummary" (formattedResponse _ _ _ _ _ (snd p) _ _))
      with (snd p).
    apply tomorrowOf_more in Ht as [_ ->].
    cbn [forallb] in Hrest. apply andb_true_iff in Hrest as [Htom _].
    apply summary_numbers_of_day. exact Htom.
  - repeat split.
  - apply Math_round_value.
Qed.

Lemma mapAlert_entry (a m : value) : mapAlert a = Ok m -> alert_entry a m.
Proof.
  unfold mapAlert. intros H. bind_inv H.
  repeat match goal with
         | G : getprop _ _ = Ok _ |- _ =>
             apply getprop_field in G; [|reflexivity]
         end.
  match goal with
  | G : gt _ _ = Ok _ |- _ => apply gt_Ok in G as [-> _]
  end.
  match goal with
  | G : plus_string _ _ = Ok _ |- _ => apply plus_string_Ok in G as ->
  end.
  subst. inversion H; subst m. clear H.
  eexists. split; [reflexivity|].
  intros s Hs. rewrite Hs in *.
  match goal with
  | G : desc_head (VString s) = Ok _ |- _ => simpl in G; inversion G; subst
  end.
  match goal with
  | G : optprop (VString s) "length" = Ok _ |- _ => simpl in G; inversion G; subst
  end.
  change 200%Z with (Z.of_nat 200). rewrite exceeds_length.
  unfold or_else, String_length. cbn [printed truthy].
  destruct (String.eqb_spec
              (String_substring s 0 200
               ++ (if (200 <? String.length s)%nat then "..." else "")) "")
    as [->|_]; reflexivity.
Qed.

Lemma mapM_rel {A B : Type} (f : A -> result B) (R : A -> B -> Prop)
    (xs : list A) (ys : list B) :
  (forall x y, f x = Ok y -> R x y) ->
  mapM f xs = Ok ys -> Forall2 R xs ys.
Proof.
  intros HR H. apply mapM_Forall2 in H.
  induction H; constructor; auto.
Qed.

(** C3 (amended).  Whenever the payload is mapped, the alert list
    [data.alerts?.alert || []] is a sequence.  If it is empty (the source
    list is empty, absent or otherwise falsy) the record's [alerts] is
    [undefined] and the body has no [alerts] key at all.  If it is not
    empty, [alerts] is present, in the record and in the body, with one
    entry per source alert, in order: three fields, the title the alert's
    event, else its headline, else [Alert], the severity the alert's, else
    [moderate], and for an alert whose [desc] is a text the description
    its first 200 code units, followed by [...] when it has more. *)
Theorem alerts_omitted_or_mapped (data resp : value) :
  normalize data = Ok resp ->
  exists alerts,
    or_else (field "alert" (field "alerts" data)) (VArray []) = VArray alerts /\
    (alerts = [] ->
     field "alerts" resp = VUndefined /\ has_own "alerts" (toJSON resp) = false) /\
    (alerts <> [] ->
     exists mapped,
       field "alerts" resp = VArray mapped /\
       has_own "alerts" (toJSON resp) = true /\
       field "alerts" (toJSON resp) = toJSON (VArray mapped) /\
       List.length mapped = List.length alerts /\
       Forall2 alert_entry alerts mapped).
Proof.
  intros H.
  apply normalize_inv in H
    as (today & rest & alerts & hourly & p & mapped & _ & Ha & _ & _ & Hm & ->).
  apply alertsOf_field in Ha. exists alerts. split; [congruence|].
  pose proof (mapM_length _ _ _ Hm) as Hlen.
  apply (mapM_rel mapAlert alert_entry) in Hm; [|apply mapAlert_entry]. split.
  - intros ->. inversion Hm; subst. split; [reflexivity|].
    serialized. reflexivity.
  - intros Hne. exists mapped.
    destruct Hm as [|a m alerts' mapped' Ham Hm]; [congruence|].
    split; [reflexivity|]. serialized. split; [reflexivity|].
    split; [reflexivity|]. split; [exact Hlen|]. constructor; assumption.
Qed.

(** ** What the handler answers *)

Lemma upstream_ok_unmapped (data : value) (e : error) :
  accepted data = Ok true ->
  normalize data = Throw e ->
  upstream_ok (Ok data) = ([], Throw e).
Proof.
  intros Ha Hn. unfold upstream_ok. cbv [lift bind_io]. rewrite Ha.
  cbn [negb]. rewrite Hn. reflexivity.
Qed.

Lemma GET_catch_unclassified (e : error) :
  unclassified e ->
  GET_catch e
  = ([console_error [LogString "Weather API route error:"; LogError e]],
     Ok (mkResponse 500
           (error_body "An unexpected error occurred while fetching weather data")
           [])).
Proof.
  intros [Hname Hmsg]. unfold GET_catch. rewrite Hname, Hmsg. reflexivity.
Qed.

(** A payload that passes the structural check and has not the shape
    [mappable] is never answered 200: the mapping raises a [TypeError], the
    [catch] block logs it and the answer is the generic 500. *)
Theorem unmappable_payload_is_answered_500 (key : option string)
    (fetch : string -> fetch_reply) (request : NextRequest)
    (apiKey q : string) (st : Z) (data : value) :
  truthy_param key = Some apiKey ->
  queryParam request = Some q ->
  fetch (request_url apiKey q) = Responds st (Ok data) ->
  ok st = true ->
  accepted data = Ok true ->
  mappable data = false ->
  exists e,
    normalize data = Throw e /\
    error_name e = "TypeError" /\
    GET key fetch request
    = ([console_log [LogString "Fetching weather data from:";
                     LogString (String_replace (request_url apiKey q) apiKey "[API_KEY]")];
        fetch_call (request_url apiKey q) [("User-Agent", "SkySense-WeatherApp/1.0")];
        console_error [LogString "Weather API route error:"; LogError e]],
       Ok (mkResponse 500
             (error_body "An unexpected error occurred while fetching weather data")
             [])).
Proof.
  intros Hk Hq Hf Hok Ha Hm.
  destruct (normalize data) as [resp|e] eqn:Hn.
  { apply mapped_is_mappable in Hn. congruence. }
  exists e. pose proof (normalize_Throw _ _ Hn) as Hu.
  split; [reflexivity|]. split; [exact (proj1 Hu)|].
  unfold GET, GET_try. rewrite Hk, Hq. cbv zeta. rewrite Hf, Hok. cbn [negb].
  rewrite (upstream_ok_unmapped _ _ Ha Hn).
  cbv [bind_io emit try_catch]. rewrite (GET_catch_unclassified _ Hu).
  reflexivity.
Qed.

Lemma GET_catch_shape (e : error) :
  exists t msg st,
    GET_catch e = (t, Ok (mkResponse st (error_body msg) [])) /\
    In st [408; 503; 500]%Z.
Proof.
  unfold GET_catch.
  destruct (String.eqb (error_name e) "AbortError");
    [|destruct (String_includes (error_message e) "fetch")];
    do 3 eexists; (split; [reflexivity|simpl; tauto]).
Qed.

Lemma error_response (msg : string) (st : Z) (r : NextResponse) :
  NextResponse_json (error_body msg) st [] = Ok r ->
  r = mkResponse st (error_body msg) [].
Proof. intros H. apply NextResponse_json_Ok in H. exact H. Qed.

(** The answers of the handler.  The status is 200, 400, 408, 500, 502 or
    503, or it is the status of a provider response that was not 2xx; an
    answer other than 200 has no header of the handler and its body is an
    object with the single field [error], a text. *)
Theorem GET_answers (key : option string) (fetch : string -> fetch_reply)
    (request : NextRequest) (t : list event) (r : NextResponse) :
  GET key fetch request = (t, Ok r) ->
  (In (status r) [200; 400; 408; 500; 502; 503]%Z \/
   exists apiKey q json,
     truthy_param key = Some apiKey /\
     queryParam request = Some q /\
     fetch (request_url apiKey q) = Responds (status r) json /\
     ok (status r) = false) /\
  (status r = 200%Z \/
   exists msg, body r = error_body msg /\ headers r = []).
Proof.
  intros HG. unfold GET, try_catch in HG.
  destruct (GET_try key fetch request) as [t0 [r0|e]] eqn:Htry.
  2:{ destruct (GET_catch_shape e) as (t' & msg & st & Hc & Hst).
      rewrite Hc in HG. inversion HG; subst.
      split; [left; simpl in *; tauto|right; eexists; split; reflexivity]. }
  inversion HG; subst t0 r0. clear HG.
  unfold GET_try in Htry.
  destruct (truthy_param key) as [apiKey|] eqn:Hk.
  2:{ inversion Htry; subst. split; [left; simpl; tauto|right; eexists; split; reflexivity]. }
  destruct (queryParam request) as [q|] eqn:Hq.
  2:{ inversion Htry; subst. split; [left; simpl; tauto|right; eexists; split; reflexivity]. }
  cbv zeta in Htry.
  apply bind_io_Ok in Htry as (t1 & [] & t2 & _ & Htry & _).
  apply bind_io_Ok in Htry as (t3 & [] & t4 & _ & Htry & _).
  destruct (fetch (request_url apiKey q)) as [e|st json] eqn:Hf.
  { inversion Htry. }
  destruct (ok st) eqn:Hok; cbn [negb] in Htry.
  - unfold upstream_ok in Htry.
    apply bind_io_Ok in Htry as (t5 & data & t6 & Hj & Htry & _).
    apply bind_io_Ok in Htry as (t7 & valid & t8 & Ha & Htry & _).
    destruct valid; cbn [negb] in Htry.
    + apply bind_io_Ok in Htry as (t9 & resp & t10 & Hn & Htry & _).
      apply bind_io_Ok in Htry as (t11 & name & t12 & _ & Htry & _).
      apply bind_io_Ok in Htry as (t13 & [] & t14 & _ & Htry & _).
      apply lift_Ok, NextResponse_json_Ok in Htry. subst r.
      split; left; simpl; tauto.
    + apply lift_Ok, error_response in Htry. subst r.
      split; [left; simpl; tauto|right; eexists; split; reflexivity].
  - unfold upstream_error in Htry.
    apply bind_io_Ok in Htry as (t5 & [] & t6 & _ & Htry & _).
    apply bind_io_Ok in Htry as (t7 & err & t8 & _ & Htry & _).
    apply bind_io_Ok in Htry as (t9 & msg & t10 & _ & Htry & _).
    apply bind_io_Ok in Htry as (t15 & text & t16 & _ & Htry & _).
    apply lift_Ok, error_response in Htry. subst r. simpl.
    split; [right; exists apiKey, q, json; auto|right; eexists; split; reflexivity].
Qed.

(** A provider response with a status from 300 to 599 other than 304
    reaches the client with that status whenever the text of the answer can
    be built: the text is the provider's [error.message] if truthy, printed
    as a template literal prints it (a string as it is), else
    [Unknown error], also when the body is not JSON.  When the message is
    an object that cannot be printed (an own [toString], as in
    [{"toString": 1}]), the template literal of line 159 raises a
    [TypeError] and the client is answered the generic 500. *)
Theorem provider_error_is_passed_on (key : option string)
    (fetch : string -> fetch_reply) (request : NextRequest)
    (apiKey q : string) (st : Z) (json : result value) (errorData : value) :
  truthy_param key = Some apiKey ->
  queryParam request = Some q ->
  fetch (request_url apiKey q) = Responds st json ->
  (300 <= st <= 599)%Z -> st <> 304%Z ->
  errorData = match json with
              | Ok v => v
              | Throw _ => VObject []
              end ->
  nullish errorData = false ->
  (forall text,
      ToString (or_else (field "message" (field "error" errorData))
                        (VString "Unknown error")) = Ok text ->
      snd (GET key fetch request)
      = Ok (mkResponse st (error_body ("Weather service error: " ++ text)) [])) /\
  (forall s,
      field "message" (field "error" errorData) = VString s -> s <> "" ->
      snd (GET key fetch request)
      = Ok (mkResponse st (error_body ("Weather service error: " ++ s)) [])) /\
  (forall e,
      ToString (or_else (field "message" (field "error" errorData))
                        (VString "Unknown error")) = Throw e ->
      snd (GET key fetch request)
      = Ok (mkResponse 500
              (error_body "An unexpected error occurred while fetching weather data")
              [])) /\
  (forall e, json = Throw e ->
             snd (GET key fetch request)
             = Ok (mkResponse st (error_body "Weather service error: Unknown error") [])).
Proof.
  intros Hk Hq Hf Hst H304 He Hn.
  assert (Hok : ok st = false).
  { unfold ok. apply andb_false_iff. right. apply Z.leb_gt. lia. }
  destruct (nullish_false _ Hn) as [Hu Hnull].
  assert (Hrun :
            snd (GET key fetch request)
            = snd (try_catch
                     (text <~ lift (ToString
                                      (or_else (field "message" (field "error" errorData))
                                               (VString "Unknown error"))) ;;
                      lift (NextResponse_json
                              (error_body ("Weather service error: " ++ text)) st []))
                     GET_catch)).
  { unfold GET, GET_try. rewrite Hk, Hq. cbv zeta. rewrite Hf, Hok. cbn [negb].
    unfold upstream_error. rewrite <- He.
    cbv [lift bind_io emit try_catch].
    rewrite (getprop_read errorData "error" Hu Hnull eq_refl).
    rewrite (optprop_read (field "error" errorData) "message" eq_refl).
    destruct (ToString _) as [text|e]; [|destruct (GET_catch e); reflexivity].
    destruct (NextResponse_json _ st []) as [r|e];
      [|destruct (GET_catch e)]; reflexivity. }
  assert (Hpass : forall text,
             ToString (or_else (field "message" (field "error" errorData))
                               (VString "Unknown error")) = Ok text ->
             snd (GET key fetch request)
             = Ok (mkResponse st (error_body ("Weather service error: " ++ text)) [])).
  { intros text Ht. rewrite Hrun, Ht. cbv [lift bind_io try_catch].
    unfold NextResponse_json.
    replace (negb ((200 <=? st)%Z && (st <=? 599)%Z)) with false
      by (symmetry; apply negb_false_iff, andb_true_iff; split; apply Z.leb_le; lia).
    replace ((st =? 204)%Z || (st =? 205)%Z || (st =? 304)%Z) with false
      by (symmetry; rewrite !orb_false_iff; repeat split; apply Z.eqb_neq; lia).
    reflexivity. }
  split; [exact Hpass|]. split; [|split].
  - intros s Hs Hne. apply Hpass. rewrite Hs. unfold or_else. cbn [truthy].
    destruct (String.eqb_spec s "") as [->|_]; [contradiction|]. reflexivity.
  - intros e Ht. rewrite Hrun, Ht. cbv [lift bind_io try_catch].
    apply ToString_Throw in Ht as [-> _]. reflexivity.
  - intros e Hj. apply Hpass. subst json errorData. reflexivity.
Qed.

(** ** The provider URL *)

Lemma includes_char_cons (c d : ascii) (s : string) :
  String_includes (String d s) (String c EmptyString)
  = Ascii.eqb c d || String_includes s (String c EmptyString).
Proof.
  simpl. destruct (Ascii.eqb c d); simpl.
  - destruct s; reflexivity.
  - reflexivity.
Qed.

Lemma includes_char_app (c : ascii) (s1 s2 : string) :
  String_includes (s1 ++ s2) (String c EmptyString)
  = String_includes s1 (String c EmptyString)
    || String_includes s2 (String c EmptyString).
Proof.
  induction s1 as [|d s1 IH].
  - simpl. destruct s2; reflexivity.
  - change (String d s1 ++ s2) with (String d (s1 ++ s2)).
    rewrite !includes_char_cons, IH. apply orb_assoc.
Qed.

Lemma encode_unit_no_separator (x c : ascii) :
  In c ["&"; "="; "#"; "?"; "+"; " "; "/"]%char ->
  String_includes (encode_unit x) (String c EmptyString) = false.
Proof.
  intros Hc. simpl in Hc.
  repeat (destruct Hc as [<-|Hc];
          [destruct x as [[] [] [] [] [] [] [] []]; reflexivity|]).
  contradiction.
Qed.

(** The query of line 146 cannot add a parameter to the provider URL or
    cut it short: whatever the city or the coordinates are, their encoding
    contains none of the characters [& = # ? + /] nor a space. *)
Theorem encoded_query_has_no_separator (q : string) (c : ascii) :
  In c ["&"; "="; "#"; "?"; "+"; " "; "/"]%char ->
  String_includes (encodeURIComponent q) (String c EmptyString) = false.
Proof.
  intros Hc. induction q as [|x q IH]; [reflexivity|].
  simpl encodeURIComponent.
  rewrite includes_char_app, IH, (encode_unit_no_separator x c Hc). reflexivity.
Qed.

(** An answer other than 200: its status is not 2xx, it has no header of
    the handler and its body is [{ error }] with a text that is not
    empty. *)
Lemma GET_failure (key : option string) (fetch : string -> fetch_reply)
    (request : NextRequest) (t : list event) (r : NextResponse) :
  GET key fetch request = (t, Ok r) ->
  status r <> 200%Z ->
  exists msg,
    r = mkResponse (status r) (error_body msg) [] /\
    String.eqb msg "" = false /\
    ok (status r) = false.
Proof.
  intros HG Hst. unfold GET, try_catch in HG.
  destruct (GET_try key fetch request) as [t0 [r0|e]] eqn:Htry.
  2:{ unfold GET_catch in HG. cbv [bind_io emit lift] in HG.
      destruct (String.eqb (error_name e) "AbortError");
        [|destruct (String_includes (error_message e) "fetch")];
        inversion HG; subst; eexists; repeat split; reflexivity. }
  inversion HG; subst t0 r0. clear HG.
  unfold GET_try in Htry.
  destruct (truthy_param key) as [apiKey|] eqn:Hk.
  2:{ inversion Htry; subst. eexists; repeat split; reflexivity. }
  destruct (queryParam request) as [q|] eqn:Hq.
  2:{ inversion Htry; subst. eexists; repeat split; reflexivity. }
  cbv zeta in Htry.
  apply bind_io_Ok in Htry as (t1 & [] & t2 & _ & Htry & _).
  apply bind_io_Ok in Htry as (t3 & [] & t4 & _ & Htry & _).
  destruct (fetch (request_url apiKey q)) as [e|st json] eqn:Hf.
  { inversion Htry. }
  destruct (ok st) eqn:Hok; cbn [negb] in Htry.
  - unfold upstream_ok in Htry.
    apply bind_io_Ok in Htry as (t5 & data & t6 & Hj & Htry & _).
    apply bind_io_Ok in Htry as (t7 & valid & t8 & Ha & Htry & _).
    destruct valid; cbn [negb] in Htry.
    + apply bind_io_Ok in Htry as (t9 & resp & t10 & Hn & Htry & _).
      apply bind_io_Ok in Htry as (t11 & name & t12 & _ & Htry & _).
      apply bind_io_Ok in Htry as (t13 & [] & t14 & _ & Htry & _).
      apply lift_Ok, NextResponse_json_Ok in Htry. subst r.
      exfalso. apply Hst. reflexivity.
    + apply lift_Ok, error_response in Htry. subst r.
      eexists; repeat split; reflexivity.
  - unfold upstream_error in Htry.
    apply bind_io_Ok in Htry as (t5 & [] & t6 & _ & Htry & _).
    apply bind_io_Ok in Htry as (t7 & err & t8 & _ & Htry & _).
    apply bind_io_Ok in Htry as (t9 & msg & t10 & _ & Htry & _).
    apply bind_io_Ok in Htry as (t15 & text & t16 & _ & Htry & _).
    apply lift_Ok, error_response in Htry. subst r. cbn [status].
    eexists; split; [reflexivity|split; [reflexivity|exact Hok]].
Qed.

(** ** The page and the route *)

Lemma settle_failure (city : option string) (shown : error -> string)
    (reply : fetch_reply) (s : PageState) (e : error) :
  fetchWeather_try reply = Throw e ->
  settle city shown reply s
  = mkPage (weatherData s) false (Some (shown e)) (searchCity s) (tempUnit s)
           (retryCount s + 1)
           (match city with
            | Some c => c
            | None => lastFetchedCity s
            end).
Proof. intros H. unfold settle. rewrite H. destruct city; reflexivity. Qed.

Lemma settle_success (city : option string) (shown : error -> string)
    (reply : fetch_reply) (s : PageState) (data : value) :
  fetchWeather_try reply = Ok data ->
  settle city shown reply s
  = mkPage data false None (searchCity s) (tempUnit s) 0
           (match city with
            | Some c => c
            | None => lastFetchedCity s
            end).
Proof. intros H. unfold settle. rewrite H. destruct city; reflexivity. Qed.

Lemma fetchWeather_try_error_body (st : Z) (msg : string) :
  ok st = false ->
  String.eqb msg "" = false ->
  fetchWeather_try (Responds st (Ok (error_body msg))) = Throw (Error msg).
Proof.
  intros Hok Hmsg. unfold fetchWeather_try. rewrite Hok.
  cbn [negb error_body getprop own lookup String.eqb Ascii.eqb Bool.eqb bind].
  unfold or_else. cbn [truthy]. rewrite Hmsg. reflexivity.
Qed.

Lemma fetchWeather_sent (api : string -> fetch_reply) (s : PageState)
    (city : string) :
  loading s = false ->
  String.eqb city (lastFetchedCity s) = false ->
  fetchWeather api s city
  = (settle (Some city) (fetchWeather_catch city) (api (city_url city)) s,
     [city_url city]).
Proof. intros Hl Hc. unfold fetchWeather. rewrite Hl, Hc. reflexivity. Qed.

(** Whatever the route answers with a status other than 200 (the status is
    then not 2xx and the body is [{ error }] with a text that is not
    empty), a city search of the page ends without new data: the one
    request is made, the failed attempt is counted, and the text shown is
    chosen by the route's [error] text alone, never by its status. *)
Theorem route_failure_on_the_page (key : option string)
    (fetch : string -> fetch_reply) (request : NextRequest)
    (t : list event) (r : NextResponse)
    (api : string -> fetch_reply) (s : PageState) (c : string) :
  GET key fetch request = (t, Ok r) ->
  status r <> 200%Z ->
  api (city_url c) = Responds (status r) (Ok (body r)) ->
  loading s = false ->
  String.eqb c (lastFetchedCity s) = false ->
  exists msg,
    body r = error_body msg /\
    String.eqb msg "" = false /\
    ok (status r) = false /\
    fetchWeather api s c
    = (mkPage (weatherData s) false
              (Some (fetchWeather_catch c (Error msg)))
              (searchCity s) (tempUnit s) (retryCount s + 1) c,
       [city_url c]).
Proof.
  intros HG Hst Hapi Hl Hc.
  destruct (GET_failure _ _ _ _ _ HG Hst) as (msg & Hr & Hmsg & Hok).
  exists msg. assert (Hb : body r = error_body msg) by (rewrite Hr; reflexivity).
  split; [exact Hb|]. split; [exact Hmsg|]. split; [exact Hok|].
  rewrite (fetchWeather_sent _ _ _ Hl Hc), Hapi, Hb.
  rewrite (settle_failure _ _ _ _ _ (fetchWeather_try_error_body _ _ Hok Hmsg)).
  reflexivity.
Qed.

Lemma GET_unmapped (key : option string) (fetch : string -> fetch_reply)
    (request : NextRequest) (apiKey q : string) (st : Z) (data : value) :
  truthy_param key = Some apiKey ->
  queryParam request = Some q ->
  fetch (request_url apiKey q) = Responds st (Ok data) ->
  ok st = true ->
  accepted data = Ok true ->
  mappable data = false ->
  snd (GET key fetch request)
  = Ok (mkResponse 500
          (error_body "An unexpected error occurred while fetching weather data")
          []).
Proof.
  intros Hk Hq Hf Hok Ha Hm.
  destruct (normalize data) as [resp|e] eqn:Hn.
  { apply mapped_is_mappable in Hn. congruence. }
  pose proof (normalize_Throw _ _ Hn) as Hu.
  unfold GET, GET_try. rewrite Hk, Hq. cbv zeta. rewrite Hf, Hok. cbn [negb].
  rewrite (upstream_ok_unmapped _ _ Ha Hn).
  cbv [bind_io emit try_catch]. rewrite (GET_catch_unclassified _ Hu).
  reflexivity.
Qed.

(** A provider payload that the route cannot map reaches the user as a
    network problem: the route answers its generic 500, whose text contains
    [fetch], and the page shows the text of its network branch. *)
Theorem mapping_failure_is_shown_as_network_error (key : option string)
    (fetch : string -> fetch_reply) (request : NextRequest)
    (apiKey q : string) (st : Z) (data : value) (r : NextResponse)
    (api : string -> fetch_reply) (s : PageState) (c : string) :
  truthy_param key = Some apiKey ->
  queryParam request = Some q ->
  fetch (request_url apiKey q) = Responds st (Ok data) ->
  ok st = true ->
  accepted data = Ok true ->
  mappable data = false ->
  snd (GET key fetch request) = Ok r ->
  api (city_url c) = Responds (status r) (Ok (body r)) ->
  loading s = false ->
  String.eqb c (lastFetchedCity s) = false ->
  status r = 500%Z /\
  fetchWeather api s c
  = (mkPage (weatherData s) false
            (Some "Network error. Please check your internet connection and try again.")
            (searchCity s) (tempUnit s) (retryCount s + 1) c,
     [city_url c]).
Proof.
  intros Hk Hq Hf Hok Ha Hm HG Hapi Hl Hc.
  rewrite (GET_unmapped _ _ _ _ _ _ _ Hk Hq Hf Hok Ha Hm) in HG.
  inversion HG; subst r. split; [reflexivity|].
  rewrite (fetchWeather_sent _ _ _ Hl Hc), Hapi.
  cbn [status body].
  rewrite (settle_failure _ _ _ _ _
             (fetchWeather_try_error_body 500
                "An unexpected error occurred while fetching weather data"
                eq_refl eq_refl)).
  reflexivity.
Qed.

Lemma lookup_keep_here (f : value -> value) (k : string) (v : value)
    (rest : list (string * value)) :
  lookup k (keep_defined f ((k, v) :: rest))
  = match v with
    | VUndefined => lookup k (keep_defined f rest)
    | _ => Some (f v)
    end.
Proof. destruct v; simpl; rewrite ?String.eqb_refl; reflexivity. Qed.

Lemma getprop_toJSON_object (k : string) (props : list (string * value)) :
  getprop (toJSON (VObject props)) k
  = Ok (match lookup k (keep_defined toJSON props) with
        | Some v => v
        | None => VUndefined
        end).
Proof. reflexivity. Qed.

Lemma toJSON_Math_round (v : value) :
  toJSON (rounded v)
  = if finite (numeric v) then rounded v else VNull.
Proof. unfold rounded. destruct (numeric v); reflexivity. Qed.

(** A record the route answers with status 200 is taken by the page
    exactly when the provider gave a place name that is truthy in the body
    and a current temperature that converts to a finite number; otherwise
    the page throws its own error and no data is stored. *)
Theorem route_record_on_the_page (data resp : value) :
  normalize data = Ok resp ->
  fetchWeather_try (Responds 200 (Ok (toJSON resp)))
  = if truthy (toJSON (field "name" (field "location" data)))
       && match ToNumber (field "temp_c" (field "current" data)) with
          | Ok n => finite n
          | Throw _ => false
          end
    then Ok (toJSON resp)
    else Throw (Error "Invalid weather data received from server").
Proof.
  intros Hn.
  assert (Hnum : ToNumber (field "temp_c" (field "current" data))
                 = Ok (numeric (field "temp_c" (field "current" data)))).
  { pose proof (mapped_is_mappable _ _ Hn) as Hm. unfold mappable in Hm.
    apply andb_true_iff in Hm as [Hm _]. apply andb_true_iff in Hm as [Hm _].
    apply andb_true_iff in Hm as [_ Hm]. cbn [forallb] in Hm.
    apply andb_true_iff in Hm as [Hm _].
    unfold ToNumber. rewrite Hm. reflexivity. }
  rewrite Hnum.
  destruct (normalize_inv _ _ Hn)
    as (today & rest & alerts & hourly & tomorrow & mapped & _ & _ & _ & _ & _ & ->).
  set (R := formattedResponse _ _ _ _ _ _ _ _).
  assert (He : getprop (toJSON R) "error" = Ok VUndefined).
  { unfold R, formattedResponse. rewrite getprop_toJSON_object.
    rewrite !lookup_keep_other by reflexivity. reflexivity. }
  assert (Hc : getprop (toJSON R) "city"
               = Ok (toJSON (field "name" (field "location" data)))).
  { unfold R, formattedResponse. rewrite getprop_toJSON_object.
    rewrite lookup_keep_here.
    destruct (field "name" (field "location" data)); try reflexivity.
    rewrite !lookup_keep_other by reflexivity. reflexivity. }
  assert (Ht : getprop (toJSON R) "temperature"
               = Ok (toJSON (rounded (field "temp_c" (field "current" data))))).
  { unfold R, formattedResponse. rewrite getprop_toJSON_object.
    rewrite !lookup_keep_other by reflexivity.
    rewrite lookup_keep_here. reflexivity. }
  unfold fetchWeather_try. change (negb (ok 200)) with false. cbv iota.
  cbn [bind]. rewrite He. cbn [bind truthy]. rewrite Hc, Ht. cbn [bind].
  rewrite toJSON_Math_round.
  destruct (truthy (toJSON (field "name" (field "location" data))));
    cbn [negb orb andb]; [|reflexivity].
  destruct (finite (numeric (field "temp_c" (field "current" data))));
    reflexivity.
Qed.

(** ** The handlers of the page *)

Lemma fetchWeather_try_Ok_truthy (reply : fetch_reply) (data : value) :
  fetchWeather_try reply = Ok data -> truthy data = true.
Proof.
  unfold fetchWeather_try. destruct reply as [e|st json]; [discriminate|].
  destruct (negb (ok st)).
  - destruct (getprop _ "error"); cbn [bind]; [|discriminate].
    destruct (ToString _); cbn [bind]; discriminate.
  - destruct json as [d|e]; cbn [bind]; [|discriminate].
    destruct (getprop d "error") as [err|] eqn:Ee; cbn [bind]; [|discriminate].
    destruct (truthy err); [destruct (ToString err); cbn [bind]; discriminate|].
    destruct (getprop d "city") as [c|] eqn:Ec; cbn [bind]; [|discriminate].
    destruct (getprop d "temperature") as [t|]; cbn [bind]; [|discriminate].
    destruct (truthy c) eqn:Hc; cbn [negb orb]; [|discriminate].
    destruct (negb (is_number t)); [discriminate|].
    intros H. inversion H; subst d.
    destruct data; try reflexivity; simpl in Ec; try discriminate;
      inversion Ec; subst c; discriminate Hc.
Qed.

Lemma fetchWeather_guarded (api : string -> fetch_reply) (s : PageState)
    (c : string) :
  loading s || String.eqb c (lastFetchedCity s) = true ->
  fetchWeather api s c = (s, []).
Proof. intros H. unfold fetchWeather. rewrite H. reflexivity. Qed.

(** After a search that failed while data is on display, the retry button
    fetches nothing: [handleRetry] asks for the city just asked for, which
    the guard of [fetchWeather] turns away, and the effect does not run a
    fetch while data is shown.  The error text is cleared, the data stay as
    they were. *)
Theorem retry_after_a_failed_search_fetches_nothing
    (api api' : string -> fetch_reply) (geolocation : bool)
    (s : PageState) (c : string) (e : error) :
  loading s = false ->
  String.eqb c (lastFetchedCity s) = false ->
  String.eqb c "" = false ->
  fetchWeather_try (api (city_url c)) = Throw e ->
  let s1 := fst (fetchWeather api s c) in
  error_shown s1 = Some (fetchWeather_catch c e) /\
  handleRetry api' s1
  = (mkPage (weatherData s) false None (searchCity s) (tempUnit s) 0 c, []) /\
  (truthy (weatherData s) = true ->
   forall waiting sent,
     autoFetch geolocation (mkSession (fst (handleRetry api' s1)) waiting sent)
     = (mkSession (fst (handleRetry api' s1)) waiting sent, [])).
Proof.
  intros Hl Hc Hne Hf. cbv zeta.
  rewrite (fetchWeather_sent _ _ _ Hl Hc), (settle_failure _ _ _ _ _ Hf).
  cbn [fst error_shown]. split; [reflexivity|].
  assert (HR : handleRetry api'
                 (mkPage (weatherData s) false (Some (fetchWeather_catch c e))
                         (searchCity s) (tempUnit s) (retryCount s + 1) c)
               = (mkPage (weatherData s) false None (searchCity s) (tempUnit s) 0 c,
                  [])).
  { unfold handleRetry. cbn [lastFetchedCity]. rewrite Hne. cbn [negb].
    rewrite fetchWeather_guarded; [reflexivity|].
    cbn. rewrite String.eqb_refl. reflexivity. }
  rewrite HR. split; [reflexivity|].
  intros Hd waiting sent. cbn [fst]. unfold autoFetch.
  cbn [rendered weatherData]. rewrite Hd. reflexivity.
Qed.

(** ** The page over time *)

Lemma without_head {A : Type} (x : A) (l : list A) : without 0 (x :: l) = l.
Proof. reflexivity. Qed.

Lemma without_tail {A : Type} (i : nat) (x : A) (l : list A) :
  without (S i) (x :: l) = x :: without i l.
Proof. reflexivity. Qed.

Lemma without_length {A : Type} (i : nat) (l : list A) (x : A) :
  nth_error l i = Some x -> S (List.length (without i l)) = List.length l.
Proof.
  revert l. induction i as [|i IH]; intros [|y l] H; try discriminate.
  - reflexivity.
  - rewrite without_tail. cbn [List.length]. f_equal. apply IH. exact H.
Qed.

Lemma Forall_without {A : Type} (P : A -> Prop) (i : nat) (l : list A) :
  Forall P l -> Forall P (without i l).
Proof.
  intros H. revert i. induction H as [|x l Hx Hl IH]; intros [|i].
  - constructor.
  - constructor.
  - rewrite without_head. exact Hl.
  - rewrite without_tail. constructor; [exact Hx|apply IH].
Qed.

Lemma nth_error_Forall {A : Type} (P : A -> Prop) (i : nat) (l : list A) (x : A) :
  Forall P l -> nth_error l i = Some x -> P x.
Proof.
  intros H Hn. apply nth_error_In in Hn.
  exact (proj1 (Forall_forall P l) H x Hn).
Qed.

(** A handler that runs from the render of the state, with nothing
    happening before the answer, is its first part followed by what
    follows the [await]. *)
Lemma fetchWeather_over_time (api : string -> fetch_reply) (s : PageState)
    (city : string) :
  fetchWeather api s city
  = (match flights (fst (fetchWeather_sends s city (mkSession s [] []))) with
     | f :: _ =>
         answered f (api (city_url city))
                  (rendered (fst (fetchWeather_sends s city (mkSession s [] []))))
     | [] => s
     end,
     snd (fetchWeather_sends s city (mkSession s [] []))).
Proof.
  unfold fetchWeather, fetchWeather_sends.
  destruct (loading s || String.eqb city (lastFetchedCity s)); reflexivity.
Qed.

Lemma fetchWeatherByCoords_over_time (api : string -> fetch_reply) (s : PageState)
    (lat lon : string) :
  fetchWeatherByCoords api s lat lon
  = (match flights (fst (fetchWeatherByCoords_sends s lat lon (mkSession s [] []))) with
     | f :: _ =>
         answered f (api (coords_url lat lon))
                  (rendered (fst (fetchWeatherByCoords_sends s lat lon
                                    (mkSession s [] []))))
     | [] => s
     end,
     snd (fetchWeatherByCoords_sends s lat lon (mkSession s [] []))).
Proof.
  unfold fetchWeatherByCoords, fetchWeatherByCoords_sends.
  destruct (loading s); reflexivity.
Qed.

Lemma answered_lastFetchedCity (f : flight) (reply : fetch_reply) (s : PageState) :
  lastFetchedCity (answered f reply s) = lastFetchedCity s.
Proof. unfold answered. destruct (fetchWeather_try reply); reflexivity. Qed.

Lemma fetchWeather_sends_inv (r : PageState) (city : string) (w : Session) :
  fetchWeather_sends r city w = (w, []) \/
  (loading r = false /\ String.eqb city (lastFetchedCity r) = false /\
   fetchWeather_sends r city w
   = (mkSession (setLastFetchedCity city (setError None (setLoading true (rendered w))))
                (prompts w) (flights w ++ [ForCity city]),
      [city_url city])).
Proof.
  unfold fetchWeather_sends.
  destruct (loading r); [left; reflexivity|].
  destruct (String.eqb city (lastFetchedCity r)); [left; reflexivity|].
  right. repeat split.
Qed.

Lemma fetchWeatherByCoords_sends_inv (r : PageState) (lat lon : string) (w : Session) :
  fetchWeatherByCoords_sends r lat lon w = (w, []) \/
  fetchWeatherByCoords_sends r lat lon w
  = (mkSession (setError None (setLoading true (rendered w)))
               (prompts w) (flights w ++ [ForCoords]),
     [coords_url lat lon]).
Proof.
  unfold fetchWeatherByCoords_sends. destruct (loading r); [left|right]; reflexivity.
Qed.

Lemma fetchWeather_sends_guarded (r : PageState) (w : Session) :
  lastFetchedCity r = "London" -> fetchWeather_sends r "London" w = (w, []).
Proof.
  intros H. unfold fetchWeather_sends. rewrite H. rewrite orb_true_r. reflexivity.
Qed.

Lemma happenings_cons (geolocation : bool) (h : happening) (l : list happening)
    (w : Session) :
  happenings geolocation (h :: l) w
  = (fst (happenings geolocation l (fst (happen geolocation h w))),
     (snd (happen geolocation h w)
      ++ snd (happenings geolocation l (fst (happen geolocation h w))))%list).
Proof.
  cbn [happenings]. destruct (happen geolocation h w) as [w1 urls].
  cbn [fst snd]. destruct (happenings geolocation l w1). reflexivity.
Qed.

Lemma times_app (url : string) (l l' : list string) :
  times url (l ++ l') = (times url l + times url l')%nat.
Proof. unfold times. rewrite filter_app, List.length_app. reflexivity. Qed.

Lemma coords_is_not_London (latitude longitude : string) :
  String.eqb (city_url "London") (coords_url latitude longitude) = false.
Proof. reflexivity. Qed.

(** *** The automatic requests are bounded *)

Lemma autoFetch_owed (geolocation : bool) (w : Session) :
  (List.length (snd (autoFetch geolocation w))
   + List.length (prompts (fst (autoFetch geolocation w)))
   <= List.length (prompts w)
      + if negb (truthy (weatherData (rendered w))) && (retryCount (rendered w) <? 3)%Z
        then 1 else 0)%nat /\
  weatherData (rendered (fst (autoFetch geolocation w))) = weatherData (rendered w) /\
  retryCount (rendered (fst (autoFetch geolocation w))) = retryCount (rendered w).
Proof.
  unfold autoFetch.
  destruct (negb (truthy (weatherData (rendered w))) && (retryCount (rendered w) <? 3)%Z).
  - destruct geolocation.
    + cbn [fst snd prompts rendered List.length]. rewrite List.length_app.
      cbn [List.length]. repeat split. lia.
    + destruct (fetchWeather_sends_inv (rendered w) "London" w) as [->|(_ & _ & ->)];
        cbn [fst snd prompts rendered List.length]; repeat split; lia.
  - cbn [fst snd List.length]. repeat split. lia.
Qed.

Lemma happen_owed (geolocation : bool) (h : happening) (w : Session) :
  automatic h = true ->
  (List.length (snd (happen geolocation h w)) + owed (fst (happen geolocation h w))
   <= owed w)%nat.
Proof.
  intros Ha. destruct h as [i la lo|i|i reply| |]; try discriminate Ha; cbn [happen].
  - destruct (nth_error (prompts w) i) as [r|] eqn:Hr; [|cbn [fst snd List.length]; lia].
    pose proof (without_length _ _ _ Hr) as Hlen.
    destruct (fetchWeatherByCoords_sends_inv r la lo
                (mkSession (rendered w) (without i (prompts w)) (flights w)))
      as [->| ->]; unfold owed; cbn [fst snd List.length prompts rendered weatherData
                                     retryCount setError setLoading]; lia.
  - destruct (nth_error (prompts w) i) as [r|] eqn:Hr; [|cbn [fst snd List.length]; lia].
    pose proof (without_length _ _ _ Hr) as Hlen.
    destruct (fetchWeather_sends_inv r "London"
                (mkSession (rendered w) (without i (prompts w)) (flights w)))
      as [->|(_ & _ & ->)]; unfold owed;
      cbn [fst snd List.length prompts rendered weatherData retryCount setError
           setLoading setLastFetchedCity]; lia.
  - destruct (nth_error (flights w) i) as [f|] eqn:Hf; [|cbn [fst snd List.length]; lia].
    set (w1 := mkSession (answered f reply (rendered w)) (prompts w)
                         (without i (flights w))).
    destruct (autoFetch_owed geolocation w1) as (Hn & Hd & Hc).
    unfold owed. rewrite Hd, Hc. unfold w1 in *. cbn [rendered prompts] in *.
    unfold answered in *.
    destruct (fetchWeather_try reply) as [data|e] eqn:Ht;
      cbn [weatherData retryCount setLoading setError setRetryCount setWeatherData] in *.
    + rewrite (fetchWeather_try_Ok_truthy _ _ Ht) in *. cbn [negb andb] in Hn. lia.
    + destruct (truthy (weatherData (rendered w))); cbn [negb andb] in Hn; [lia|].
      destruct (retryCount (rendered w) + 1 <? 3)%Z eqn:Hlt.
      * apply Z.ltb_lt in Hlt. lia.
      * lia.
Qed.

Lemma happenings_owed (geolocation : bool) (l : list happening) (w : Session) :
  forallb automatic l = true ->
  (List.length (snd (happenings geolocation l w)) <= owed w)%nat.
Proof.
  revert w. induction l as [|h l IH]; intros w Hl.
  - cbn. lia.
  - cbn [forallb] in Hl. apply andb_true_iff in Hl as [Hh Hl].
    rewrite happenings_cons. cbn [snd]. rewrite List.length_app.
    pose proof (happen_owed geolocation h w Hh).
    specialize (IH (fst (happen geolocation h w)) Hl). lia.
Qed.

(** The page fetches at most three times on its own.  Whatever the
    geolocation service and the route answer, and in whatever order, the
    requests that need no user are at most as many as the position
    requests still open plus the runs of the effect that failed attempts
    can still bring (two while [retryCount] is 0 and no data is stored):
    three from the mounted page; and none once data is stored and no
    position request is open. *)
Theorem auto_fetch_is_bounded (geolocation : bool) (l : list happening)
    (w : Session) :
  forallb automatic l = true ->
  (List.length (snd (happenings geolocation l w)) <= owed w)%nat /\
  (List.length (snd (mounted geolocation))
   + List.length (snd (happenings geolocation l (fst (mounted geolocation))))
   <= 3)%nat /\
  (truthy (weatherData (rendered w)) = true -> prompts w = [] ->
   snd (happenings geolocation l w) = []).
Proof.
  intros Hl. split; [apply happenings_owed; exact Hl|]. split.
  - pose proof (happenings_owed geolocation l (fst (mounted geolocation)) Hl) as H.
    destruct geolocation; cbn in H |- *; lia.
  - intros Hd Hp. pose proof (happenings_owed geolocation l w Hl) as H.
    unfold owed in H. rewrite Hd, Hp in H. cbn in H.
    destruct (snd (happenings geolocation l w)); [reflexivity|cbn in H; lia].
Qed.

(** *** The default city *)

Lemma autoFetch_London (geolocation : bool) (w : Session) :
  London_asked w ->
  London_asked (fst (autoFetch geolocation w)) /\ snd (autoFetch geolocation w) = [].
Proof.
  intros [Hs Hp]. unfold autoFetch.
  destruct (negb (truthy (weatherData (rendered w))) && (retryCount (rendered w) <? 3)%Z);
    [|split; [split; assumption|reflexivity]].
  destruct geolocation.
  - cbn [fst snd]. split; [|reflexivity]. split; [exact Hs|].
    cbn [prompts]. apply Forall_app. split; [exact Hp|].
    constructor; [exact Hs|constructor].
  - rewrite (fetchWeather_sends_guarded _ _ Hs). split; [split; assumption|reflexivity].
Qed.

Lemma happen_London (geolocation : bool) (h : happening) (w : Session) :
  London_asked w ->
  London_asked (fst (happen geolocation h w)) /\
  match h with
  | PositionArrives _ latitude longitude =>
      snd (happen geolocation h w) = [] \/
      snd (happen geolocation h w) = [coords_url latitude longitude]
  | _ => snd (happen geolocation h w) = []
  end.
Proof.
  intros [Hs Hp]. destruct h as [i la lo|i|i reply| |]; cbn [happen].
  - destruct (nth_error (prompts w) i) as [r|] eqn:Hr;
      [|split; [split; assumption|left; reflexivity]].
    destruct (fetchWeatherByCoords_sends_inv r la lo
                (mkSession (rendered w) (without i (prompts w)) (flights w)))
      as [->| ->]; cbn [fst snd].
    + split; [|left; reflexivity]. split; [exact Hs|].
      cbn [prompts]. apply Forall_without. exact Hp.
    + split; [|right; reflexivity]. split; [exact Hs|].
      cbn [prompts]. apply Forall_without. exact Hp.
  - destruct (nth_error (prompts w) i) as [r|] eqn:Hr;
      [|split; [split; assumption|reflexivity]].
    rewrite (fetchWeather_sends_guarded r _ (nth_error_Forall _ _ _ _ Hp Hr)).
    split; [|reflexivity]. split; [exact Hs|].
    cbn [fst prompts]. apply Forall_without. exact Hp.
  - destruct (nth_error (flights w) i) as [f|] eqn:Hf;
      [|split; [split; assumption|reflexivity]].
    apply autoFetch_London. split; [|exact Hp].
    cbn [rendered]. rewrite answered_lastFetchedCity. exact Hs.
  - rewrite Hs. cbn [String.eqb Ascii.eqb Bool.eqb negb].
    rewrite fetchWeather_sends_guarded by exact Hs.
    set (w1 := mkSession _ _ _).
    assert (H1 : London_asked w1) by (split; [exact Hs|exact Hp]).
    destruct (retryCount (rendered w) =? 0)%Z; [split; [exact H1|reflexivity]|].
    destruct (autoFetch_London geolocation w1 H1) as [HL Hu].
    destruct (autoFetch geolocation w1) as [w3 urls']. cbn [fst snd] in *.
    subst urls'. split; [exact HL|reflexivity].
  - rewrite fetchWeather_sends_guarded by exact Hs.
    split; [split; assumption|reflexivity].
Qed.

(** A happening that brings no position. *)
Lemma happenings_London (geolocation : bool) (l : list happening) (w : Session) :
  London_asked w ->
  London_asked (fst (happenings geolocation l w)) /\
  Forall (fun url => exists latitude longitude, url = coords_url latitude longitude)
         (snd (happenings geolocation l w)) /\
  (forallb without_position l = true -> snd (happenings geolocation l w) = []).
Proof.
  revert w. induction l as [|h l IH]; intros w HL.
  - cbn. split; [exact HL|]. split; [constructor|reflexivity].
  - rewrite happenings_cons. cbn [fst snd].
    destruct (happen_London geolocation h w HL) as [H1 Hu].
    destruct (IH _ H1) as (H2 & Hc & Hn). split; [exact H2|]. split.
    + apply Forall_app. split; [|exact Hc].
      destruct h as [i la lo|i|i reply| |]; try (rewrite Hu; constructor).
      destruct Hu as [-> | ->]; [constructor|].
      constructor; [exists la, lo; reflexivity|constructor].
    + cbn [forallb]. intros Hw. apply andb_true_iff in Hw as [Hh Hw].
      rewrite (Hn Hw), app_nil_r.
      destruct h as [i la lo|i|i reply| |]; try exact Hu. discriminate Hh.
Qed.

Lemma coords_times (urls : list string) :
  Forall (fun url => exists latitude longitude, url = coords_url latitude longitude) urls ->
  times (city_url "London") urls = 0%nat.
Proof.
  induction 1 as [|url urls (la & lo & ->) _ IH]; [reflexivity|].
  unfold times in *. cbn [filter]. rewrite coords_is_not_London. exact IH.
Qed.

(** Once London is the last city asked for, in the last render and in the
    render of every position request that is still open, the page does not
    ask for it again, whether its answer came or not: in any order and any
    number, the answers of the geolocation service and of the route, the
    [Retry] button and the [Load Default Location] button make no request
    for London; the only requests are those for a position that arrives,
    and without one there is none at all. *)
Theorem default_city_is_not_asked_again (geolocation : bool) (l : list happening)
    (w : Session) :
  London_asked w ->
  London_asked (fst (happenings geolocation l w)) /\
  times (city_url "London") (snd (happenings geolocation l w)) = 0%nat /\
  Forall (fun url => exists latitude longitude, url = coords_url latitude longitude)
         (snd (happenings geolocation l w)) /\
  (forallb without_position l = true -> snd (happenings geolocation l w) = []).
Proof.
  intros HL. destruct (happenings_London geolocation l w HL) as (H1 & H2 & H3).
  split; [exact H1|]. split; [apply coords_times; exact H2|].
  split; [exact H2|exact H3].
Qed.

Lemma nil_of_length {A : Type} (l : list A) : List.length l = 0%nat -> l = [].
Proof. destruct l; [reflexivity|discriminate]. Qed.

Lemma happen_single (geolocation : bool) (h : happening) (w : Session) :
  single w ->
  automatic h = true ->
  (single (fst (happen geolocation h w)) /\
   match h with
   | PositionArrives _ latitude longitude =>
       snd (happen geolocation h w) = [] \/
       snd (happen geolocation h w) = [coords_url latitude longitude]
   | _ => snd (happen geolocation h w) = []
   end) \/
  (London_asked (fst (happen geolocation h w)) /\
   snd (happen geolocation h w) = [city_url "London"]).
Proof.
  unfold single. intros Hw Ha.
  destruct h as [i la lo|i|i reply| |]; try discriminate Ha; cbn [happen].
  - left.
    destruct (nth_error (prompts w) i) as [r|] eqn:Hr;
      [|split; [exact Hw|left; reflexivity]].
    pose proof (without_length _ _ _ Hr) as Hlen.
    destruct (fetchWeatherByCoords_sends_inv r la lo
                (mkSession (rendered w) (without i (prompts w)) (flights w)))
      as [->| ->]; cbn [fst snd prompts flights].
    + split; [lia|left; reflexivity].
    + split; [rewrite List.length_app; cbn [List.length]; lia|right; reflexivity].
  - destruct (nth_error (prompts w) i) as [r|] eqn:Hr;
      [|left; split; [exact Hw|reflexivity]].
    pose proof (without_length _ _ _ Hr) as Hlen.
    destruct (fetchWeather_sends_inv r "London"
                (mkSession (rendered w) (without i (prompts w)) (flights w)))
      as [->|(_ & _ & ->)]; cbn [fst snd prompts flights rendered].
    + left. split; [lia|reflexivity].
    + right. split; [|reflexivity]. split; [reflexivity|].
      cbn [prompts]. rewrite (nil_of_length (without i (prompts w))) by lia.
      constructor.
  - destruct (nth_error (flights w) i) as [f|] eqn:Hf;
      [|left; split; [exact Hw|reflexivity]].
    pose proof (without_length _ _ _ Hf) as Hlen.
    assert (Hp : prompts w = []) by (apply nil_of_length; lia).
    assert (Hfl : without i (flights w) = []) by (apply nil_of_length; lia).
    rewrite Hp, Hfl. unfold autoFetch. cbn [rendered prompts flights].
    destruct (negb (truthy (weatherData (answered f reply (rendered w))))
              && (retryCount (answered f reply (rendered w)) <? 3)%Z);
      [|left; split; [cbn; lia|reflexivity]].
    destruct geolocation; [left; split; [cbn; lia|reflexivity]|].
    match goal with
    | |- context [fetchWeather_sends ?r "London" ?w1] =>
        destruct (fetchWeather_sends_inv r "London" w1) as [->|(_ & _ & ->)]
    end; cbn [fst snd prompts flights rendered].
    + left. split; [cbn; lia|reflexivity].
    + right. split; [|reflexivity]. split; [reflexivity|constructor].
Qed.

Lemma happenings_single (geolocation : bool) (l : list happening) (w : Session) :
  single w ->
  forallb automatic l = true ->
  (times (city_url "London") (snd (happenings geolocation l w)) <= 1)%nat /\
  (forallb without_position l = true ->
   snd (happenings geolocation l w) = [] \/
   snd (happenings geolocation l w) = [city_url "London"]).
Proof.
  revert w. induction l as [|h l IH]; intros w Hw Hl.
  - cbn. split; [lia|left; reflexivity].
  - cbn [forallb] in Hl. apply andb_true_iff in Hl as [Hh Hl].
    rewrite happenings_cons. cbn [snd]. rewrite times_app.
    destruct (happen_single geolocation h w Hw Hh) as [[H1 Hu]|[H1 Hu]].
    + destruct (IH _ H1 Hl) as [Ht Hn]. split.
      * assert (H0 : times (city_url "London") (snd (happen geolocation h w)) = 0%nat).
        { destruct h as [i la lo|i|i reply| |]; try (rewrite Hu; reflexivity).
          destruct Hu as [-> | ->]; [reflexivity|].
          unfold times. cbn [filter]. rewrite coords_is_not_London. reflexivity. }
        lia.
      * cbn [forallb]. intros Hwp. apply andb_true_iff in Hwp as [Hwh Hwp].
        assert (H0 : snd (happen geolocation h w) = []).
        { destruct h as [i la lo|i|i reply| |]; try exact Hu. discriminate Hwh. }
        rewrite H0. exact (Hn Hwp).
    + destruct (happenings_London geolocation l _ H1) as (_ & Hc & Hn).
      rewrite Hu. split.
      * rewrite (coords_times _ Hc). unfold times. cbn [filter].
        rewrite String.eqb_refl. cbn. lia.
      * cbn [forallb]. intros Hwp. apply andb_true_iff in Hwp as [_ Hwp].
        rewrite (Hn Hwp). right. reflexivity.
Qed.

(** On its own the page asks for the default city at most once.  From the
    mounted page, with or without a geolocation service, and whatever the
    service and the route answer, the requests that need no user hold the
    request for London at most once, so a failed request for London is not
    repeated although [retryCount] is below 3; and if no position arrives
    there is at most one request at all, the one for London.  With the
    user it is otherwise: a press of [Load Default Location] while the
    position request is open asks for London, and the error callback of
    the position request, which holds the render from before the press,
    asks for London again. *)
Theorem default_city_is_asked_once (geolocation : bool) (l : list happening) :
  forallb automatic l = true ->
  (times (city_url "London")
         (snd (mounted geolocation)
          ++ snd (happenings geolocation l (fst (mounted geolocation))))
   <= 1)%nat /\
  (forallb without_position l = true ->
   (snd (mounted geolocation)
    ++ snd (happenings geolocation l (fst (mounted geolocation))))%list = [] \/
   (snd (mounted geolocation)
    ++ snd (happenings geolocation l (fst (mounted geolocation))))%list
   = [city_url "London"]) /\
  snd (happenings true [PressLoadDefault; PositionFails 0] (fst (mounted true)))
  = [city_url "London"; city_url "London"].
Proof.
  intros Hl. split; [|split; [|reflexivity]].
  - rewrite times_app. destruct geolocation.
    + destruct (happenings_single true l (fst (mounted true))) as [H _];
        [unfold single; cbn; lia|exact Hl|].
      change (snd (mounted true)) with (@nil string).
      change (times (city_url "London") []) with 0%nat. lia.
    + destruct (happenings_London false l (fst (mounted false))) as (_ & Hc & _).
      { split; [reflexivity|constructor]. }
      rewrite (coords_times _ Hc).
      change (snd (mounted false)) with [city_url "London"]. 
      change (times (city_url "London") [city_url "London"]) with 1%nat. lia.
  - intros Hwp. destruct geolocation.
    + destruct (happenings_single true l (fst (mounted true))) as [_ H];
        [unfold single; cbn; lia|exact Hl|].
      change (snd (mounted true)) with (@nil string). exact (H Hwp).
    + destruct (happenings_London false l (fst (mounted false))) as (_ & _ & Hn).
      { split; [reflexivity|constructor]. }
      rewrite (Hn Hwp). right. reflexivity.
Qed.

(** ** Trimming and searching *)

Lemma trimStart_split (s : string) :
  exists pre, s = pre ++ String_trimStart s /\ blank pre = true.
Proof.
  induction s as [|c s [pre [Hs Hb]]].
  - exists EmptyString. split; reflexivity.
  - cbn [String_trimStart]. destruct (is_space c) eqn:Hc.
    + exists (String c pre). cbn [append blank]. rewrite Hc, Hb, <- Hs.
      split; reflexivity.
    + exists EmptyString. split; reflexivity.
Qed.

Lemma trimStart_head (s : string) (c : ascii) (rest : string) :
  String_trimStart s = String c rest -> is_space c = false.
Proof.
  induction s as [|d s IH]; cbn [String_trimStart]; [discriminate|].
  destruct (is_space d) eqn:Hd; [exact IH|].
  intros H. inversion H; subst. exact Hd.
Qed.

Lemma trimEnd_cons (c : ascii) (s : string) :
  String_trimEnd (String c s)
  = match String_trimEnd s with
    | EmptyString => if is_space c then EmptyString else String c EmptyString
    | rest => String c rest
    end.
Proof. reflexivity. Qed.

Lemma trimEnd_split (s : string) :
  exists post, s = String_trimEnd s ++ post /\ blank post = true.
Proof.
  induction s as [|c s [post [Hs Hb]]].
  - exists EmptyString. split; reflexivity.
  - rewrite trimEnd_cons. destruct (String_trimEnd s) as [|d t] eqn:Ht.
    + destruct (is_space c) eqn:Hc.
      * exists (String c post). cbn [append blank] in *. rewrite Hc, Hb.
        split; [congruence|reflexivity].
      * exists post. cbn [append] in *. split; [congruence|exact Hb].
    + exists post. cbn [append] in *. split; [congruence|exact Hb].
Qed.

Lemma trimEnd_last (s pre : string) (c : ascii) :
  String_trimEnd s = pre ++ String c EmptyString -> is_space c = false.
Proof.
  revert pre. induction s as [|d s IH]; intros pre.
  - cbn [String_trimEnd]. destruct pre; discriminate.
  - rewrite trimEnd_cons. destruct (String_trimEnd s) as [|x t] eqn:Ht.
    + destruct (is_space d) eqn:Hd.
      * destruct pre; discriminate.
      * destruct pre as [|p pre]; cbn [append]; intros H; inversion H; subst.
        -- exact Hd.
        -- destruct pre; discriminate.
    + destruct pre as [|p pre]; cbn [append]; intros H; inversion H; subst.
      eapply IH. eassumption.
Qed.

Lemma trimEnd_head (s : string) (c : ascii) (rest : string) :
  String_trimEnd s = String c rest -> exists rest', s = String c rest'.
Proof.
  destruct s as [|d s]; [discriminate|]. rewrite trimEnd_cons.
  destruct (String_trimEnd s); [destruct (is_space d)|];
    intros H; inversion H; subst; eexists; reflexivity.
Qed.

(** A search reaches the network only with the trimmed text: every request
    of [handleSearch] asks for the input without the white space around
    it, a text of two code units or more that neither starts nor ends with
    white space; an input that trims to less is answered with the
    validation text and no request. *)
Theorem handleSearch_sends_the_trimmed_text (api : string -> fetch_reply)
    (s : PageState) :
  (forall url, In url (snd (handleSearch api s)) ->
     exists pre c post,
       searchCity s = pre ++ c ++ post /\
       blank pre = true /\ blank post = true /\
       url = city_url c /\
       (2 <= String_length c)%nat /\
       (forall a rest, c = String a rest -> is_space a = false) /\
       (forall front a, c = front ++ String a EmptyString -> is_space a = false)) /\
  ((String_length (String_trim (searchCity s)) < 2)%nat ->
   handleSearch api s
   = (setError (Some "Please enter a valid city name (at least 2 characters)") s,
      [])).
Proof.
  split.
  - intros url Hin. unfold handleSearch in Hin.
    destruct (negb (String.eqb (String_trim (searchCity s)) "")
              && (2 <=? String_length (String_trim (searchCity s)))%nat) eqn:Hv;
      [|destruct Hin].
    apply andb_true_iff in Hv as [_ Hlen]. apply Nat.leb_le in Hlen.
    unfold fetchWeather in Hin.
    destruct (loading s || String.eqb (String_trim (searchCity s)) (lastFetchedCity s));
      cbn [snd] in Hin; [destruct Hin|].
    destruct Hin as [<-|[]].
    destruct (trimStart_split (searchCity s)) as (pre & Hpre & Hbpre).
    destruct (trimEnd_split (String_trimStart (searchCity s))) as (post & Hpost & Hbpost).
    exists pre, (String_trim (searchCity s)), post.
    split; [unfold String_trim; rewrite <- Hpost; exact Hpre|].
    split; [exact Hbpre|]. split; [exact Hbpost|]. split; [reflexivity|].
    split; [exact Hlen|]. split.
    + intros a rest Hc. unfold String_trim in Hc.
      destruct (trimEnd_head _ _ _ Hc) as [rest' Hs].
      exact (trimStart_head _ _ _ Hs).
    + intros front a Hc. exact (trimEnd_last _ _ _ Hc).
  - intros Hlen. unfold handleSearch.
    replace (2 <=? String_length (String_trim (searchCity s)))%nat with false
      by (symmetry; apply Nat.leb_gt; exact Hlen).
    rewrite andb_false_r. reflexivity.
Qed.

(** ** The icons *)

Lemma toLowerCase_app (s1 s2 : string) :
  String_toLowerCase (s1 ++ s2) = String_toLowerCase s1 ++ String_toLowerCase s2.
Proof. induction s1 as [|c s1 IH]; cbn; [reflexivity|rewrite IH; reflexivity]. Qed.

(** The order of the icons.  A condition text that mentions rain, drizzle
    or a shower gets the rain icon wherever the word stands, in whatever
    letter case, and whatever else the text mentions (snow showers get the
    rain icon); sun or clear gives the sun unless the first group is
    mentioned; snow or sleet never gives the bolt or the plain cloud;
    thunder or storm never gives the plain cloud. *)
Theorem getWeatherIcon_order (a w b : string) :
  (In (String_toLowerCase w) ["rain"; "drizzle"; "shower"] ->
   getWeatherIcon (a ++ w ++ b) = CloudRain) /\
  (In (String_toLowerCase w) ["sun"; "clear"] ->
   getWeatherIcon (a ++ w ++ b) = CloudRain \/ getWeatherIcon (a ++ w ++ b) = Sun) /\
  (In (String_toLowerCase w) ["snow"; "sleet"] ->
   getWeatherIcon (a ++ w ++ b) <> Zap /\ getWeatherIcon (a ++ w ++ b) <> Cloud) /\
  (In (String_toLowerCase w) ["thunder"; "storm"] ->
   getWeatherIcon (a ++ w ++ b) <> Cloud).
Proof.
  assert (Hin : String_includes (String_toLowerCase (a ++ w ++ b))
                                (String_toLowerCase w) = true).
  { rewrite !toLowerCase_app. apply includes_app. }
  unfold getWeatherIcon. cbv zeta.
  set (l := String_toLowerCase (a ++ w ++ b)) in *.
  split; [|split; [|split]]; intros Hw.
  - destruct Hw as [Hw|[Hw|[Hw|[]]]]; rewrite <- Hw in Hin; rewrite Hin;
      rewrite ?orb_true_r; reflexivity.
  - destruct (String_includes l "rain" || String_includes l "drizzle"
              || String_includes l "shower"); [left; reflexivity|right].
    destruct Hw as [Hw|[Hw|[]]]; rewrite <- Hw in Hin; rewrite Hin;
      rewrite ?orb_true_r; reflexivity.
  - destruct (String_includes l "rain" || String_includes l "drizzle"
              || String_includes l "shower"); [split; discriminate|].
    destruct (String_includes l "sun" || String_includes l "clear");
      [split; discriminate|].
    destruct Hw as [Hw|[Hw|[]]]; rewrite <- Hw in Hin; rewrite Hin;
      rewrite ?orb_true_r; split; discriminate.
  - destruct (String_includes l "rain" || String_includes l "drizzle"
              || String_includes l "shower"); [discriminate|].
    destruct (String_includes l "sun" || String_includes l "clear");
      [discriminate|].
    destruct (String_includes l "snow" || String_includes l "sleet");
      [discriminate|].
    destruct Hw as [Hw|[Hw|[]]]; rewrite <- Hw in Hin; rewrite Hin;
      rewrite ?orb_true_r; discriminate.
Qed.

(** ** Temperatures and units *)

Lemma whole_range_all (P : Z -> bool) (lo hi : Z) :
  forallb P (whole_range lo hi) = true ->
  forall t, (lo <= t <= hi)%Z -> P t = true.
Proof.
  intros H t Ht. rewrite forallb_forall in H. apply H.
  unfold whole_range. apply in_map_iff.
  exists (Z.to_nat (t - lo)). split; [lia|]. apply in_seq. lia.
Qed.

Lemma is_whole_eq (x : spec_float) (z : Z) :
  is_whole x z = true -> f64_whole x = Some z.
Proof.
  unfold is_whole. destruct (f64_whole x); [|discriminate].
  intros H. apply Z.eqb_eq in H. congruence.
Qed.

Lemma f64_same_eq (x y : spec_float) : f64_same x y = true <-> x = y.
Proof.
  split.
  - destruct x, y; cbn [f64_same]; try discriminate; intros H.
    + apply Bool.eqb_prop in H. congruence.
    + apply Bool.eqb_prop in H. congruence.
    + reflexivity.
    + apply andb_true_iff in H as [H He]. apply andb_true_iff in H as [Hs Hm].
      apply Bool.eqb_prop in Hs. apply Pos.eqb_eq in Hm. apply Z.eqb_eq in He.
      congruence.
  - intros <-. destruct x; cbn [f64_same]; rewrite ?Bool.eqb_reflx; try reflexivity.
    rewrite Pos.eqb_refl, Z.eqb_refl. reflexivity.
Qed.

(** On whole degrees from -150 to 150 the conversion of the page is
    exact: in Celsius it shows the number itself, in Fahrenheit the
    integer nearest to [9t/5 + 32] of exact arithmetic; the roundings of
    the double multiplication, division and addition never change the
    result. *)
Theorem convertTemp_on_whole_degrees (t : Z) :
  (-150 <= t <= 150)%Z ->
  f64_whole (convertTemp UnitC (f64_of_Z t)) = Some t /\
  f64_whole (convertTemp UnitF (f64_of_Z t)) = Some (fahrenheit t).
Proof.
  intros Ht.
  assert (H : forallb (fun z => is_whole (convertTemp UnitC (f64_of_Z z)) z
                             && is_whole (convertTemp UnitF (f64_of_Z z)) (fahrenheit z))
                      (whole_range (-150) 150) = true)
    by (vm_compute; reflexivity).
  pose proof (whole_range_all _ _ _ H t Ht) as Hc. cbv beta in Hc.
  apply andb_true_iff in Hc as [H1 H2].
  split; apply is_whole_eq; assumption.
Qed.

(** In Fahrenheit the chart plots every hour converted twice: the page
    converts the temperature for [chartData] and the chart converts what
    it is handed once more, so the chart shows [fahrenheit (fahrenheit t)]
    where the hourly list beside it shows [fahrenheit t]; the two agree at
    -40 degrees only.  In Celsius they agree. *)
Theorem chart_converts_twice (t : Z) :
  (-150 <= t <= 150)%Z ->
  f64_whole (plotted_temperature UnitF (f64_of_Z t))
  = Some (fahrenheit (fahrenheit t)) /\
  (plotted_temperature UnitF (f64_of_Z t) = convertTemp UnitF (f64_of_Z t)
   <-> t = (-40)%Z) /\
  plotted_temperature UnitC (f64_of_Z t) = convertTemp UnitC (f64_of_Z t).
Proof.
  intros Ht.
  assert (H : forallb (fun z =>
                         is_whole (plotted_temperature UnitF (f64_of_Z z))
                                  (fahrenheit (fahrenheit z))
                         && Bool.eqb
                              (f64_same (plotted_temperature UnitF (f64_of_Z z))
                                        (convertTemp UnitF (f64_of_Z z)))
                              (z =? -40)%Z)
                      (whole_range (-150) 150) = true)
    by (vm_compute; reflexivity).
  pose proof (whole_range_all _ _ _ H t Ht) as Hc. cbv beta in Hc.
  apply andb_true_iff in Hc as [H1 H2]. apply Bool.eqb_prop in H2.
  split; [apply is_whole_eq; exact H1|]. split; [|reflexivity].
  rewrite <- f64_same_eq, H2. apply Z.eqb_eq.
Qed.

(** The three unit helpers on whole inputs: [kelvinToCelsius] takes 273
    off (the fraction .85 always rounds up), [mpsToKmh] gives the integer
    nearest to [3.6 v] and [metersToKm] the integer nearest to [m / 1000],
    a half going up; the double arithmetic does not change the result. *)
Theorem unit_helpers_on_whole_inputs (k v m : Z) :
  (0 <= k <= 400)%Z -> (0 <= v <= 200)%Z -> (0 <= m <= 3000)%Z ->
  f64_whole (kelvinToCelsius (f64_of_Z k)) = Some (k - 273)%Z /\
  f64_whole (mpsToKmh (f64_of_Z v)) = Some (round_half_up (inject_Z v * 36 / 10)) /\
  f64_whole (metersToKm (f64_of_Z m)) = Some ((m + 500) / 1000)%Z.
Proof.
  intros Hk Hv Hm.
  assert (H1 : forallb (fun z => is_whole (kelvinToCelsius (f64_of_Z z)) (z - 273))
                       (whole_range 0 400) = true)
    by (vm_compute; reflexivity).
  assert (H2 : forallb (fun z => is_whole (mpsToKmh (f64_of_Z z))
                                          (round_half_up (inject_Z z * 36 / 10)))
                       (whole_range 0 200) = true)
    by (vm_compute; reflexivity).
  assert (H3 : forallb (fun z => is_whole (metersToKm (f64_of_Z z))
                                          ((z + 500) / 1000))
                       (whole_range 0 3000) = true)
    by (vm_compute; reflexivity).
  split; [|split]; apply is_whole_eq.
  - exact (whole_range_all _ _ _ H1 k Hk).
  - exact (whole_range_all _ _ _ H2 v Hv).
  - exact (whole_range_all _ _ _ H3 m Hm).
Qed.

(** ** Failures without a text *)

Lemma status_in_the_message (st : Z) :
  (100 <= st <= 999)%Z ->
  let msg := "HTTP " ++ integer_text st ++ ": Failed to fetch weather data" in
  String_includes msg "404" = (st =? 404)%Z /\
  String_includes msg "401" = (st =? 401)%Z /\
  String_includes msg "429" = (st =? 429)%Z /\
  String_includes msg "fetch" = true.
Proof.
  intros Hst. cbv zeta.
  assert (H : forallb
                (fun z =>
                   let msg := "HTTP " ++ integer_text z ++ ": Failed to fetch weather data" in
                   Bool.eqb (String_includes msg "404") (z =? 404)%Z
                   && Bool.eqb (String_includes msg "401") (z =? 401)%Z
                   && Bool.eqb (String_includes msg "429") (z =? 429)%Z
                   && String_includes msg "fetch")
                (whole_range 100 999) = true)
    by (vm_compute; reflexivity).
  pose proof (whole_range_all _ _ _ H st Hst) as Hc. cbv beta zeta in Hc.
  apply andb_true_iff in Hc as [Hc H4]. apply andb_true_iff in Hc as [Hc H3].
  apply andb_true_iff in Hc as [H1 H2].
  apply Bool.eqb_prop in H1, H2, H3. auto.
Qed.

(** A failure that brings no error text is told by its status: when the
    answer to a city search is not 2xx and its body is not JSON or has no
    truthy [error], a 404 is shown as the city not being found, a 401 as
    an authentication failure, a 429 as too many requests, and every other
    status as a network error (the fallback text itself contains
    [fetch]). *)
Theorem failure_without_text_is_told_by_status (api : string -> fetch_reply)
    (s : PageState) (c : string) (st : Z) (json : result value)
    (errorData : value) :
  loading s = false ->
  String.eqb c (lastFetchedCity s) = false ->
  api (city_url c) = Responds st json ->
  (100 <= st <= 999)%Z -> ok st = false ->
  errorData = match json with
              | Ok v => v
              | Throw _ => VObject []
              end ->
  nullish errorData = false ->
  truthy (field "error" errorData) = false ->
  error_shown (fst (fetchWeather api s c))
  = Some (if (st =? 404)%Z
          then "City " ++ dquote ++ c ++ dquote
               ++ " not found. Please check the spelling and try again."
          else if (st =? 401)%Z
          then "API authentication failed. Please check the API configuration."
          else if (st =? 429)%Z
          then "Too many requests. Please wait a moment and try again."
          else "Network error. Please check your internet connection and try again.").
Proof.
  intros Hl Hc Hapi Hst Hok He Hn Hf.
  assert (Ht : fetchWeather_try (Responds st json)
               = Throw (Error ("HTTP " ++ integer_text st
                               ++ ": Failed to fetch weather data"))).
  { unfold fetchWeather_try. rewrite Hok. cbn [negb]. rewrite <- He.
    destruct (nullish_false _ Hn) as [Hu Hnull].
    rewrite (getprop_read errorData "error" Hu Hnull eq_refl). cbn [bind].
    unfold or_else. rewrite Hf. reflexivity. }
  rewrite (fetchWeather_sent _ _ _ Hl Hc), Hapi.
  rewrite (settle_failure _ _ _ _ _ Ht). cbn [fst error_shown].
  destruct (status_in_the_message st Hst) as (H1 & H2 & H3 & H4). cbv zeta in *.
  unfold fetchWeather_catch, Error. cbn [error_name error_message].
  change (String.eqb "Error" "AbortError") with false. cbv iota.
  rewrite H1, H2, H3, H4, orb_true_r. reflexivity.
Qed.

End Platform.


(** * Runs on the sample payloads *)

(** C1, as stated, fails: the provider answers with the two-day sample,
    whose UV index is 5.5; the sample passes the structural check, the
    endpoint answers 200, and [uvIndex] in the body is 5.5, not an
    integer. *)
Lemma uvIndex_keeps_its_fraction :
  exists t r,
    (forall S2N N2S,
        GET S2N N2S (Some sample_key) (answers 200 two_days) (city_request "London")
        = (t, Ok r)) /\
    accepted two_days = Ok true /\
    status r = 200%Z /\
    field "uvIndex" (body r) = decimal 11 2 /\
    integer_valued (field "uvIndex" (body r)) = false.
Proof.
  eexists. eexists. split; [intros; cbv; reflexivity|].
  repeat split.
Qed.

(** The rounding theorem on the two-day sample: 18.5 degrees are sent as
    19, 13.3 km/h as 13, and the hour of 10.5 degrees as 11. *)
Lemma rounded_fields_are_whole_witness :
  exists resp,
    forall S2N N2S,
      normalize S2N N2S two_days = Ok resp /\
      forecastdays two_days
      = VArray [day_of 1699920000 [("hour", VArray [hour_at 0])];
                day_of 1700006400 []] /\
      (Math_round S2N N2S (decimal 185 10) = Ok (field "temperature" resp) /\
       field "temperature" resp = VInt 19) /\
      (Math_round S2N N2S (decimal 133 10) = Ok (field "windSpeed" resp) /\
       field "windSpeed" resp = VInt 13) /\
      (exists entries,
          field "hourlyForecast" resp = VArray entries /\
          Forall2 (hour_numbers S2N N2S) [hour_at 0] entries /\
          map (field "temp") entries = [VInt 11]) /\
      field "tomorrowHourlyForecast" resp = VArray [] /\
      (exists entries,
          field "dailyForecast" resp = VArray entries /\
          Forall2 (day_numbers_of S2N N2S)
                  [day_of 1699920000 [("hour", VArray [hour_at 0])];
                   day_of 1700006400 []] entries /\
          map (field "max") entries = [VInt 22; VInt 22]) /\
      summary_numbers S2N N2S (day_of 1700006400 []) (field "tomorrowDaySummary" resp) /\
      field "uvIndex" resp = decimal 11 2.
Proof.
  eexists. intros S2N N2S.
  assert (H : normalize S2N N2S two_days = Ok _) by (cbv; reflexivity).
  split; [exact H|]. split; [reflexivity|].
  destruct (rounded_fields_are_whole S2N N2S two_days _ _ _ H eq_refl)
    as ((Htemp & _ & _ & _ & Hwind & _) & (hourly & Hh & Hhours)
        & (tomorrow & Ht & Htomorrow) & (daily & Hd & Hdays) & Hsum & Hcopied & _).
  split; [split; [exact Htemp|reflexivity]|].
  split; [split; [exact Hwind|reflexivity]|].
  split.
  { exists hourly. split; [exact Hh|]. split; [exact Hhours|].
    cbv in Hh. inversion Hh. reflexivity. }
  split.
  { inversion Htomorrow; subst. exact Ht. }
  split.
  { exists daily. split; [exact Hd|]. split; [exact Hdays|].
    cbv in Hd. inversion Hd. reflexivity. }
  split; [exact (Hsum _ _ eq_refl)|].
  destruct Hcopied as (_ & _ & Huv & _). exact Huv.
Defined.

(** C3, as stated, fails on a payload that is accepted and not mapped: the
    alert list holds [null], reading [alert.event] throws (line 224), and
    the endpoint answers 500 with a body that has no [alerts] key,
    although the list holds an alert. *)
Lemma null_alert_is_answered_500 :
  accepted null_alert = Ok true /\
  or_else (field "alert" (field "alerts" null_alert)) (VArray []) = VArray [VNull] /\
  exists e t r,
    (forall S2N N2S,
        normalize S2N N2S null_alert = Throw e /\
        GET S2N N2S (Some sample_key) (answers 200 null_alert) (city_request "London")
        = (t, Ok r)) /\
    error_name e = "TypeError" /\
    r = mkResponse 500
          (error_body "An unexpected error occurred while fetching weather data") [] /\
    has_own "alerts" (body r) = false.
Proof.
  split; [reflexivity|]. split; [reflexivity|].
  eexists. eexists. eexists.
  split; [intros; split; cbv; reflexivity|].
  repeat split.
Qed.

(** The alert theorem on the sample with two alerts: two entries, the
    first description cut to 200 code units and marked. *)
Lemma alerts_omitted_or_mapped_witness :
  exists resp,
    forall S2N N2S,
      normalize S2N N2S two_alerts = Ok resp /\
      exists mapped,
        field "alerts" resp = VArray mapped /\
        has_own "alerts" (toJSON resp) = true /\
        List.length mapped = 2%nat /\
        Forall2 alert_entry [long_alert; alert_without_desc] mapped /\
        map (field "title") mapped = [VString "Heat advisory"; VString "Flood Warning"] /\
        map (fun m => String.length (text_of (field "description" m))) mapped
        = [203%nat; 9%nat].
Proof.
  eexists. intros S2N N2S.
  assert (H : normalize S2N N2S two_alerts = Ok _) by (cbv; reflexivity).
  split; [exact H|].
  destruct (alerts_omitted_or_mapped S2N N2S two_alerts _ H)
    as (alerts & Ha & _ & Hsome).
  cbv in Ha. inversion Ha; subst alerts. clear Ha.
  destruct (Hsome ltac:(discriminate)) as (mapped & Hm & Hown & _ & Hlen & Hentries).
  exists mapped. split; [exact Hm|]. split; [exact Hown|].
  split; [exact Hlen|]. split; [exact Hentries|].
  cbv in Hm. inversion Hm. split; reflexivity.
Defined.

(** The hourly-list theorem on the single-day sample: 24 hours today, no
    tomorrow. *)
Lemma hourly_lists_of_the_days_witness :
  exists resp,
    forall S2N N2S,
      normalize S2N N2S single_day = Ok resp /\
      forecastdays single_day = VArray [day_of 1699920000 [("hour", VArray hours24)]] /\
      (exists out, field "hourlyForecast" resp = VArray out /\
                   List.length out = 24%nat) /\
      field "tomorrowHourlyForecast" resp = VArray [] /\
      field "tomorrowDaySummary" resp = VNull /\
      has_own "tomorrowDaySummary" (toJSON resp) = true.
Proof.
  eexists. intros S2N N2S.
  assert (H : normalize S2N N2S single_day = Ok _) by (cbv; reflexivity).
  split; [exact H|]. split; [reflexivity|].
  destruct (hourly_lists_of_the_days S2N N2S single_day _ _ [] H eq_refl)
    as (_ & Hh & _ & Hs).
  split; [exact (Hh hours24 eq_refl)|].
  destruct (Hs eq_refl) as (Ht & Hn & Ho & _).
  split; [exact Ht|]. split; [exact Hn|exact Ho].
Defined.

(** C5, as stated, fails in its last part: for the single-day sample the
    endpoint answers 200 with 24 hourly entries and an empty
    [tomorrowHourlyForecast], and the body does carry the key
    [tomorrowDaySummary], with the value [null]. *)
Lemma single_day_summary_is_null_not_absent :
  exists t r,
    (forall S2N N2S,
        GET S2N N2S (Some sample_key) (answers 200 single_day) (city_request "London")
        = (t, Ok r)) /\
    status r = 200%Z /\
    (exists out, field "hourlyForecast" (body r) = VArray out /\
                 List.length out = 24%nat) /\
    field "tomorrowHourlyForecast" (body r) = VArray [] /\
    has_own "tomorrowDaySummary" (body r) = true /\
    field "tomorrowDaySummary" (body r) = VNull.
Proof.
  eexists. eexists. split; [intros; cbv; reflexivity|].
  split; [reflexivity|]. split; [eexists; split; reflexivity|].
  repeat split.
Qed.

(** The daily-forecast theorem on the two-day sample. *)
Lemma dailyForecast_one_entry_per_day_witness :
  exists resp,
    forall S2N N2S,
      normalize S2N N2S two_days = Ok resp /\
      exists days out,
        forecastdays two_days = VArray days /\
        field "dailyForecast" resp = VArray out /\
        out = map (dayEntry S2N N2S) days /\
        List.length out = List.length days.
Proof.
  eexists. intros S2N N2S.
  assert (H : normalize S2N N2S two_days = Ok _) by (cbv; reflexivity).
  split; [exact H|].
  exact (dailyForecast_one_entry_per_day S2N N2S two_days _ H).
Defined.

(** C6, as stated, fails in its bound: the provider answers with eight
    forecast days, the payload passes the structural check, the endpoint
    answers 200 and [dailyForecast] has eight entries. *)
Lemma eight_days_give_eight_entries :
  exists t r out,
    (forall S2N N2S,
        GET S2N N2S (Some sample_key) (answers 200 eight_days) (city_request "London")
        = (t, Ok r)) /\
    accepted eight_days = Ok true /\
    status r = 200%Z /\
    field "dailyForecast" (body r) = VArray out /\
    List.length out = 8%nat.
Proof.
  eexists. eexists. eexists. split; [intros; cbv; reflexivity|].
  repeat split.
Qed.

(** C9, as stated, fails on a payload that is accepted and not mapped:
    tomorrow's hour array holds the empty record, reading
    [hour.condition.text] throws (line 195) before the summary of lines
    201-208 is built, and the endpoint answers 500: no
    [tomorrowDaySummary] is produced for these two forecast days. *)
Lemma unmappable_tomorrow_hour_is_answered_500 :
  accepted tomorrow_with_empty_hour = Ok true /\
  forecastdays tomorrow_with_empty_hour
  = VArray [day_of 1699920000 [];
            day_of 1700006400 [("hour", VArray [VObject []])]] /\
  exists e t r,
    (forall S2N N2S,
        normalize S2N N2S tomorrow_with_empty_hour = Throw e /\
        GET S2N N2S (Some sample_key) (answers 200 tomorrow_with_empty_hour)
            (city_request "London")
        = (t, Ok r)) /\
    error_name e = "TypeError" /\
    r = mkResponse 500
          (error_body "An unexpected error occurred while fetching weather data") [] /\
    has_own "tomorrowDaySummary" (body r) = false.
Proof.
  split; [reflexivity|]. split; [reflexivity|].
  eexists. eexists. eexists.
  split; [intros; split; cbv; reflexivity|].
  repeat split.
Qed.

(** The summary theorem on the two-day sample, whose second day has no
    [hour] field. *)
Lemma tomorrowDaySummary_matches_second_daily_entry_witness :
  exists resp,
    forall S2N N2S,
      normalize S2N N2S two_days = Ok resp /\
      forecastdays two_days
      = VArray [day_of 1699920000 [("hour", VArray [hour_at 0])];
                day_of 1700006400 []] /\
      field "hour" (day_of 1700006400 []) = VUndefined /\
      exists daily,
        field "tomorrowDaySummary" resp = summaryEntry S2N N2S (day_of 1700006400 []) /\
        field "dailyForecast" resp = VArray daily /\
        nth_error daily 1 = Some (dayEntry S2N N2S (day_of 1700006400 [])) /\
        forall k, In k ["temp"; "min"; "max"; "condition"; "description"; "icon"] ->
                  field k (field "tomorrowDaySummary" resp)
                  = field k (dayEntry S2N N2S (day_of 1700006400 [])).
Proof.
  eexists. intros S2N N2S.
  assert (H : normalize S2N N2S two_days = Ok _) by (cbv; reflexivity).
  split; [exact H|]. split; [reflexivity|]. split; [reflexivity|].
  exact (tomorrowDaySummary_matches_second_daily_entry S2N N2S two_days _ _ _ [] H eq_refl).
Defined.

(** The query theorem on three requests: coordinates, a city, and a
    latitude alone. *)
Lemma query_selects_the_single_call_witness :
  truthy_param (Some sample_key) = Some sample_key /\
  forall S2N N2S,
    calls (fst (GET S2N N2S (Some sample_key) (answers 200 two_days)
                    (mkRequest None (Some "51.52") (Some "-0.11"))))
    = [request_url sample_key "51.52,-0.11"] /\
    calls (fst (GET S2N N2S (Some sample_key) (answers 200 two_days)
                    (city_request "London")))
    = [request_url sample_key "London"] /\
    GET S2N N2S (Some sample_key) (answers 200 two_days)
        (mkRequest None (Some "51.52") None)
    = ([], Ok (mkResponse 400
                 (error_body "Please provide either a city name or coordinates") [])).
Proof.
  split; [reflexivity|]. intros S2N N2S. split; [|split].
  - destruct (query_selects_the_single_call S2N N2S (Some sample_key)
                (answers 200 two_days)
                (mkRequest None (Some "51.52") (Some "-0.11")) sample_key eq_refl)
      as (H & _ & _).
    exact (H "51.52" "-0.11" eq_refl eq_refl).
  - destruct (query_selects_the_single_call S2N N2S (Some sample_key)
                (answers 200 two_days) (city_request "London") sample_key eq_refl)
      as (_ & H & _).
    exact (H "London" (or_introl eq_refl) eq_refl).
  - destruct (query_selects_the_single_call S2N N2S (Some sample_key)
                (answers 200 two_days) (mkRequest None (Some "51.52") None)
                sample_key eq_refl)
      as (_ & _ & H).
    exact (H (or_intror eq_refl) eq_refl).
Defined.

(** C4, as stated, fails for mixed input: a request with a city and a
    coordinate pair is not answered 400; the handler calls the provider
    once, with the coordinates as the query. *)
Lemma mixed_input_makes_a_call :
  exists t r,
    (forall S2N N2S,
        GET S2N N2S (Some sample_key) (answers 200 two_days)
            (mkRequest (Some "London") (Some "51.52") (Some "-0.11"))
        = (t, Ok r)) /\
    calls t = [request_url sample_key "51.52,-0.11"] /\
    status r = 200%Z.
Proof.
  eexists. eexists. split; [intros; cbv; reflexivity|].
  split; reflexivity.
Qed.

(** The theorem on the logged URL at a request whose city is the
    credential: the endpoint answers 200, and the line it logged holds the
    credential in its [q] parameter. *)
Lemma credential_survives_in_the_logged_url_witness :
  exists line rest r,
    (forall S2N N2S,
        GET S2N N2S (Some sample_key) (answers 200 two_days) (city_request sample_key)
        = (console_log [LogString "Fetching weather data from:"; LogString line]
             :: rest, Ok r)) /\
    line = "https://api.weatherapi.com/v1/forecast.json?key=[API_KEY]&q=4f1c9a27&days=7&aqi=no&alerts=yes" /\
    String_includes line sample_key = true /\
    status r = 200%Z.
Proof.
  eexists. eexists. eexists. split; [intros; cbv; reflexivity|].
  split; [reflexivity|]. split; [|reflexivity].
  destruct (credential_survives_in_the_logged_url
              (fun _ => NaN) (fun _ => EmptyString)
              (Some sample_key) (answers 200 two_days) (city_request sample_key)
              sample_key sample_key "" "" eq_refl eq_refl eq_refl)
    as (line & rest & Hrun & Hline & Hin).
  rewrite Hline in Hin. exact Hin.
Defined.

(** The ordering theorem on a request without parameters and an
    environment without the credential. *)
Lemma credential_check_comes_first_witness :
  truthy_param None = None /\
  queryParam (mkRequest None None None) = None /\
  forall S2N N2S,
    snd (GET S2N N2S None (answers 200 two_days) (mkRequest None None None))
    = Ok (mkResponse 500
            (error_body "Weather service is not configured. Please contact the administrator.")
            []).
Proof.
  split; [reflexivity|]. split; [reflexivity|]. intros S2N N2S.
  apply (credential_check_comes_first S2N N2S None (answers 200 two_days)
           (mkRequest None None None) eq_refl eq_refl).
Defined.




(** The alert lemma on an alert with a 250-unit description. *)
Lemma mapAlert_fields_witness :
  exists out,
    forall S2N N2S,
      mapAlert S2N N2S long_alert = Ok out /\
      field "title" out = VString "Heat advisory" /\
      field "severity" out = VString "severe" /\
      String.length (text_of (field "description" out)) = 203%nat.
Proof.
  eexists. intros S2N N2S.
  assert (H : mapAlert S2N N2S long_alert = Ok _) by (cbv; reflexivity).
  split; [exact H|].
  destruct (mapAlert_fields S2N N2S long_alert _ H) as (Ht & Hs & Hd & _).
  split; [exact Ht|]. split; [exact Hs|].
  exact (proj2 (Hd _ eq_refl) eq_refl).
Defined.

(** The 502 lemma on the payload without [current]. *)
Lemma missing_section_is_answered_502_witness :
  truthy (field "current" without_current) = false /\
  forall S2N N2S,
    snd (GET S2N N2S (Some sample_key) (answers 200 without_current)
             (city_request "London"))
    = Ok (mkResponse 502
            (error_body "Invalid weather data received from service") []).
Proof.
  split; [reflexivity|]. intros S2N N2S.
  apply (missing_section_is_answered_502 S2N N2S (Some sample_key)
           (answers 200 without_current) (city_request "London")
           sample_key "London" 200 without_current);
    try reflexivity; try discriminate.
  right. left. reflexivity.
Defined.

(** The 200 lemma on the run that answers the two-day sample. *)
Lemma GET_200_is_a_mapped_payload_witness :
  exists t r,
    forall S2N N2S,
      GET S2N N2S (Some sample_key) (answers 200 two_days) (city_request "London")
      = (t, Ok r) /\
      status r = 200%Z /\
      exists resp,
        normalize S2N N2S two_days = Ok resp /\
        r = mkResponse 200 (toJSON resp) [("Cache-Control", "public, max-age=600")].
Proof.
  eexists. eexists. intros S2N N2S.
  assert (H : GET S2N N2S (Some sample_key) (answers 200 two_days)
                  (city_request "London") = (_, Ok _)) by (cbv; reflexivity).
  split; [exact H|]. split; [reflexivity|].
  destruct (GET_200_is_a_mapped_payload S2N N2S _ _ _ _ _ H eq_refl)
    as (apiKey & q & st & data & resp & _ & _ & Hf & _ & _ & Hn & Hr).
  inversion Hf; subst data. exists resp. split; [exact Hn|exact Hr].
Defined.

(** Two samples have the shape that is mapped; the sample whose current
    temperature does not convert to a number has not, and is not mapped. *)
Lemma mappable_is_mapped_witness :
  mappable two_days = true /\
  mappable single_day = true /\
  mappable unprintable_temp = false /\
  accepted unprintable_temp = Ok true /\
  forall S2N N2S,
    (exists resp, normalize S2N N2S two_days = Ok resp) /\
    (exists resp, normalize S2N N2S single_day = Ok resp) /\
    (exists e, normalize S2N N2S unprintable_temp = Throw e).
Proof.
  split; [reflexivity|]. split; [reflexivity|]. split; [reflexivity|].
  split; [reflexivity|]. intros S2N N2S. split; [|split].
  - exact (proj1 (proj1 (mappable_is_mapped S2N N2S two_days)) eq_refl).
  - exact (proj1 (proj1 (mappable_is_mapped S2N N2S single_day)) eq_refl).
  - exact (proj1 (proj2 (mappable_is_mapped S2N N2S unprintable_temp)) eq_refl).
Defined.


(** The 500 theorem on the payload whose day carries only its date. *)
Lemma unmappable_payload_is_answered_500_witness :
  mappable bare_day = false /\
  accepted bare_day = Ok true /\
  exists e,
    error_name e = "TypeError" /\
    forall S2N N2S,
      normalize S2N N2S bare_day = Throw e /\
      snd (GET S2N N2S (Some sample_key) (answers 200 bare_day) (city_request "London"))
      = Ok (mkResponse 500
              (error_body "An unexpected error occurred while fetching weather data")
              []).
Proof.
  split; [reflexivity|]. split; [reflexivity|].
  eexists. split; [|intros S2N N2S].
  2:{ assert (H0 : normalize S2N N2S bare_day = Throw _) by (cbv; reflexivity).
      split; [exact H0|].
      destruct (unmappable_payload_is_answered_500 S2N N2S (Some sample_key)
                  (answers 200 bare_day) (city_request "London")
                  sample_key "London" 200 bare_day
                  eq_refl eq_refl eq_refl eq_refl eq_refl eq_refl)
        as (e & _ & _ & HG).
      rewrite HG. reflexivity. }
  reflexivity.
Defined.

(** The theorem on the answers, on the run that answers the two-day
    sample. *)
Lemma GET_answers_witness :
  exists t r,
    forall S2N N2S,
      GET S2N N2S (Some sample_key) (answers 200 two_days) (city_request "London")
      = (t, Ok r) /\
      (In (status r) [200; 400; 408; 500; 502; 503]%Z \/
       exists apiKey q json,
         truthy_param (Some sample_key) = Some apiKey /\
         queryParam (city_request "London") = Some q /\
         answers 200 two_days (request_url apiKey q) = Responds (status r) json /\
         ok (status r) = false) /\
      (status r = 200%Z \/
       exists msg, body r = error_body msg /\ headers r = []).
Proof.
  eexists. eexists. intros S2N N2S.
  assert (H : GET S2N N2S (Some sample_key) (answers 200 two_days)
                  (city_request "London") = (_, Ok _)) by (cbv; reflexivity).
  split; [exact H|].
  exact (GET_answers S2N N2S _ _ _ _ _ H).
Defined.

(** The pass-through theorem on a provider that answers 403 with an error
    body, and on one whose error message cannot be printed. *)
Lemma provider_error_is_passed_on_witness :
  nullish quoting_error = false /\
  nullish unprintable_error = false /\
  forall S2N N2S,
    snd (GET S2N N2S (Some sample_key) (answers 403 quoting_error)
             (city_request "London"))
    = Ok (mkResponse 403
            (error_body "Weather service error: API key 4f1c9a27 has been disabled.")
            []) /\
    snd (GET S2N N2S (Some sample_key) (answers 403 unprintable_error)
             (city_request "London"))
    = Ok (mkResponse 500
            (error_body "An unexpected error occurred while fetching weather data")
            []).
Proof.
  split; [reflexivity|]. split; [reflexivity|]. intros S2N N2S. split.
  - refine (proj1 (provider_error_is_passed_on S2N N2S (Some sample_key)
                     (answers 403 quoting_error) (city_request "London")
                     sample_key "London" 403 (Ok quoting_error) quoting_error
                     eq_refl eq_refl eq_refl _ _ eq_refl eq_refl) _ eq_refl);
      [lia|discriminate].
  - refine (proj1 (proj2 (proj2
              (provider_error_is_passed_on S2N N2S (Some sample_key)
                 (answers 403 unprintable_error) (city_request "London")
                 sample_key "London" 403 (Ok unprintable_error) unprintable_error
                 eq_refl eq_refl eq_refl _ _ eq_refl eq_refl))) _ eq_refl);
      [lia|discriminate].
Defined.

(** The theorem on the encoded query, on a query with an ampersand. *)
Lemma encoded_query_has_no_separator_witness :
  String_includes (encodeURIComponent "Paris & Lyon") "&" = false /\
  encodeURIComponent "Paris & Lyon" = "Paris%20%26%20Lyon".
Proof.
  split; [|reflexivity].
  apply (encoded_query_has_no_separator "Paris & Lyon" "&"%char).
  left. reflexivity.
Defined.

(** * Runs of the page *)

(** The theorem on the failures of the route, on the provider that answers
    403: the page shows the route's text and counts the attempt. *)
Lemma route_failure_on_the_page_witness :
  exists t r,
    forall S2N N2S,
      GET S2N N2S (Some sample_key) (answers 403 quoting_error) (city_request "Paris")
      = (t, Ok r) /\
      status r = 403%Z /\
      fetchWeather N2S (served r) initial_page "Paris"
      = (mkPage VNull false
                (Some "Weather service error: API key 4f1c9a27 has been disabled.")
                "" UnitC 1 "Paris",
         ["/api/weather?city=Paris"]).
Proof.
  eexists. eexists. intros S2N N2S.
  assert (H : GET S2N N2S (Some sample_key) (answers 403 quoting_error)
                  (city_request "Paris") = (_, Ok _)) by (cbv; reflexivity).
  split; [exact H|]. split; [reflexivity|].
  match type of H with
  | _ = (_, Ok ?r) =>
      destruct (route_failure_on_the_page S2N N2S _ _ _ _ r (served r) initial_page
                  "Paris" H ltac:(cbn; discriminate) eq_refl eq_refl eq_refl)
        as (msg & Hb & _ & _ & Hf)
  end.
  rewrite Hf. inversion Hb; subst msg. reflexivity.
Defined.

(** The theorem on mapping failures, on the payload whose day carries only
    its date. *)
Lemma mapping_failure_is_shown_as_network_error_witness :
  mappable bare_day = false /\
  accepted bare_day = Ok true /\
  exists r,
    status r = 500%Z /\
    forall S2N N2S,
      snd (GET S2N N2S (Some sample_key) (answers 200 bare_day) (city_request "London"))
      = Ok r /\
      fetchWeather N2S (served r) showing_London "Paris"
      = (mkPage (weatherData showing_London) false
                (Some "Network error. Please check your internet connection and try again.")
                "" UnitC 1 "Paris",
         ["/api/weather?city=Paris"]).
Proof.
  split; [reflexivity|]. split; [reflexivity|].
  eexists. split; [|intros S2N N2S].
  2:{ assert (H : snd (GET S2N N2S (Some sample_key) (answers 200 bare_day)
                           (city_request "London")) = Ok _) by (cbv; reflexivity).
      split; [exact H|].
      match type of H with
      | _ = Ok ?r =>
          exact (proj2 (mapping_failure_is_shown_as_network_error S2N N2S
                          (Some sample_key) (answers 200 bare_day)
                          (city_request "London")
                          sample_key "London" 200 bare_day r (served r)
                          showing_London "Paris"
                          eq_refl eq_refl eq_refl eq_refl eq_refl eq_refl H
                          eq_refl eq_refl eq_refl))
      end. }
  reflexivity.
Defined.

(** The theorem on the records of the route, on the two-day sample: the
    page takes the record. *)
Lemma route_record_on_the_page_witness :
  exists resp,
    forall S2N N2S,
      normalize S2N N2S two_days = Ok resp /\
      fetchWeather_try N2S (Responds 200 (Ok (toJSON resp))) = Ok (toJSON resp).
Proof.
  eexists. intros S2N N2S.
  assert (H : normalize S2N N2S two_days = Ok _) by (cbv; reflexivity).
  split; [exact H|].
  rewrite (route_record_on_the_page S2N N2S two_days _ H). reflexivity.
Defined.

(** The theorem on the retry button: London is shown, a search for Paris
    fails because the route cannot be reached, and the retry fetches
    nothing. *)
Lemma retry_after_a_failed_search_fetches_nothing_witness :
  truthy (weatherData showing_London) = true /\
  forall N2S,
    error_shown (fst (fetchWeather N2S unreachable showing_London "Paris"))
    = Some "Network error. Please check your internet connection and try again." /\
    handleRetry N2S (answers 200 VNull)
      (fst (fetchWeather N2S unreachable showing_London "Paris"))
    = (mkPage (weatherData showing_London) false None "" UnitC 0 "Paris", []) /\
    snd (autoFetch true
           (mkSession (fst (handleRetry N2S (answers 200 VNull)
                              (fst (fetchWeather N2S unreachable showing_London
                                      "Paris"))))
                      [] []))
    = [].
Proof.
  split; [reflexivity|]. intros N2S.
  destruct (retry_after_a_failed_search_fetches_nothing N2S unreachable
              (answers 200 VNull) true showing_London "Paris"
              (TypeError "Failed to fetch") eq_refl eq_refl eq_refl eq_refl)
    as (Hshown & Hretry & Hauto).
  split; [exact Hshown|]. split; [exact Hretry|].
  rewrite (Hauto eq_refl [] []). reflexivity.
Defined.

(** The bound on a page whose position request fails, whose route cannot
    be reached, and whose later position requests bring a position: three
    requests, and the happenings after the third failure bring no more. *)
Lemma auto_fetch_is_bounded_witness :
  forallb automatic three_attempts = true /\
  forall N2S,
    snd (happenings N2S true three_attempts (fst (mounted true)))
    = ["/api/weather?city=London"; "/api/weather?lat=51.52&lon=-0.11";
       "/api/weather?lat=51.52&lon=-0.11"] /\
    (List.length (snd (mounted true))
     + List.length (snd (happenings N2S true three_attempts (fst (mounted true))))
     <= 3)%nat.
Proof.
  split; [reflexivity|]. intros N2S. split; [reflexivity|].
  exact (proj1 (proj2 (auto_fetch_is_bounded N2S true three_attempts
                         (fst (mounted true)) eq_refl))).
Defined.

(** The theorem on the default city, on a page whose position requests
    fail and whose route cannot be reached: one request. *)
Lemma default_city_is_asked_once_witness :
  forallb automatic [PositionFails 0; RouteAnswers 0 refused;
                     PositionFails 0; RouteAnswers 0 refused] = true /\
  forall N2S,
    (snd (mounted true)
     ++ snd (happenings N2S true [PositionFails 0; RouteAnswers 0 refused;
                                  PositionFails 0; RouteAnswers 0 refused]
               (fst (mounted true))))%list
    = ["/api/weather?city=London"] /\
    (times (city_url "London")
           (snd (mounted true)
            ++ snd (happenings N2S true [PositionFails 0; RouteAnswers 0 refused;
                                         PositionFails 0; RouteAnswers 0 refused]
                      (fst (mounted true))))
     <= 1)%nat.
Proof.
  split; [reflexivity|]. intros N2S. split; [reflexivity|].
  exact (proj1 (default_city_is_asked_once N2S true
                  [PositionFails 0; RouteAnswers 0 refused;
                   PositionFails 0; RouteAnswers 0 refused] eq_refl)).
Defined.

(** The theorem on searches, on an input with white space around the
    name. *)
Lemma handleSearch_sends_the_trimmed_text_witness :
  String_trim "  Paris " = "Paris" /\
  forall N2S,
    snd (handleSearch N2S unreachable
           (mkPage VNull false None "  Paris " UnitC 0 ""))
    = ["/api/weather?city=Paris"] /\
    exists pre c post,
      "  Paris " = pre ++ c ++ post /\
      blank pre = true /\ blank post = true /\
      "/api/weather?city=Paris" = city_url c /\
      (2 <= String_length c)%nat.
Proof.
  split; [reflexivity|]. intros N2S. split; [reflexivity|].
  destruct (proj1 (handleSearch_sends_the_trimmed_text N2S unreachable
                     (mkPage VNull false None "  Paris " UnitC 0 ""))
              "/api/weather?city=Paris" (or_introl eq_refl))
    as (pre & c & post & H1 & H2 & H3 & H4 & H5 & _).
  exists pre, c, post. repeat split; assumption.
Defined.

(** The theorem on the icons, on a condition text of the provider: snow
    showers get the rain icon. *)
Lemma getWeatherIcon_order_witness :
  getWeatherIcon "Light Snow Showers" = CloudRain.
Proof.
  exact (proj1 (getWeatherIcon_order "Light Snow " "Shower" "s")
           (or_intror (or_intror (or_introl eq_refl)))).
Defined.

(** The theorem on the default city, on a page whose request for London
    is on its way: the request fails, the two buttons are pressed, one
    position request fails and the next brings a position.  The only
    request is the one for the position. *)
Lemma default_city_is_not_asked_again_witness :
  London_asked (fst (mounted false)) /\
  forall N2S,
    snd (happenings N2S true
           [RouteAnswers 0 refused; PressRetry; PressLoadDefault; PositionFails 0;
            PositionArrives 0 "51.52" "-0.11"]
           (fst (mounted false)))
    = ["/api/weather?lat=51.52&lon=-0.11"] /\
    times (city_url "London")
          (snd (happenings N2S true
                  [RouteAnswers 0 refused; PressRetry; PressLoadDefault;
                   PositionFails 0; PositionArrives 0 "51.52" "-0.11"]
                  (fst (mounted false))))
    = 0%nat.
Proof.
  assert (H : London_asked (fst (mounted false)))
    by (split; [reflexivity|constructor]).
  split; [exact H|]. intros N2S. split; [reflexivity|].
  exact (proj1 (proj2 (default_city_is_not_asked_again N2S true
                         [RouteAnswers 0 refused; PressRetry; PressLoadDefault;
                          PositionFails 0; PositionArrives 0 "51.52" "-0.11"]
                         (fst (mounted false)) H))).
Defined.

(** The theorem on failures without a text, on a 404 whose body is not
    JSON. *)
Lemma failure_without_text_is_told_by_status_witness :
  ok 404 = false /\
  forall N2S,
    error_shown (fst (fetchWeather N2S (not_json 404) initial_page "Paris"))
    = Some ("City " ++ dquote ++ "Paris" ++ dquote
            ++ " not found. Please check the spelling and try again.").
Proof.
  split; [reflexivity|]. intros N2S.
  refine (failure_without_text_is_told_by_status N2S (not_json 404) initial_page
            "Paris" 404 _ (VObject []) eq_refl eq_refl eq_refl _ eq_refl
            eq_refl eq_refl eq_refl).
  lia.
Defined.

(** The theorem on the conversion, at 10 and at -18 degrees. *)
Lemma convertTemp_on_whole_degrees_witness :
  f64_whole (convertTemp UnitF (f64_of_Z 10)) = Some 50%Z /\
  f64_whole (convertTemp UnitF (f64_of_Z (-18))) = Some 0%Z.
Proof.
  split.
  - exact (proj2 (convertTemp_on_whole_degrees 10 ltac:(lia))).
  - exact (proj2 (convertTemp_on_whole_degrees (-18) ltac:(lia))).
Defined.

(** The theorem on the chart, at 10 degrees: the list shows 50, the chart
    plots 122. *)
Lemma chart_converts_twice_witness :
  f64_whole (convertTemp UnitF (f64_of_Z 10)) = Some 50%Z /\
  f64_whole (plotted_temperature UnitF (f64_of_Z 10)) = Some 122%Z.
Proof.
  split; [reflexivity|].
  exact (proj1 (chart_converts_twice 10 ltac:(lia))).
Defined.

(** The theorem on the unit helpers, at 300 kelvin, 10 metres per second
    and 1500 metres. *)
Lemma unit_helpers_on_whole_inputs_witness :
  f64_whole (kelvinToCelsius (f64_of_Z 300)) = Some 27%Z /\
  f64_whole (mpsToKmh (f64_of_Z 10)) = Some 36%Z /\
  f64_whole (metersToKm (f64_of_Z 1500)) = Some 2%Z.
Proof.
  exact (unit_helpers_on_whole_inputs 300 10 1500 ltac:(lia) ltac:(lia) ltac:(lia)).
Defined.
